(** * cm-gpt-service: a shallow embedding of [server.js]

    The service is an Express application with three POST handlers
    ([/api/suggest], [/api/evaluate], [/api/raw]) that build a prompt,
    call the completion API through [createResponseWithFallback] and
    post-process the answer with [linesToItems].  This file embeds those
    functions and proves the properties the specification states about
    them. *)

From Stdlib Require Import ZArith NArith QArith Qround Lia List Ascii String.
From stdpp Require Import base option list strings gmap.
From Equations Require Import Equations.
Import ListNotations.

Set Warnings "-register-all,-clear-no-such-hyp".

Close Scope Q_scope.
Local Open Scope N_scope.

(** ** Strings

    A JavaScript string is a sequence of UTF-16 code units.  The literals of
    the source file are written here as Rocq strings (UTF-8 bytes) and
    decoded by [js]. *)

Abbreviation jsstring := (list N).

Module Utf8.

(** A single code point as UTF-16: one unit in the basic plane, a
    surrogate pair above it. *)
Definition units (cp : N) : jsstring :=
  if cp <? 65536 then [cp]
  else [55296 + (cp - 65536) / 1024; 56320 + (cp - 65536) mod 1024].

Fixpoint decode (bs : list N) : jsstring :=
  match bs with
  | [] => []
  | b0 :: r =>
      if b0 <? 128 then b0 :: decode r
      else if b0 <? 224 then
        match r with
        | b1 :: r1 => units ((b0 mod 32) * 64 + b1 mod 64) ++ decode r1
        | _ => [65533]
        end
      else if b0 <? 240 then
        match r with
        | b1 :: b2 :: r2 =>
            units ((b0 mod 16) * 4096 + (b1 mod 64) * 64 + b2 mod 64) ++ decode r2
        | _ => [65533]
        end
      else
        match r with
        | b1 :: b2 :: b3 :: r3 =>
            units ((b0 mod 8) * 262144 + (b1 mod 64) * 4096
                   + (b2 mod 64) * 64 + b3 mod 64) ++ decode r3
        | _ => [65533]
        end
  end.

End Utf8.

Definition js (s : string) : jsstring :=
  Utf8.decode (map N_of_ascii (list_ascii_of_string s)).
Arguments js : simpl never.

Definition LF : N := 10.
Definition CR : N := 13.

(** ECMAScript [WhiteSpace] and [LineTerminator] code units: what
    [String.prototype.trim] removes and what [\s] matches. *)
Definition isWhiteSpace (c : N) : bool :=
  (c =? 9) || (c =? 10) || (c =? 11) || (c =? 12) || (c =? 13) || (c =? 32)
  || (c =? 160) || (c =? 5760) || ((8192 <=? c) && (c <=? 8202))
  || (c =? 8232) || (c =? 8233) || (c =? 8239) || (c =? 8287)
  || (c =? 12288) || (c =? 65279).

(** [\d] *)
Definition isDigit (c : N) : bool := (48 <=? c) && (c <=? 57).

Fixpoint skip (p : N -> bool) (s : jsstring) : jsstring :=
  match s with
  | c :: r => if p c then skip p r else s
  | [] => []
  end.

(** [s.trim()] *)
Definition trim (s : jsstring) : jsstring :=
  rev (skip isWhiteSpace (rev (skip isWhiteSpace s))).

(** [s] used as a condition: the empty string is falsy. *)
Definition nonEmpty (s : jsstring) : bool :=
  match s with [] => false | _ => true end.

Fixpoint jsstring_eqb (a b : jsstring) : bool :=
  match a, b with
  | [], [] => true
  | x :: a', y :: b' => (x =? y) && jsstring_eqb a' b'
  | _, _ => false
  end.

Fixpoint startsWith (w s : jsstring) : bool :=
  match w, s with
  | [], _ => true
  | x :: w', y :: s' => (x =? y) && startsWith w' s'
  | _ :: _, [] => false
  end.

(** [s.includes(w)] *)
Fixpoint includes (s w : jsstring) : bool :=
  startsWith w s || match s with [] => false | _ :: r => includes r w end.

(** [parts.join(sep)] on strings *)
Fixpoint join (sep : jsstring) (parts : list jsstring) : jsstring :=
  match parts with
  | [] => []
  | [p] => p
  | p :: rest => p ++ sep ++ join sep rest
  end.

(** ** Anchored regular expressions

    Every regular expression of the source starts with [^] and is a
    sequence of literals, single character classes and greedy [+]/[*]
    repetitions of a class.  In each of them the class under a
    repetition is disjoint from the piece that follows it, so greedy
    matching never backtracks and a matcher is a function from the input
    to what is left after the match. *)

Module Re.

Definition t := jsstring -> option jsstring.

Definition cls (p : N -> bool) : t := fun s =>
  match s with
  | c :: r => if p c then Some r else None
  | [] => None
  end.

Definition star (p : N -> bool) : t := fun s => Some (skip p s).

Definition plus (p : N -> bool) : t := fun s =>
  match cls p s with
  | Some r => Some (skip p r)
  | None => None
  end.

Fixpoint lit (w : jsstring) : t := fun s =>
  match w with
  | [] => Some s
  | x :: w' => match s with
               | y :: s' => if x =? y then lit w' s' else None
               | [] => None
               end
  end.

Definition seq (a b : t) : t := fun s =>
  match a s with
  | Some r => b r
  | None => None
  end.

(** [re.test(s)] *)
Definition test (re : t) (s : jsstring) : bool :=
  match re s with Some _ => true | None => false end.

(** [s.replace(re, '')] *)
Definition remove (re : t) (s : jsstring) : jsstring :=
  match re s with Some r => r | None => s end.

End Re.

(** [/^#+\s*/] *)
Definition headingRe : Re.t :=
  Re.seq (Re.plus (N.eqb 35)) (Re.star isWhiteSpace).

(** [/^\d+[\).]\s*/] *)
Definition numberedRe : Re.t :=
  Re.seq (Re.plus isDigit)
    (Re.seq (Re.cls (fun c => (c =? 41) || (c =? 46))) (Re.star isWhiteSpace)).

(** [/^[-*•]\s*/] *)
Definition bulletRe : Re.t :=
  Re.seq (Re.cls (fun c => (c =? 45) || (c =? 42) || (c =? 8226)))
    (Re.star isWhiteSpace).

(** [/^CLO\s*\d+\s*:/] *)
Definition cloRe : Re.t :=
  Re.seq (Re.lit (js "CLO"))
    (Re.seq (Re.star isWhiteSpace)
       (Re.seq (Re.plus isDigit)
          (Re.seq (Re.star isWhiteSpace) (Re.cls (N.eqb 58))))).

(** [text.split(/\r?\n/)]: [cur] is the line being read, last unit first. *)
Fixpoint splitFrom (cur : jsstring) (s : jsstring) : list jsstring :=
  match s with
  | [] => [rev cur]
  | c :: r =>
      if c =? LF then rev cur :: splitFrom [] r
      else if c =? CR then
        match r with
        | c' :: r' =>
            if c' =? LF then rev cur :: splitFrom [] r'
            else splitFrom (c :: cur) r
        | [] => splitFrom (c :: cur) r
        end
      else splitFrom (c :: cur) r
  end.

Definition splitLines (s : jsstring) : list jsstring := splitFrom [] s.

(** The filter of [linesToItems]: [s && !/^#+\s*/.test(s)]. *)
Definition keepLine (s : jsstring) : bool :=
  nonEmpty s && negb (Re.test headingRe s).

(** The last [map] of [linesToItems]. *)
Definition stripMarkers (s : jsstring) : jsstring :=
  Re.remove bulletRe (Re.remove numberedRe s).

(** [linesToItems] on a text that is already a string. *)
Definition linesOfString (text : jsstring) : list jsstring :=
  map stripMarkers (List.filter keepLine (map trim (splitLines text))).


(** Decimal digits of a natural number, as [Number::toString] prints an
    integer that a double holds exactly. *)
Fixpoint digitsFrom (fuel : nat) (n : N) (acc : jsstring) : jsstring :=
  match fuel with
  | O => acc
  | S fuel' =>
      let acc' := (48 + n mod 10) :: acc in
      if n / 10 =? 0 then acc' else digitsFrom fuel' (n / 10) acc'
  end.

Definition decimal (n : N) : jsstring :=
  digitsFrom (S (N.to_nat (N.log2 n))) n [].

(** ** Numbers and values

    A Number is NaN, an infinity or a finite value; finite values are kept
    as rationals, which contain every finite double and on which the two
    operations the handlers apply to a number (comparison and truncation)
    are exact.  A value is what [JSON.parse] builds, together with
    [undefined] for what is absent. *)

Inductive number :=
| NaN
| Inf (negative : bool)
| Fin (q : Q).

Definition int (z : Z) : number := Fin (inject_Z z).

Inductive value :=
| VUndefined
| VNull
| VBool (b : bool)
| VNum (n : number)
| VStr (s : jsstring)
| VArr (items : list value)
| VObj (fields : list (jsstring * value)).

(** What the upstream client rejects with: an [Error] object, whose
    [message] is a string; [detail] stands for everything else it carries. *)
Record error := { message : jsstring; detail : value }.

Inductive exn :=
| TypeError
| UpstreamError (e : error).

Inductive completion (A : Type) :=
| Normal (a : A)
| Throw (e : exn).
Arguments Normal {A} a.
Arguments Throw {A} e.

#[global] Instance completion_ret : MRet completion := @Normal.
#[global] Instance completion_bind : MBind completion := fun A B f m =>
  match m with
  | Normal a => f a
  | Throw e => Throw e
  end.

(** The parts of the ECMAScript library whose tables are not spelled out
    here: Unicode case conversion, the printing of a Number that is not an
    integer below 2^53, and the reading of a string as a Number. *)
Class Host := {
  toLowerCase : jsstring -> jsstring;
  toUpperCase : jsstring -> jsstring;
  printNumber : Q -> jsstring;
  stringToNumber : jsstring -> number
}.

(** The process environment read at start-up. *)
Class Env := {
  MODEL_MODE : jsstring;
  DEFAULT_MODEL : jsstring
}.

Definition Qtruncate (q : Q) : Z :=
  if Qle_bool 0 q then Qfloor q else Qceiling q.

Definition isInteger (q : Q) : bool := Qeq_bool q (inject_Z (Qfloor q)).

Section Conversions.
Context `{Host}.

(** [Number::toString] *)
Definition numberToString (n : number) : jsstring :=
  match n with
  | NaN => js "NaN"
  | Inf false => js "Infinity"
  | Inf true => js "-Infinity"
  | Fin q =>
      let z := Qfloor q in
      if isInteger q && (Z.abs z <? 2 ^ 53)%Z then
        (if (z <? 0)%Z then js "-" else []) ++ decimal (Z.to_N (Z.abs z))
      else printNumber q
  end.

(** [ToBoolean] *)
Definition truthy (v : value) : bool :=
  match v with
  | VUndefined | VNull => false
  | VBool b => b
  | VNum NaN => false
  | VNum (Inf _) => true
  | VNum (Fin q) => negb (Qeq_bool q 0)
  | VStr s => nonEmpty s
  | VArr _ | VObj _ => true
  end.

Fixpoint assoc (k : jsstring) (fields : list (jsstring * value)) : value :=
  match fields with
  | [] => VUndefined
  | (k', v) :: r => if jsstring_eqb k k' then v else assoc k r
  end.

Definition hasKey (k : jsstring) (fields : list (jsstring * value)) : bool :=
  existsb (fun kv => jsstring_eqb k (fst kv)) fields.

(** [v.k] for the property names the source reads, none of which is
    defined on a built-in prototype: the own property of an object,
    [undefined] on any other value, a [TypeError] on [null] and
    [undefined]. *)
Definition getProp (v : value) (k : jsstring) : completion value :=
  match v with
  | VUndefined | VNull => Throw TypeError
  | VObj fields => Normal (assoc k fields)
  | _ => Normal VUndefined
  end.

(** [String(v)], [`${v}`] and [v.toString()] on a value other than
    [null] and [undefined].  An array prints its elements separated by
    commas, [null] and [undefined] elements as nothing; an object prints
    as [[object Object]] unless an own [toString] property hides the
    inherited method, in which case no conversion is left and a
    [TypeError] is thrown. *)
Fixpoint toString (v : value) : completion jsstring :=
  match v with
  | VUndefined => Normal (js "undefined")
  | VNull => Normal (js "null")
  | VBool true => Normal (js "true")
  | VBool false => Normal (js "false")
  | VNum n => Normal (numberToString n)
  | VStr s => Normal s
  | VArr items =>
      (fix elements (l : list value) : completion (list jsstring) :=
         match l with
         | [] => Normal []
         | x :: r =>
             match (match x with
                    | VUndefined | VNull => Normal []
                    | _ => toString x
                    end) with
             | Throw e => Throw e
             | Normal s =>
                 match elements r with
                 | Throw e => Throw e
                 | Normal ss => Normal (s :: ss)
                 end
             end
         end) items ≫= fun parts => Normal (join (js ",") parts)
  | VObj fields =>
      if hasKey (js "toString") fields then Throw TypeError
      else Normal (js "[object Object]")
  end.

(** [ToNumber]; an array or an object goes through its string. *)
Definition toNumber (v : value) : completion number :=
  match v with
  | VUndefined => Normal NaN
  | VNull => Normal (int 0)
  | VBool b => Normal (int (if b then 1 else 0))
  | VNum n => Normal n
  | VStr s => Normal (stringToNumber s)
  | VArr _ | VObj _ => s ← toString v; Normal (stringToNumber s)
  end.

(** [len < n] for an array length [len]; false when [n] is NaN. *)
Definition lengthBelow (len : nat) (n : number) : bool :=
  match n with
  | NaN => false
  | Inf negative => negb negative
  | Fin q => negb (Qle_bool q (inject_Z (Z.of_nat len)))
  end.

(** [l.slice(0, n)]: [n] is truncated to an integer (NaN counts as 0),
    a negative one counts from the end. *)
Definition sliceTo {A} (l : list A) (n : number) : list A :=
  match n with
  | NaN => []
  | Inf negative => if negative then [] else l
  | Fin q =>
      let k := Qtruncate q in
      if (k <? 0)%Z then take (Z.to_nat (Z.max (Z.of_nat (length l) + k) 0)) l
      else take (Z.to_nat k) l
  end.

(** [v || d], [v ?? d] and the default of a destructuring pattern. *)
Definition orElse (v d : value) : value := if truthy v then v else d.

Definition coalesce (v d : value) : value :=
  match v with VUndefined | VNull => d | _ => v end.

Definition defaultTo (v d : value) : value :=
  match v with VUndefined => d | _ => v end.

(** A field of a destructuring pattern applied to a value that is not
    [null] or [undefined]. *)
Definition field (v : value) (k : jsstring) : value :=
  match v with VObj fields => assoc k fields | _ => VUndefined end.

(** [v.trim()]: only a string has the method. *)
Definition callTrim (v : value) : completion jsstring :=
  match v with VStr s => Normal (trim s) | _ => Throw TypeError end.

End Conversions.

(** ** The verb pool *)

Record verbEntry := { verb : jsstring; level : jsstring }.

Definition dq : jsstring := [34].

Section Prompts.
Context `{Host} `{Env}.

(** [LEVEL2BLOOM[linkLevel]], for a key that has been through
    [toUpperCase] and so names nothing the table inherits. *)
Definition LEVEL2BLOOM (linkLevel : jsstring) : option (list jsstring) :=
  if jsstring_eqb linkLevel (js "I") then Some [js "Remember"; js "Understand"]
  else if jsstring_eqb linkLevel (js "R") then Some [js "Apply"; js "Analyze"]
  else if jsstring_eqb linkLevel (js "M") then Some [js "Analyze"; js "Evaluate"]
  else if jsstring_eqb linkLevel (js "A") then Some [js "Evaluate"; js "Create"]
  else None.

(** [LEVEL2BLOOM[linkLevel] || LEVEL2BLOOM.I] *)
Definition targetBloomLevels (linkLevel : jsstring) : list jsstring :=
  match LEVEL2BLOOM linkLevel with
  | Some levels => levels
  | None => [js "Remember"; js "Understand"]
  end.

(** [String(linkLevelFromBody ?? levelFromBody ?? 'I').toUpperCase()] *)
Definition linkLevelOf (linkLevelFromBody levelFromBody : value)
  : completion jsstring :=
  s ← toString (coalesce linkLevelFromBody (coalesce levelFromBody (VStr (js "I"))));
  Normal (toUpperCase s).

Definition norm (x : value) : completion (option verbEntry) :=
  if negb (truthy x) then Normal None
  else match x with
       | VStr s => Normal (Some {| verb := trim s; level := [] |})
       | _ =>
           v ← toString (orElse (field x (js "verb")) (VStr []));
           l ← toString (orElse (field x (js "level")) (VStr []));
           Normal (if nonEmpty (trim v)
                   then Some {| verb := trim v; level := trim l |}
                   else None)
       end.

(** [items.map(norm).filter(Boolean)] *)
Fixpoint normAll (items : list value) : completion (list verbEntry) :=
  match items with
  | [] => Normal []
  | x :: r =>
      o ← norm x;
      rest ← normAll r;
      Normal (match o with Some e => e :: rest | None => rest end)
  end.

(** [(bloomVerbs || []).map(norm).filter(Boolean)]: only an array has
    [map]. *)
Definition normalized (bloomVerbs : value) : completion (list verbEntry) :=
  match orElse bloomVerbs (VArr []) with
  | VArr items => normAll items
  | _ => Throw TypeError
  end.

(** [targetBloomLevels.includes(x.level)] *)
Definition onTarget (targets : list jsstring) (x : verbEntry) : bool :=
  existsb (jsstring_eqb (level x)) targets.

(** [byTarget.length > 0 ? byTarget : filtered] *)
Definition byLevel (targets : list jsstring) (all : list verbEntry)
  : list verbEntry :=
  let byTarget := List.filter (onTarget targets) all in
  match byTarget with
  | [] => all
  | _ :: _ => byTarget
  end.

(** The [for] loop over the pool with its [seen] set. *)
Fixpoint uniqFrom (seen : gset jsstring) (pool : list verbEntry)
  : list verbEntry :=
  match pool with
  | [] => []
  | it :: r =>
      let k := toLowerCase (verb it) in
      if decide (k ∈ seen) then uniqFrom seen r
      else it :: uniqFrom ({[k]} ∪ seen) r
  end.

(** [uniq.slice(0, MAX_VERBS)] *)
Definition verbPool (MAX_VERBS : nat) (targets : list jsstring)
    (all : list verbEntry) : list verbEntry :=
  take MAX_VERBS (uniqFrom ∅ (byLevel targets all)).

Definition renderVerb (it : verbEntry) : jsstring :=
  verb it ++ js " (" ++ (if nonEmpty (level it) then level it else js "—")
    ++ js ")".

Definition fallbackVerbs : list jsstring :=
  [js "Mô tả"; js "Giải thích"; js "Vận dụng"; js "Phân tích";
   js "Đánh giá"; js "Xây dựng"].

(** [verbsForPrompt || fallbackVerbs.join(', ')] *)
Definition VERB_LIST (pool : list verbEntry) : jsstring :=
  let verbsForPrompt := join (js ", ") (map renderVerb pool) in
  if nonEmpty verbsForPrompt then verbsForPrompt
  else join (js ", ") fallbackVerbs.

(** The three course strings of both prompts. *)
Definition courseStrings (course : value)
  : completion (jsstring * jsstring * jsstring) :=
  label ← getProp course (js "label");
  courseLabel ← callTrim (orElse label
                   (orElse (field course (js "id")) (VStr [])));
  courseFull ← callTrim (orElse (field course (js "fullname")) (VStr []));
  credits ← toString (coalesce (field course (js "tong"))
                        (coalesce (field course (js "credits")) (VStr [])));
  Normal (courseLabel, courseFull, credits).

Definition suggestTemplate
    (count courseLabel courseFull credits linkLevel plo ploText VERB_LIST
     : jsstring) : jsstring :=
  trim (js "
Bạn là chuyên gia xây dựng chuẩn đầu ra học phần y khoa tích hợp Y học hiện đại (YHHĐ) và Y học cổ truyền (YHCT).

Nhiệm vụ: đề xuất "
    ++ count
    ++ js " CLO bằng tiếng Việt cho học phần "
    ++ dq
    ++ courseLabel
    ++ js " — "
    ++ courseFull
    ++ dq
    ++ js " (TC: "
    ++ credits
    ++ js ").

Mỗi CLO đúng chuẩn:
- Bắt đầu bằng một ĐỘNG TỪ Bloom thuộc mức "
    ++ linkLevel
    ++ js " (chỉ chọn trong danh sách SAU; không lặp lại động từ nếu có thể).
- Phù hợp và thể hiện rõ PLO "
    ++ plo
    ++ js ": "
    ++ ploText
    ++ js "
- Bám sát đặc thù học phần này (thuật ngữ, quy trình, ca lâm sàng, đối tượng người bệnh…).
- TÍNH ĐO LƯỜNG: nêu điều kiện/tiêu chí kiểm tra (ví dụ: theo hướng dẫn quốc gia, ≥80% tình huống chuẩn, trong 10 phút, dùng thước đo X, theo phác đồ Y…).
- Với chương trình YHCT + YHHĐ: nếu thích hợp, thể hiện TÍCH HỢP (so sánh, phối hợp, chỉ định/chống chỉ định của cả hai hệ).

Ràng buộc phong cách:
- Mỗi CLO chỉ 1 ý (không nối “và”), tối đa 25–30 từ, viết súc tích.
- Không giải thích thêm, không bullet, không đánh số bằng dấu chấm; mỗi CLO trên MỘT DÒNG dạng: CLOx: <nội dung>.

DANH SÁCH ĐỘNG TỪ CHO PHÉP (chỉ dùng các từ này, ưu tiên phù hợp mức "
    ++ linkLevel
    ++ js "): "
    ++ VERB_LIST
    ++ js "

Trả về đúng "
    ++ count
    ++ js " dòng, lần lượt: CLO1:, CLO2:, ..., CLO"
    ++ count
    ++ js ":.
").

Definition evaluateTemplate
    (courseLabel courseFull credits plo ploText linkLevel VERB_LIST cloText
     : jsstring) : jsstring :=
  trim (js "
Bạn là chuyên gia xây dựng & thẩm định CLO cho chương trình bác sĩ tích hợp Y học hiện đại (YHHD) và Y học cổ truyền (YHCT).

BỐI CẢNH
- Học phần: "
    ++ dq
    ++ courseLabel
    ++ js " — "
    ++ courseFull
    ++ dq
    ++ js " (TC: "
    ++ credits
    ++ js ")
- PLO liên quan: "
    ++ plo
    ++ js ": "
    ++ ploText
    ++ js "
- Mức liên kết PLO–COURSE: "
    ++ linkLevel
    ++ js " (I/R/M/A)
- Danh sách ĐỘNG TỪ Bloom cho phép (ưu tiên đúng bậc "
    ++ linkLevel
    ++ js "): "
    ++ VERB_LIST
    ++ js "

NHIỆM VỤ
ĐÁNH GIÁ nội dung CLO sau (tiếng Việt):
«"
    ++ cloText
    ++ js "»

YÊU CẦU ĐẦU RA — TRẢ KẾT QUẢ NGẮN GỌN, TIẾNG VIỆT, THEO ĐÚNG CÁC MỤC:
1) **Phán quyết** (Cao/Vừa/Thấp) về mức phù hợp PLO & học phần + 1 câu giải thích.
2) **Rubric (0–4 điểm từng tiêu chí; tổng quy ra /100)**:
   - PLO alignment: mức thể hiện đúng ý PLO (0–4)
   - Bloom & động từ: CLO mở đầu bằng động từ trong danh sách? bậc đúng mức "
    ++ linkLevel
    ++ js "? (0–4)
   - Tính đo lường: có tiêu chí/chuẩn/nguỡng/thời gian/công cụ đo? (0–4)
   - Phù hợp học phần: có thuật ngữ, quy trình, đối tượng người bệnh của học phần? (0–4)
   - Tích hợp YHCT+YHHD (nếu phù hợp): so sánh/phối hợp/chỉ định–chống chỉ định? (0–4)
   Viết dạng: Điểm: a,b,c,d,e; Tổng: X/20 → Y/100.
3) **Điểm mạnh** (2–4 gạch đầu dòng ngắn).
4) **Vấn đề & cách sửa** (2–4 gạch đầu dòng, hành động cụ thể).
5) **Đề xuất phiên bản CLO đã chỉnh** (1 dòng, ≤ 25–30 từ, đúng 1 ý, bắt đầu bằng một ĐỘNG TỪ trong danh sách; có tiêu chí đo lường; nếu phù hợp, thể hiện tích hợp YHCT+YHHD). Định dạng: CLO*: <nội dung>.
6) **Cảnh báo rủi ro** (nếu có: mơ hồ, 2 ý trong 1 CLO, không đo lường, sai bậc Bloom…).

QUY TẮC
- Ngắn gọn, rõ, không kèm giải thích ngoài các mục trên.
- Không thêm bullet cho tiêu đề; dùng bullet ngắn gọn trong mục 3) và 4).
- Luôn giữ tiếng Việt và đúng ngữ cảnh YHCT + YHHD.
").

#[local] Arguments suggestTemplate : simpl never.
#[local] Arguments evaluateTemplate : simpl never.

(** The prompt of [/api/suggest] from the fields of the body as they
    are read, [VUndefined] standing for an absent one. *)
Definition suggestPrompt
    (plo ploText course levelFromBody linkLevelFromBody bloomVerbs count
     : value) : completion jsstring :=
  let ploText := defaultTo ploText (VStr []) in
  let course := defaultTo course (VObj []) in
  let bloomVerbs := defaultTo bloomVerbs (VArr []) in
  let count := defaultTo count (VNum (int 6)) in
  linkLevel ← linkLevelOf linkLevelFromBody levelFromBody;
  all ← normalized bloomVerbs;
  let pool := verbPool 180 (targetBloomLevels linkLevel) all in
  '(courseLabel, courseFull, credits) ← courseStrings course;
  count' ← toString count;
  plo' ← toString plo;
  ploText' ← toString ploText;
  Normal (suggestTemplate count' courseLabel courseFull credits linkLevel
            plo' ploText' (VERB_LIST pool)).

(** The prompt of [/api/evaluate]. *)
Definition evaluatePrompt
    (plo ploText cloText levelFromBody linkLevelFromBody course bloomVerbs
     : value) : completion jsstring :=
  let ploText := defaultTo ploText (VStr []) in
  let cloText := defaultTo cloText (VStr []) in
  let course := defaultTo course (VObj []) in
  let bloomVerbs := defaultTo bloomVerbs (VArr []) in
  linkLevel ← linkLevelOf linkLevelFromBody levelFromBody;
  allVerbs ← normalized bloomVerbs;
  let pool := verbPool 150 (targetBloomLevels linkLevel) allVerbs in
  '(courseLabel, courseFull, credits) ← courseStrings course;
  plo' ← toString plo;
  ploText' ← toString ploText;
  cloText' ← toString cloText;
  Normal (evaluateTemplate courseLabel courseFull credits plo' ploText'
            linkLevel (VERB_LIST pool) cloText').

Definition pickModel (kind : jsstring) (overrideModel : value) : value :=
  if truthy overrideModel then overrideModel
  else if jsstring_eqb MODEL_MODE (js "full") then VStr (js "gpt-5")
  else if jsstring_eqb MODEL_MODE (js "mini") then VStr (js "gpt-5-mini")
  else if jsstring_eqb kind (js "suggest") then VStr (js "gpt-5-mini")
  else if jsstring_eqb kind (js "evaluate") then VStr (js "gpt-5")
  else VStr DEFAULT_MODEL.

End Prompts.

(** ** The store

    The parameter objects handed to [createResponseWithFallback] are built
    by the handlers and copied and edited by the fallbacks, so they live in
    a store: a [Ref] is the address of an object whose properties are read
    and written in place.  What comes from a request or from the upstream
    service is only ever read and stays a [value], wrapped in [Data]. *)

Inductive val :=
| Data (v : value)
| Ref (l : nat).

Abbreviation object := (gmap jsstring val).

Definition readObj (h : list object) (l : nat) : object :=
  default ∅ (h !! l).

Definition truthyVal (v : val) : bool :=
  match v with
  | Ref _ => true
  | Data d => truthy d
  end.

(** [v.k] where [v] is not [null] or [undefined]. *)
Definition getVal (h : list object) (v : val) (k : jsstring) : val :=
  match v with
  | Ref l => default (Data VUndefined) (readObj h l !! k)
  | Data d => Data (field d k)
  end.

(** [v?.k] *)
Definition optChain (h : list object) (v : val) (k : jsstring) : val :=
  match v with
  | Data VUndefined | Data VNull => Data VUndefined
  | _ => getVal h v k
  end.

(** The own properties that [{...v}] copies. *)
Definition ownProps (h : list object) (v : val) : object :=
  match v with
  | Ref l => readObj h l
  | Data (VObj fields) => list_to_map (prod_map id Data <$> fields)
  | Data _ => ∅
  end.

(** A new object: its address is the next free one. *)
Definition alloc (o : object) (h : list object) : nat * list object :=
  (length h, h ++ [o]).

(** [target.k = v] on the object at [l]. *)
Definition setProp (h : list object) (l : nat) (k : jsstring) (v : val)
  : list object :=
  alter (insert k v) l h.

(** [delete target.k]; only an object of the store is ever the target. *)
Definition deleteProp (h : list object) (target : val) (k : jsstring)
  : list object :=
  match target with
  | Ref l => alter (delete k) l h
  | Data _ => h
  end.

(** ** The upstream client

    [client.responses.create(params)] either resolves with a response or
    rejects with an error.  What it answers may depend on the parameters
    it is given, which it reads in the store, and on the state of the
    outside world, which it may change. *)

Inductive outcome :=
| Resolved (rsp : value)
| Rejected (e : error).

Class Upstream := {
  World : Type;
  responses_create : list object -> val -> World -> outcome * World
}.

Inductive decision :=
| RetryWith (p2 : val) (h : list object) (stripVerbosity stripReasoning : bool)
| Rethrow.

Definition inspect {A} (a : A) : {b | a = b} := exist _ a eq_refl.

Section Fallback.
Context `{Host} `{Upstream}.

(** The state of a run: the store, the outside world, the calls made
    to the upstream client so far with their outcomes, and what has been
    written to the error console. *)
Record state := {
  heap : list object;
  world : World;
  calls : list (val * outcome);
  console : list (jsstring * exn)
}.

Definition withHeap (σ : state) (h : list object) : state :=
  {| heap := h; world := world σ; calls := calls σ; console := console σ |}.

(** [await client.responses.create(params)] *)
Definition call (params : val) (σ : state) : outcome * state :=
  let '(o, w) := responses_create (heap σ) params (world σ) in
  (o, {| heap := heap σ; world := w;
         calls := calls σ ++ [(params, o)]; console := console σ |}).

(** [const p2 = { ...params, text: { ...(params.text || {}) } };
     delete p2.text.verbosity;] *)
Definition withoutVerbosity (params : val) (h : list object)
  : val * list object :=
  let '(p2, h1) := alloc (ownProps h params) h in
  let text := getVal h1 params (js "text") in
  let '(t2, h2) :=
    alloc (ownProps h1 (if truthyVal text then text else Data (VObj []))) h1 in
  let h3 := setProp h2 p2 (js "text") (Ref t2) in
  (Ref p2, deleteProp h3 (getVal h3 (Ref p2) (js "text")) (js "verbosity")).

(** [const p2 = { ...params }; delete p2.reasoning;] *)
Definition withoutReasoning (params : val) (h : list object)
  : val * list object :=
  let '(p2, h1) := alloc (ownProps h params) h in
  (Ref p2, deleteProp h1 (Ref p2) (js "reasoning")).

(** The body of the [catch] block up to its recursive call. *)
Definition onFailure (e : error) (params : val)
    (stripVerbosity stripReasoning : bool) (h : list object) : decision :=
  let msg := toLowerCase (message e) in
  let isUnknownParam :=
    includes msg (js "unknown") || includes msg (js "unrecognized")
    || includes msg (js "invalid parameter") || includes msg (js "unsupported") in
  if negb stripVerbosity
     && truthyVal (optChain h (optChain h params (js "text")) (js "verbosity"))
  then
    let '(p2, h') := withoutVerbosity params h in
    RetryWith p2 h' true stripReasoning
  else if negb stripReasoning
     && truthyVal (optChain h (optChain h params (js "reasoning")) (js "effort"))
  then
    let '(p2, h') := withoutReasoning params h in
    RetryWith p2 h' true true
  else Rethrow.

(** The number of fallbacks still open. *)
Definition budget (stripVerbosity stripReasoning : bool) : nat :=
  (Nat.b2n (negb stripVerbosity) + Nat.b2n (negb stripReasoning))%nat.

Equations? createResponseWithFallback (params : val)
    (stripVerbosity stripReasoning : bool) (σ : state)
  : completion value * state
  by wf (budget stripVerbosity stripReasoning) lt :=
createResponseWithFallback params sv sr σ with call params σ := {
  | (Resolved rsp, σ1) => (Normal rsp, σ1)
  | (Rejected e, σ1) with inspect (onFailure e params sv sr (heap σ1)) := {
      | exist _ (RetryWith p2 h' sv' sr') _ =>
          createResponseWithFallback p2 sv' sr' (withHeap σ1 h')
      | exist _ Rethrow _ => (Throw (UpstreamError e), σ1) } }.
Proof.
  match goal with Hd : onFailure _ _ _ _ _ = _ |- _ => revert Hd end.
  unfold onFailure.
  destruct (negb sv && _) eqn:E1.
  - destruct (withoutVerbosity params (heap σ1)). intros [= <- <- <- <-].
    destruct sv; [discriminate|]. destruct sr; cbn; lia.
  - destruct (negb sr && _) eqn:E2; [|discriminate].
    destruct (withoutReasoning params (heap σ1)). intros [= <- <- <- <-].
    destruct sr; [discriminate|]. destruct sv; cbn; lia.
Qed.

End Fallback.

(** ** The handlers *)

Record response := { status : Z; body : value }.

(** [/^CLO\s*\d+\s*:/.test(line)] *)
Definition isCLO (line : jsstring) : bool := Re.test cloRe line.

(** [`CLO${items.length+1}: ${extras.shift()}`], [k] being the length the
    list is about to have. *)
Definition borrowed (k : nat) (line : jsstring) : jsstring :=
  js "CLO" ++ decimal (N.of_nat k) ++ js ": " ++ line.

(** The [while] loop of [/api/suggest].  Each round builds [extras] anew
    from the cleaned lines of [raw], the lines that are no [CLOx:] line,
    and pushes the first of them with a prefix made from the new length.
    [fuel] bounds the number of rounds; [None] is a loop that has not
    ended within it. *)
Fixpoint padItems (fuel : nat) (raw : jsstring) (count : number)
    (items : list jsstring) : option (list jsstring) :=
  match fuel with
  | O => None
  | S fuel' =>
      if lengthBelow (length items) count then
        match List.filter (fun s => negb (isCLO s)) (linesOfString raw) with
        | [] => Some items
        | first :: _ =>
            padItems fuel' raw count
              (items ++ [borrowed (length items + 1) first])
        end
      else Some items
  end.

(** The items [/api/suggest] answers with, from the text of the response
    and the count as a Number. *)
Definition suggestItems (fuel : nat) (raw : jsstring) (count : number)
  : option (list jsstring) :=
  let items := sliceTo (List.filter isCLO (linesOfString raw)) count in
  match padItems fuel raw count items with
  | None => None
  | Some items => Some (sliceTo items count)
  end.

Section Handlers.
Context `{Host} `{Env} `{Upstream}.

(** [linesToItems(text)] *)
Definition linesToItems (text : value) : completion (list jsstring) :=
  s ← toString text; Normal (linesOfString s).

(** [res.json(v)] *)
Definition json (v : value) : response := {| status := 200; body := v |}.

(** A [catch] block: [console.error('[tag]', err?.message || err);
    res.status(500).json({ error: 'tag' })]. *)
Definition failed (tag : jsstring) (err : exn) (σ : state)
  : response * state :=
  ({| status := 500; body := VObj [(js "error", VStr tag)] |},
   {| heap := heap σ; world := world σ; calls := calls σ;
      console := console σ ++ [(js "[" ++ tag ++ js "]", err)] |}).

(** The object literal passed by [/api/suggest] and [/api/evaluate]:
    the object itself and its two nested objects are new. *)
Definition hintedParams (modelName : value) (prompt : jsstring)
    (verbosity effort : jsstring) (max_output_tokens : Z) (temperature : Q)
    (h : list object) : val * list object :=
  let l := length h in
  (Ref l,
   h ++ [ <[js "model" := Data modelName]>
          (<[js "input" := Data (VStr prompt)]>
          (<[js "text" := Ref (l + 1)]>
          (<[js "reasoning" := Ref (l + 2)]>
          (<[js "max_output_tokens" := Data (VNum (int max_output_tokens))]>
          (<[js "temperature" := Data (VNum (Fin temperature))]> ∅)))));
          {[ js "verbosity" := Data (VStr verbosity) ]};
          {[ js "effort" := Data (VStr effort) ]} ]).

(** What [/api/suggest] does with a response. *)
Definition suggestReply (fuel : nat) (count modelName rsp : value)
  : option (completion response) :=
  match getProp rsp (js "output_text") with
  | Throw e => Some (Throw e)
  | Normal output_text =>
      let raw := orElse output_text (VStr []) in
      match toString raw with
      | Throw e => Some (Throw e)
      | Normal text =>
          match toNumber count with
          | Throw e => Some (Throw e)
          | Normal n =>
              match suggestItems fuel text n with
              | None => None
              | Some items =>
                  Some (Normal (json (VObj
                    [(js "items", VArr (map VStr items));
                     (js "raw", raw);
                     (js "model", modelName)])))
              end
          end
      end
  end.

(** [count] after [const { ..., count = 6, ... } = req.body || {}]. *)
Definition effectiveCount (req_body : value) : value :=
  defaultTo (field (orElse req_body (VObj [])) (js "count")) (VNum (int 6)).

(** What [/api/suggest] works out before it calls the upstream client:
    the count, the model and the prompt. *)
Definition suggestRequest (req_body : value)
  : completion (value * value * jsstring) :=
  let b := orElse req_body (VObj []) in
  prompt ← suggestPrompt (field b (js "plo")) (field b (js "ploText"))
             (field b (js "course")) (field b (js "level"))
             (field b (js "linkLevel")) (field b (js "bloomVerbs"))
             (field b (js "count"));
  Normal (effectiveCount req_body,
          pickModel (js "suggest") (field b (js "model")), prompt).

(** The [await createResponseWithFallback({...})] of [/api/suggest]. *)
Definition suggestCall (modelName : value) (prompt : jsstring) (σ : state)
  : completion value * state :=
  let '(params, h) :=
    hintedParams modelName prompt (js "low") (js "minimal") 900 (4 # 10)
      (heap σ) in
  createResponseWithFallback params false false (withHeap σ h).

(** The [try] block of [/api/suggest]. *)
Definition suggestTry (fuel : nat) (req_body : value) (σ : state)
  : option (completion response * state) :=
  match suggestRequest req_body with
  | Throw e => Some (Throw e, σ)
  | Normal (count, modelName, prompt) =>
      match suggestCall modelName prompt σ with
      | (Throw e, σ') => Some (Throw e, σ')
      | (Normal rsp, σ') =>
          match suggestReply fuel count modelName rsp with
          | None => None
          | Some r => Some (r, σ')
          end
      end
  end.

Definition suggest (fuel : nat) (req_body : value) (σ : state)
  : option (response * state) :=
  match suggestTry fuel req_body σ with
  | None => None
  | Some (Normal r, σ') => Some (r, σ')
  | Some (Throw err, σ') => Some (failed (js "suggest_failed") err σ')
  end.

(** What [/api/evaluate] and [/api/raw] do with a response. *)
Definition textReply (modelName rsp : value) : completion response :=
  output_text ← getProp rsp (js "output_text");
  Normal (json (VObj [(js "text", orElse output_text (VStr []));
                      (js "model", modelName)])).

Definition evaluateRequest (req_body : value)
  : completion (value * jsstring) :=
  let b := orElse req_body (VObj []) in
  prompt ← evaluatePrompt (field b (js "plo")) (field b (js "ploText"))
             (field b (js "cloText")) (field b (js "level"))
             (field b (js "linkLevel")) (field b (js "course"))
             (field b (js "bloomVerbs"));
  Normal (pickModel (js "evaluate") (field b (js "model")), prompt).

(** The [await createResponseWithFallback({...})] of [/api/evaluate]. *)
Definition evaluateCall (modelName : value) (prompt : jsstring) (σ : state)
  : completion value * state :=
  let '(params, h) :=
    hintedParams modelName prompt (js "medium") (js "medium") 600 (2 # 10)
      (heap σ) in
  createResponseWithFallback params false false (withHeap σ h).

Definition evaluateTry (req_body : value) (σ : state)
  : completion response * state :=
  match evaluateRequest req_body with
  | Throw e => (Throw e, σ)
  | Normal (modelName, prompt) =>
      match evaluateCall modelName prompt σ with
      | (Throw e, σ') => (Throw e, σ')
      | (Normal rsp, σ') => (textReply modelName rsp, σ')
      end
  end.

Definition evaluate (req_body : value) (σ : state) : response * state :=
  match evaluateTry req_body σ with
  | (Normal r, σ') => (r, σ')
  | (Throw err, σ') => failed (js "evaluate_failed") err σ'
  end.

(** The object literal passed by [/api/raw]. *)
Definition rawParams (modelName prompt max_tokens : value)
    (h : list object) : val * list object :=
  let l := length h in
  (Ref l,
   h ++ [ <[js "model" := Data modelName]>
          (<[js "input" := Data prompt]>
          (<[js "text" := Ref (l + 1)]>
          (<[js "max_output_tokens" := Data max_tokens]> ∅)));
          {[ js "verbosity" := Data (VStr (js "low")) ]} ]).

(** [model || DEFAULT_MODEL] *)
Definition rawModel (req_body : value) : value :=
  orElse (field (orElse req_body (VObj [])) (js "model")) (VStr DEFAULT_MODEL).

(** The [await createResponseWithFallback({...})] of [/api/raw]. *)
Definition rawCall (req_body : value) (σ : state)
  : completion value * state :=
  let b := orElse req_body (VObj []) in
  let prompt := defaultTo (field b (js "prompt")) (VStr []) in
  let max_tokens := defaultTo (field b (js "max_tokens")) (VNum (int 600)) in
  let '(params, h) := rawParams (rawModel req_body) prompt max_tokens (heap σ) in
  createResponseWithFallback params false false (withHeap σ h).

Definition rawTry (req_body : value) (σ : state)
  : completion response * state :=
  match rawCall req_body σ with
  | (Throw e, σ') => (Throw e, σ')
  | (Normal rsp, σ') => (textReply (rawModel req_body) rsp, σ')
  end.

Definition raw (req_body : value) (σ : state) : response * state :=
  match rawTry req_body σ with
  | (Normal r, σ') => (r, σ')
  | (Throw err, σ') => failed (js "raw_failed") err σ'
  end.

End Handlers.

(** ** A host, an environment and an upstream service to run examples on

    [asciiHost] is right on what the examples use: case conversion of
    strings of ASCII letters, digits and punctuation, and the reading of a
    string of decimal digits as a Number.  [scripted] is an upstream
    service that answers the calls it receives with the outcomes of a
    list, in order, and rejects every call after the last. *)

Module Sample.

Definition asciiLower (c : N) : N :=
  if (65 <=? c) && (c <=? 90) then c + 32 else c.

Definition asciiUpper (c : N) : N :=
  if (97 <=? c) && (c <=? 122) then c - 32 else c.

Fixpoint digitsValue (acc : N) (s : jsstring) : option N :=
  match s with
  | [] => Some acc
  | c :: r => if isDigit c then digitsValue (10 * acc + (c - 48)) r else None
  end.

Definition readDigits (s : jsstring) : number :=
  match trim s with
  | [] => int 0
  | t => match digitsValue 0 t with
         | Some n => int (Z.of_N n)
         | None => NaN
         end
  end.

Definition asciiHost : Host := {|
  toLowerCase := map asciiLower;
  toUpperCase := map asciiUpper;
  printNumber := fun _ => js "?";
  stringToNumber := readDigits
|}.

Definition env : Env := {|
  MODEL_MODE := js "auto";
  DEFAULT_MODEL := js "gpt-5"
|}.

Definition down : error := {| message := js "fetch failed"; detail := VNull |}.

Definition scripted : Upstream := {|
  World := list outcome;
  responses_create := fun _ _ w =>
    match w with
    | [] => (Rejected down, [])
    | o :: w' => (o, w')
    end
|}.

Definition start (w : list outcome) : @state scripted :=
  @Build_state scripted [] w [] [].

(** A response whose [output_text] is [text]. *)
Definition answer (text : string) : outcome :=
  Resolved (VObj [(js "output_text", VStr (js text))]).

Definition refused (text : string) : outcome :=
  Rejected {| message := js text; detail := VNull |}.

End Sample.

(** ** Names used in the statements below *)

(** What one line of the text contributes to [linesToItems]. *)
Definition perLine (l : jsstring) : list jsstring :=
  if keepLine (trim l) then [stripMarkers (trim l)] else [].

(** The classes [[\).]] and [[-*•]]. *)
Definition isNumberMark (c : N) : bool := (c =? 41) || (c =? 46).
Definition isBullet (c : N) : bool := (c =? 45) || (c =? 42) || (c =? 8226).

(** How a call that has settled is passed on by [await]. *)
Definition settle (o : outcome) : completion value :=
  match o with
  | Resolved rsp => Normal rsp
  | Rejected e => Throw (UpstreamError e)
  end.

(** What the guards of the two fallbacks test. *)
Definition hasVerbosity (h : list object) (params : val) : bool :=
  truthyVal (optChain h (optChain h params (js "text")) (js "verbosity")).

Definition hasEffort (h : list object) (params : val) : bool :=
  truthyVal (optChain h (optChain h params (js "reasoning")) (js "effort")).

(** A value that is read in the store [h] names an object of [h]. *)
Definition live (h : list object) (v : val) : Prop :=
  match v with
  | Ref l => (l < length h)%nat
  | Data _ => True
  end.

Module SampleStore.

(** The store once [/api/suggest] has built its parameters, at address
    0, and a state that starts there. *)
Definition built : list object :=
  (hintedParams (VStr (js "gpt-5-mini")) (js "Hello") (js "low")
     (js "minimal") 900 (4 # 10) []).2.

Definition ready (w : list outcome) : @state Sample.scripted :=
  @Build_state Sample.scripted built w [] [].

End SampleStore.

(** A response that carries no [output_text]: the field is absent,
    [null] or the empty string. *)
Definition noOutputText (rsp : value) : Prop :=
  match getProp rsp (js "output_text") with
  | Normal v => v = VUndefined \/ v = VNull \/ v = VStr []
  | Throw _ => False
  end.

(** [res.status(500).json({ error: tag })] *)
Definition failure (tag : string) : response :=
  {| status := 500; body := VObj [(js "error", VStr (js tag))] |}.

(** Nine lines of the form the prompt asks for. *)
Definition nineLines : string := "CLO1: a
CLO2: b
CLO3: c
CLO4: d
CLO5: e
CLO6: f
CLO7: g
CLO8: h
CLO9: i".


(** Comparisons of two property names written out in the source. *)
Ltac eval_keys :=
  repeat match goal with
    | |- context [jsstring_eqb (js ?a) (js ?b)] =>
        let v := eval vm_compute in (jsstring_eqb (js a) (js b)) in
        change (jsstring_eqb (js a) (js b)) with v
    end.

Section Keys.
Context `{Host}.

(** What the [seen] set of the verb pool holds for an entry. *)
Definition key (it : verbEntry) : jsstring := toLowerCase (verb it).

End Keys.

(** Two property names written out in the source are not the same name. *)
Ltac names_differ :=
  let E := fresh in intros E; vm_compute in E; discriminate E.

(** ** The configuration and the middlewares *)

(** [process.env.X || d]: a variable that is not set, or is set to the
    empty string, gives [d]. *)
Definition envOr (v : option jsstring) (d : jsstring) : jsstring :=
  match v with
  | Some s => if nonEmpty s then s else d
  | None => d
  end.

(** [s.split(String.fromCharCode(sep))]: [cur] is the piece being read,
    last unit first. *)
Fixpoint splitOn (sep : N) (cur s : jsstring) : list jsstring :=
  match s with
  | [] => [rev cur]
  | c :: r =>
      if c =? sep then rev cur :: splitOn sep [] r
      else splitOn sep (c :: cur) r
  end.

(** [[...new Set(l)]] on top of the elements [seen]: the elements of [l]
    in the order of their first occurrence. *)
Fixpoint setOf (seen : gset jsstring) (l : list jsstring) : list jsstring :=
  match l with
  | [] => []
  | x :: r =>
      if decide (x ∈ seen) then setOf seen r
      else x :: setOf ({[x]} ∪ seen) r
  end.

(** The pieces of [ORIGINS || ORIGIN || ''] between commas. *)
Definition originPieces (ORIGINS ORIGIN : option jsstring) : list jsstring :=
  splitOn 44 [] (envOr ORIGINS (envOr ORIGIN [])).

(** [[...ALLOWED]] once the module is loaded. *)
Definition ALLOWED (ORIGINS ORIGIN : option jsstring) : list jsstring :=
  match setOf ∅ (List.filter nonEmpty (map trim (originPieces ORIGINS ORIGIN)))
  with
  | [] => [js "https://vophong90.github.io"]
  | listed => listed
  end.

(** [s.endsWith(w)] *)
Definition endsWith (s w : jsstring) : bool := startsWith (rev w) (rev s).

(** The [origin] function of the CORS options: the [ok] it hands to its
    callback, [None] being a request with no [Origin] header. *)
Definition originAllowed (allowed : list jsstring) (origin : option jsstring)
  : bool :=
  match origin with
  | None => true
  | Some o =>
      negb (nonEmpty o)
      || existsb (fun a => jsstring_eqb o a || endsWith o (js ".github.io"))
           allowed
  end.

(** What a middleware does with a request: it hands it on or answers. *)
Inductive passage :=
  | Next
  | Answer (r : response).

Definition unauthorized : response :=
  {| status := 401; body := VObj [(js "error", VStr (js "Unauthorized"))] |}.

(** The middleware on [/api/], from [APP_TOKEN] and the [Authorization]
    header of the request. *)
Definition bearerGate (APP_TOKEN : jsstring) (authorization : option jsstring)
  : passage :=
  if negb (nonEmpty APP_TOKEN) then Next
  else
    let auth := envOr authorization [] in
    let token := if startsWith (js "Bearer ") auth then drop 7 auth else [] in
    if jsstring_eqb token APP_TOKEN then Next else Answer unauthorized.

(** [MODEL_MODE] and [DEFAULT_MODEL] as the module works them out of the
    variables [MODEL_MODE] and [MODEL]. *)
Definition processEnv `{Host} (MODE MODEL : option jsstring) : Env :=
  {| MODEL_MODE := toLowerCase (envOr MODE (js "auto"));
     DEFAULT_MODEL := envOr MODEL (js "gpt-5") |}.

(** ** More names used in the statements below *)

(** An upstream call that was rejected. *)
Definition rejected (c : val * outcome) : Prop :=
  match c.2 with
  | Rejected _ => True
  | Resolved _ => False
  end.

(** What a call carries: the model, the prompt and the two numbers of its
    parameters, read in the store [h]. *)
Definition carries (h : list object) (model input tokens temperature : value)
    (c : val * outcome) : Prop :=
  getVal h c.1 (js "model") = Data model
  /\ getVal h c.1 (js "input") = Data input
  /\ getVal h c.1 (js "max_output_tokens") = Data tokens
  /\ getVal h c.1 (js "temperature") = Data temperature.

(** Reads a property of an object literal by its name. *)
Ltac read_field :=
  repeat (rewrite lookup_insert_ne by names_differ);
  first [ rewrite lookup_insert_eq | rewrite lookup_empty ]; reflexivity.

(** A string that begins with no white space, or is empty. *)
Definition tight (s : jsstring) : Prop :=
  match s with [] => True | c :: _ => isWhiteSpace c = false end.

(** A body that the handlers cannot read: a [course] that is [null], a
    course label that is there and is no string, or a [bloomVerbs] that is
    there and is no array. *)
Definition malformed (b : value) : Prop :=
  field b (js "course") = VNull
  \/ (exists label,
        getProp (field b (js "course")) (js "label") = Normal label
        /\ truthy label = true /\ forall s, label <> VStr s)
  \/ (truthy (field b (js "bloomVerbs")) = true
      /\ forall items, field b (js "bloomVerbs") <> VArr items).

(** The two ways a handler ends: a 200, with nothing written to the
    console, or its own 500, with one line written. *)
Definition answered `{Upstream} (tag : string) (σ σ' : state) (r : response)
  : Prop :=
  (status r = 200%Z /\ console σ' = console σ)
  \/ (r = failure tag
      /\ exists e, console σ' = console σ ++ [(js "[" ++ js tag ++ js "]", e)]).

(** ** Bodies of the expected shape

    What a client that follows the comments of the source sends: scalars
    for the texts, the levels and the count, a course whose names are
    strings, and verbs that are strings or objects with scalar fields. *)

Definition flat (v : value) : bool :=
  match v with VArr _ | VObj _ => false | _ => true end.

Definition stringOrAbsent (v : value) : bool :=
  match v with VStr _ | VUndefined => true | _ => false end.

Definition plainVerb (x : value) : bool :=
  match x with
  | VStr _ => true
  | VObj fields =>
      flat (assoc (js "verb") fields) && flat (assoc (js "level") fields)
  | _ => false
  end.

Definition plainVerbs (v : value) : bool :=
  match v with
  | VUndefined => true
  | VArr items => forallb plainVerb items
  | _ => false
  end.

Definition plainCourse (c : value) : bool :=
  match c with
  | VUndefined => true
  | VObj fields =>
      stringOrAbsent (assoc (js "label") fields)
      && stringOrAbsent (assoc (js "id") fields)
      && stringOrAbsent (assoc (js "fullname") fields)
      && flat (assoc (js "tong") fields)
      && flat (assoc (js "credits") fields)
  | _ => false
  end.

Definition plainBody (b : value) : bool :=
  flat (field b (js "plo")) && flat (field b (js "ploText"))
  && flat (field b (js "cloText")) && flat (field b (js "level"))
  && flat (field b (js "linkLevel")) && flat (field b (js "count"))
  && plainCourse (field b (js "course"))
  && plainVerbs (field b (js "bloomVerbs")).

(** The hints a call carries, read in the store [h]: whether
    [params.text.verbosity] and [params.reasoning.effort] hold. *)
Definition hints (h : list object) (c : val * outcome) : bool * bool :=
  (hasVerbosity h c.1, hasEffort h c.1).




(** A field that is not there, or is [null]. *)
Definition missing (v : value) : Prop := v = VUndefined \/ v = VNull.

(** * Properties *)

(** ** Lines *)

Lemma linesOfString_flat_map text :
  linesOfString text = flat_map perLine (splitLines text).
Proof.
  unfold linesOfString. generalize (splitLines text) as ls.
  induction ls as [|l ls IH]; [reflexivity|].
  cbn [map List.filter flat_map]. unfold perLine at 1.
  destruct (keepLine (trim l)); cbn; now rewrite IH.
Qed.

Lemma skip_app p x y :
  skip p (x ++ y) = match skip p x with [] => skip p y | r => r ++ y end.
Proof.
  induction x as [|c x IH]; cbn.
  - now destruct (skip p y).
  - destruct (p c); [exact IH | reflexivity].
Qed.

Lemma trim_snoc_space x c :
  isWhiteSpace c = true -> trim (x ++ [c]) = trim x.
Proof.
  intros Hc. unfold trim. rewrite skip_app.
  destruct (skip isWhiteSpace x) as [|d r] eqn:E.
  - cbn. now rewrite Hc.
  - rewrite rev_app_distr. cbn [rev app skip]. now rewrite Hc.
Qed.

Lemma perLine_snoc_CR x : perLine (x ++ [CR]) = perLine x.
Proof. unfold perLine. now rewrite trim_snoc_space. Qed.

Lemma splitFrom_break_len b n :
  forall a cur, (length a <= n)%nat ->
    flat_map perLine (splitFrom cur (a ++ LF :: b))
    = flat_map perLine (splitFrom cur a) ++ flat_map perLine (splitFrom [] b).
Proof.
  induction n as [|n IH]; intros a cur Hn.
  - destruct a; [|cbn in Hn; lia]. cbn. now rewrite app_nil_r.
  - destruct a as [|c a]; [cbn; now rewrite app_nil_r|].
    cbn [app splitFrom]. cbn in Hn.
    destruct (c =? LF) eqn:ELF.
    { cbn [flat_map]. rewrite <- app_assoc. f_equal. apply IH. lia. }
    destruct (c =? CR) eqn:ECR; [|apply IH; lia].
    apply N.eqb_eq in ECR as ->.
    destruct a as [|c' a].
    + cbn. rewrite perLine_snoc_CR. now rewrite app_nil_r.
    + cbn [app]. destruct (c' =? LF) eqn:ELF'.
      * cbn [flat_map]. rewrite <- app_assoc. f_equal. apply IH. cbn in Hn. lia.
      * apply (IH (c' :: a)). cbn in *. lia.
Qed.

Lemma linesOfString_break a b :
  linesOfString (a ++ LF :: b) = linesOfString a ++ linesOfString b.
Proof.
  rewrite !linesOfString_flat_map. unfold splitLines.
  now apply (splitFrom_break_len b (length a)).
Qed.

Lemma splitFrom_one_line l : forall cur,
  LF ∉ l -> splitFrom cur l = [rev cur ++ l].
Proof.
  induction l as [|c l IH]; intros cur Hl; cbn.
  - now rewrite app_nil_r.
  - assert (c <> LF) as Hc by (intros ->; apply Hl; left).
    assert (LF ∉ l) as Hl' by (intros ?; apply Hl; now right).
    apply N.eqb_neq in Hc. rewrite Hc.
    assert (splitFrom (c :: cur) l = [rev cur ++ c :: l]) as Hgo.
    { rewrite IH by assumption. cbn. now rewrite <- app_assoc. }
    destruct (c =? CR); [|exact Hgo].
    destruct l as [|c' l']; [exact Hgo|].
    assert (c' <> LF) as Hc' by (intros ->; apply Hl'; left).
    apply N.eqb_neq in Hc'. now rewrite Hc'.
Qed.

Lemma linesOfString_one_line l :
  LF ∉ l ->
  linesOfString l = if keepLine (trim l) then [stripMarkers (trim l)] else [].
Proof.
  intros Hl. rewrite linesOfString_flat_map. unfold splitLines.
  rewrite splitFrom_one_line by assumption. cbn. now rewrite app_nil_r.
Qed.

(** ** Markers *)

Lemma skip_prefix p s :
  exists pre, s = pre ++ skip p s /\ forallb p pre = true.
Proof.
  induction s as [|c s (pre & Hs & Hpre)]; cbn.
  - now exists [].
  - destruct (p c) eqn:E.
    + exists (c :: pre). cbn. rewrite E, Hpre. split; [now f_equal | reflexivity].
    + now exists [].
Qed.

Lemma skip_run p pre c rest :
  forallb p pre = true -> p c = false -> skip p (pre ++ c :: rest) = c :: rest.
Proof.
  induction pre as [|d pre IH]; cbn; intros Hpre Hc.
  - now rewrite Hc.
  - apply andb_prop in Hpre as [-> Hpre]. auto.
Qed.

Lemma numberMark_not_digit c : isNumberMark c = true -> isDigit c = false.
Proof.
  unfold isNumberMark, isDigit.
  intros [->%N.eqb_eq | ->%N.eqb_eq]%orb_prop; reflexivity.
Qed.

Lemma numbered_strip d ds c rest :
  forallb isDigit (d :: ds) = true -> isNumberMark c = true ->
  Re.remove numberedRe (d :: ds ++ c :: rest) = skip isWhiteSpace rest.
Proof.
  cbn [forallb]. intros [Hd Hds]%andb_prop Hc.
  unfold Re.remove, numberedRe, Re.seq, Re.plus, Re.cls, Re.star.
  rewrite Hd, (skip_run _ _ _ _ Hds (numberMark_not_digit _ Hc)).
  fold (isNumberMark c). now rewrite Hc.
Qed.

Lemma numbered_only s :
  Re.remove numberedRe s <> s ->
  exists d ds c rest,
    s = d :: ds ++ c :: rest /\ forallb isDigit (d :: ds) = true
    /\ isNumberMark c = true.
Proof.
  unfold Re.remove, numberedRe, Re.seq, Re.plus, Re.cls, Re.star.
  destruct s as [|d s]; [congruence|].
  destruct (isDigit d) eqn:Hd; [|congruence].
  destruct (skip_prefix isDigit s) as (ds & Hs & Hds).
  destruct (skip isDigit s) as [|c rest]; [congruence|].
  fold (isNumberMark c). destruct (isNumberMark c) eqn:Hc; [|congruence].
  intros _. exists d, ds, c, rest. cbn. rewrite Hd, Hds. now rewrite Hs at 1.
Qed.

Lemma bullet_strip c rest :
  isBullet c = true -> Re.remove bulletRe (c :: rest) = skip isWhiteSpace rest.
Proof.
  intros Hc. unfold Re.remove, bulletRe, Re.seq, Re.cls, Re.star.
  fold (isBullet c). now rewrite Hc.
Qed.

Lemma bullet_only s :
  Re.remove bulletRe s <> s ->
  exists c rest, s = c :: rest /\ isBullet c = true.
Proof.
  unfold Re.remove, bulletRe, Re.seq, Re.cls, Re.star.
  destruct s as [|c rest]; [congruence|].
  fold (isBullet c). destruct (isBullet c) eqn:Hc; [|congruence].
  intros _. now exists c, rest.
Qed.

Lemma keepLine_head t :
  keepLine t = match t with [] => false | c :: _ => negb (c =? 35) end.
Proof.
  destruct t as [|c t]; [reflexivity|].
  unfold keepLine, Re.test, headingRe, Re.seq, Re.plus, Re.cls, Re.star.
  cbn [nonEmpty andb]. rewrite (N.eqb_sym 35 c). now destruct (c =? 35).
Qed.

Section LinesToItems.
  Context `{Host}.

(** C7.  [linesToItems] works line by line and in order: the items of a
    text broken at a line feed are the items of what is before it followed
    by the items of what is after it; a single line is trimmed, dropped
    when it is then empty or begins with [#], and otherwise gives one
    item, the trimmed line without a leading numbered marker (digits, then
    [.] or [)], then blanks) and then without a leading bullet ([-], [*]
    or [•], then blanks); nothing else is removed.  On the text of the
    specification's example it returns the three items the specification
    gives. *)
Theorem linesToItems_spec :
  (forall s, linesToItems (VStr s) = Normal (linesOfString s))
  /\ (forall a b,
        linesOfString (a ++ LF :: b) = linesOfString a ++ linesOfString b)
  /\ (forall l, LF ∉ l ->
        linesOfString l
        = match trim l with
          | [] => []
          | c :: _ => if c =? 35 then []
                      else [Re.remove bulletRe (Re.remove numberedRe (trim l))]
          end)
  /\ (forall d ds c rest,
        forallb isDigit (d :: ds) = true -> isNumberMark c = true ->
        Re.remove numberedRe (d :: ds ++ c :: rest) = skip isWhiteSpace rest)
  /\ (forall s, Re.remove numberedRe s <> s ->
        exists d ds c rest,
          s = d :: ds ++ c :: rest /\ forallb isDigit (d :: ds) = true
          /\ isNumberMark c = true)
  /\ (forall c rest, isBullet c = true ->
        Re.remove bulletRe (c :: rest) = skip isWhiteSpace rest)
  /\ (forall s, Re.remove bulletRe s <> s ->
        exists c rest, s = c :: rest /\ isBullet c = true)
  /\ linesToItems (VStr (js "1. Describe X
- Explain Y

CLO3: Apply Z"))
     = Normal [js "Describe X"; js "Explain Y"; js "CLO3: Apply Z"].
Proof.
  repeat apply conj.
  - reflexivity.
  - exact linesOfString_break.
  - intros l Hl. rewrite (linesOfString_one_line l Hl), keepLine_head.
    destruct (trim l) as [|c t]; [reflexivity|]. now destruct (c =? 35).
  - exact numbered_strip.
  - exact numbered_only.
  - exact bullet_strip.
  - exact bullet_only.
  - vm_compute. reflexivity.
Qed.
End LinesToItems.

Lemma linesToItems_spec_witness :
  linesOfString (js "12)  - Explain Y ") = [js "Explain Y"].
Proof.
  destruct (@linesToItems_spec Sample.asciiHost)
    as (_ & _ & Hline & Hnum & _ & Hbul & _).
  rewrite Hline.
  - change (trim (js "12)  - Explain Y ")) with (js "12)  - Explain Y").
    cbv iota beta.
    change (js "12)  - Explain Y") with (49 :: [50] ++ 41 :: js "  - Explain Y").
    rewrite Hnum by reflexivity.
    change (skip isWhiteSpace (js "  - Explain Y")) with (45 :: js " Explain Y").
    rewrite Hbul by reflexivity. reflexivity.
  - apply (bool_decide_unpack _). vm_compute. reflexivity.
Defined.

(** ** The store and the fallbacks *)

Lemma jsstring_eqb_eq a b : jsstring_eqb a b = true <-> a = b.
Proof.
  revert b. induction a as [|x a IH]; intros [|y b]; cbn; try easy.
  rewrite andb_true_iff, N.eqb_eq, IH. split; [intros [-> ->] | intros [= -> ->]]; auto.
Qed.

Lemma jsstring_eqb_refl a : jsstring_eqb a a = true.
Proof. now apply jsstring_eqb_eq. Qed.

Lemma ownProps_data_lookup fields k :
  default (Data VUndefined)
    ((list_to_map (prod_map id Data <$> fields) : object) !! k)
  = Data (assoc k fields).
Proof.
  induction fields as [|[k' v] fields IH]; [reflexivity|].
  cbn [fmap list_fmap prod_map list_to_map foldr fst snd id assoc].
  rewrite lookup_insert. case_decide as E.
  - subst k'. now rewrite jsstring_eqb_refl.
  - destruct (jsstring_eqb k k') eqn:E'; [|exact IH].
    apply jsstring_eqb_eq in E'. congruence.
Qed.

(** Reading a property of [v] is reading its copy. *)
Lemma getVal_ownProps h v k :
  getVal h v k = default (Data VUndefined) (ownProps h v !! k).
Proof.
  destruct v as [d|l]; [|reflexivity].
  destruct d; try reflexivity. cbn. now rewrite ownProps_data_lookup.
Qed.

Lemma readObj_app h ext l : (l < length h)%nat -> readObj (h ++ ext) l = readObj h l.
Proof. intros Hl. unfold readObj. now rewrite lookup_app_l. Qed.

Lemma ownProps_app h ext v : live h v -> ownProps (h ++ ext) v = ownProps h v.
Proof. destruct v as [d|l]; [reflexivity|]. apply readObj_app. Qed.

Lemma getVal_app h ext v k : live h v -> getVal (h ++ ext) v k = getVal h v k.
Proof. intros Hv. now rewrite !getVal_ownProps, ownProps_app. Qed.

(** A property that reads as something truthy is there, so what holds
    it is live. *)
Lemma truthy_prop_live h v k :
  truthyVal (optChain h v k) = true -> live h v.
Proof.
  destruct v as [d|l]; [easy|]. cbn. unfold readObj.
  destruct (h !! l) eqn:E; [intros _; now apply lookup_lt_Some in E|].
  cbn. now rewrite lookup_empty.
Qed.

Lemma truthy_optChain h v k :
  truthyVal (optChain h v k) = true -> optChain h v k = getVal h v k.
Proof. destruct v as [[]|]; try reflexivity; discriminate. Qed.

Lemma readObj_last h o : readObj (h ++ [o]) (length h) = o.
Proof.
  unfold readObj. rewrite lookup_app_r by lia. now rewrite Nat.sub_diag.
Qed.

Section FallbackFacts.
  Context `{Host} `{Upstream}.

Lemma onFailure_budget e params sv sr h p2 h' sv' sr' :
  onFailure e params sv sr h = RetryWith p2 h' sv' sr' ->
  (budget sv' sr' < budget sv sr)%nat.
Proof.
  unfold onFailure.
  destruct (negb sv && _) eqn:E1.
  - destruct (withoutVerbosity params h). intros [= <- <- <- <-].
    destruct sv; [discriminate|]. destruct sr; cbn; lia.
  - destruct (negb sr && _) eqn:E2; [|discriminate].
    destruct (withoutReasoning params h). intros [= <- <- <- <-].
    destruct sr; [discriminate|]. destruct sv; cbn; lia.
Qed.

Lemma withoutVerbosity_eq params h :
  withoutVerbosity params h
  = (Ref (length h),
     h ++ [ <[js "text" := Ref (S (length h))]> (ownProps h params);
            delete (js "verbosity")
              (ownProps (h ++ [ownProps h params])
                 (let text := getVal (h ++ [ownProps h params]) params (js "text") in
                  if truthyVal text then text else Data (VObj []))) ]).
Proof.
  unfold withoutVerbosity, alloc, setProp, deleteProp, getVal.
  set (o1 := ownProps h params). set (o2 := ownProps _ _).
  rewrite length_app, Nat.add_1_r. cbn [length].
  assert (alter (insert (js "text") (Ref (S (length h)))) (length h)
            ((h ++ [o1]) ++ [o2])
          = h ++ [<[js "text" := Ref (S (length h))]> o1; o2]) as ->.
  { rewrite <- app_assoc. rewrite <- (Nat.add_0_r (length h)) at 2.
    now rewrite alter_app_r. }
  unfold readObj. rewrite lookup_app_r by lia. rewrite Nat.sub_diag. cbn [lookup].
  cbn. rewrite lookup_insert_eq. cbn.
  f_equal. rewrite <- (Nat.add_1_r (length h)). now rewrite alter_app_r.
Qed.

Lemma withoutReasoning_eq params h :
  withoutReasoning params h
  = (Ref (length h), h ++ [delete (js "reasoning") (ownProps h params)]).
Proof.
  unfold withoutReasoning, alloc, deleteProp. f_equal.
  rewrite <- (Nat.add_0_r (length h)) at 1. now rewrite alter_app_r.
Qed.

Lemma onFailure_extends e params sv sr h p2 h' sv' sr' :
  onFailure e params sv sr h = RetryWith p2 h' sv' sr' ->
  p2 = Ref (length h) /\ exists ext, h' = h ++ ext.
Proof.
  unfold onFailure.
  destruct (negb sv && _).
  - rewrite withoutVerbosity_eq. intros [= <- <- _ _]. eauto.
  - destruct (negb sr && _); [|discriminate].
    rewrite withoutReasoning_eq. intros [= <- <- _ _]. eauto.
Qed.

Lemma call_spec params σ o σ1 :
  call params σ = (o, σ1) ->
  heap σ1 = heap σ /\ calls σ1 = calls σ ++ [(params, o)]
  /\ console σ1 = console σ
  /\ responses_create (heap σ) params (world σ) = (o, world σ1).
Proof.
  unfold call. destruct (responses_create _ _ _) as [o' w].
  intros [= <- <-]. cbn. auto.
Qed.

Lemma createResponseWithFallback_step params sv sr σ :
  createResponseWithFallback params sv sr σ =
  match call params σ with
  | (Resolved rsp, σ1) => (Normal rsp, σ1)
  | (Rejected e, σ1) =>
      match onFailure e params sv sr (heap σ1) with
      | RetryWith p2 h' sv' sr' =>
          createResponseWithFallback p2 sv' sr' (withHeap σ1 h')
      | Rethrow => (Throw (UpstreamError e), σ1)
      end
  end.
Proof.
  funelim (createResponseWithFallback params sv sr σ);
    rewrite Heq; [reflexivity | |]; rewrite e1; reflexivity.
Qed.

Lemma budget_le sv sr : (budget sv sr <= 2)%nat.
Proof. destruct sv, sr; cbn; lia. Qed.

(** What a run leaves behind: the calls it made, at least one and at most
    one more than the fallbacks open; its result, which is the outcome of
    the last of them; the store it found, extended. *)
Lemma createResponseWithFallback_run params sv sr σ :
  exists log p o ext,
    calls (createResponseWithFallback params sv sr σ).2 = calls σ ++ log
    /\ (1 <= length log <= 1 + budget sv sr)%nat
    /\ last log = Some (p, o)
    /\ (createResponseWithFallback params sv sr σ).1 = settle o
    /\ heap (createResponseWithFallback params sv sr σ).2 = heap σ ++ ext
    /\ console (createResponseWithFallback params sv sr σ).2 = console σ.
Proof.
  funelim (createResponseWithFallback params sv sr σ).
  - apply call_spec in Heq as (Hh & Hc & Hk & _).
    exists [(params, Resolved rsp)], params, (Resolved rsp), [].
    cbn. rewrite app_nil_r. repeat split; auto; lia.
  - destruct H1 as (log & p & o & ext & Hc' & Hlen & Hlast & Hres & Hh' & Hk').
    apply call_spec in Heq as (Hh & Hc & Hk & _).
    pose proof (onFailure_budget _ _ _ _ _ _ _ _ _ e1) as Hb.
    destruct (onFailure_extends _ _ _ _ _ _ _ _ _ e1) as (_ & ext1 & Hext).
    exists ((params, Rejected e) :: log), p, o, (ext1 ++ ext).
    cbn in Hc', Hh', Hk'. cbn [length].
    repeat split; auto; try lia.
    + now rewrite Hc', Hc, <- app_assoc.
    + destruct log; [cbn in Hlen; lia | exact Hlast].
    + now rewrite Hh', Hext, Hh, <- app_assoc.
    + now rewrite Hk'.
  - apply call_spec in Heq as (Hh & Hc & Hk & _).
    exists [(params, Rejected e)], params, (Rejected e), [].
    cbn. rewrite app_nil_r. repeat split; auto; lia.
Qed.
End FallbackFacts.

Lemma readObj_ext h ext i :
  readObj (h ++ ext) (length h + i) = default ∅ (ext !! i).
Proof.
  unfold readObj. rewrite lookup_app_r by lia.
  now replace (length h + i - length h)%nat with i by lia.
Qed.

(** A guard [v?.k1?.k2] that holds: [v] and [v.k1] are live and truthy. *)
Lemma guard_live h v k1 k2 :
  truthyVal (optChain h (optChain h v k1) k2) = true ->
  live h v /\ live h (getVal h v k1)
  /\ truthyVal (getVal h v k1) = true
  /\ optChain h (optChain h v k1) k2 = getVal h (getVal h v k1) k2.
Proof.
  intros Hg.
  assert (optChain h v k1 = getVal h v k1) as Hv.
  { destruct v as [[]|]; try reflexivity; discriminate. }
  rewrite Hv in *.
  assert (truthyVal (getVal h v k1) = true) as Ht.
  { destruct (getVal h v k1) as [[]|]; try reflexivity; discriminate. }
  repeat split; auto.
  - apply (truthy_prop_live h v k1). now rewrite Hv.
  - now apply (truthy_prop_live h _ k2).
  - now apply truthy_optChain.
Qed.

(** ** Copies in a store that grows *)

Lemma live_app h ext v : live h v -> live (h ++ ext) v.
Proof. destruct v; cbn; [auto|]. rewrite length_app. lia. Qed.



Section FallbackClaims.
  Context `{Host} `{Upstream}.

Lemma withoutVerbosity_spec params h p2 h' :
  hasVerbosity h params = true ->
  withoutVerbosity params h = (p2, h') ->
  optChain h' (optChain h' p2 (js "text")) (js "verbosity") = Data VUndefined
  /\ (forall k, k <> js "text" -> getVal h' p2 k = getVal h params k)
  /\ (forall k, k <> js "verbosity" ->
        getVal h' (getVal h' p2 (js "text")) k
        = getVal h (getVal h params (js "text")) k).
Proof.
  intros (Hp & Ht & Htt & _)%guard_live.
  rewrite withoutVerbosity_eq. cbv zeta.
  rewrite (getVal_app h _ params) by assumption. rewrite Htt.
  rewrite (ownProps_app h _ (getVal h params (js "text"))) by assumption.
  intros [= <- <-].
  set (o1 := <[js "text":=Ref (S (length h))]> (ownProps h params)).
  set (o2 := delete (js "verbosity") (ownProps h (getVal h params (js "text")))).
  assert (readObj (h ++ [o1; o2]) (length h) = o1) as R1.
  { pose proof (readObj_ext h [o1; o2] 0) as R. now rewrite Nat.add_0_r in R. }
  assert (readObj (h ++ [o1; o2]) (S (length h)) = o2) as R2.
  { pose proof (readObj_ext h [o1; o2] 1) as R. now rewrite Nat.add_1_r in R. }
  assert (getVal (h ++ [o1; o2]) (Ref (length h)) (js "text") = Ref (S (length h))) as G.
  { cbn [getVal]. rewrite R1. unfold o1. now rewrite lookup_insert_eq. }
  repeat split.
  - change (optChain ?a (Ref ?l) ?k) with (getVal a (Ref l) k). rewrite G.
    change (optChain ?a (Ref ?l) ?k) with (getVal a (Ref l) k).
    cbn [getVal]. rewrite R2. unfold o2. now rewrite lookup_delete_eq.
  - intros k Hk. cbn [getVal]. rewrite R1. unfold o1.
    rewrite lookup_insert_ne by congruence. now rewrite getVal_ownProps.
  - intros k Hk. rewrite G. cbn [getVal]. rewrite R2. unfold o2.
    rewrite lookup_delete_ne by congruence. symmetry. apply getVal_ownProps.
Qed.

Lemma withoutReasoning_spec params h p2 h' :
  withoutReasoning params h = (p2, h') ->
  getVal h' p2 (js "reasoning") = Data VUndefined
  /\ (forall k, k <> js "reasoning" -> getVal h' p2 k = getVal h params k).
Proof.
  rewrite withoutReasoning_eq. intros [= <- <-].
  set (o1 := delete (js "reasoning") (ownProps h params)).
  assert (readObj (h ++ [o1]) (length h) = o1) as R1 by apply readObj_last.
  split.
  - cbn [getVal]. rewrite R1. unfold o1. now rewrite lookup_delete_eq.
  - intros k Hk. cbn [getVal]. rewrite R1. unfold o1.
    rewrite lookup_delete_ne by congruence. now rewrite getVal_ownProps.
Qed.

(** C2.  When the upstream call is rejected, whatever the error says:
    if verbosity has not been stripped and [params.text.verbosity] is
    there, the call is made again on a copy of the parameters whose text
    has no verbosity, with [stripVerbosity] set and [stripReasoning] as it
    was; otherwise, if reasoning has not been stripped and
    [params.reasoning.effort] is there, it is made again on a copy with
    no [reasoning] at all and both flags set; otherwise the error is
    thrown again.  A field is there when the guard of the source holds,
    that is when it reads as a truthy value.  What the [catch] block
    decides is the same for every error: its reading of the message is
    not used. *)
Theorem fallback_on_failure params sv sr σ e σ1 :
  call params σ = (Rejected e, σ1) ->
  (forall e', onFailure e' params sv sr (heap σ)
              = onFailure e params sv sr (heap σ))
  /\
  if negb sv && hasVerbosity (heap σ) params then
    exists p2 h',
      createResponseWithFallback params sv sr σ
      = createResponseWithFallback p2 true sr (withHeap σ1 h')
      /\ optChain h' (optChain h' p2 (js "text")) (js "verbosity") = Data VUndefined
      /\ (forall k, k <> js "text" -> getVal h' p2 k = getVal (heap σ) params k)
      /\ (forall k, k <> js "verbosity" ->
            getVal h' (getVal h' p2 (js "text")) k
            = getVal (heap σ) (getVal (heap σ) params (js "text")) k)
  else if negb sr && hasEffort (heap σ) params then
    exists p2 h',
      createResponseWithFallback params sv sr σ
      = createResponseWithFallback p2 true true (withHeap σ1 h')
      /\ getVal h' p2 (js "reasoning") = Data VUndefined
      /\ (forall k, k <> js "reasoning" ->
            getVal h' p2 k = getVal (heap σ) params k)
  else
    createResponseWithFallback params sv sr σ = (Throw (UpstreamError e), σ1).
Proof.
  intros Hcall. split; [reflexivity|].
  rewrite createResponseWithFallback_step, Hcall.
  apply call_spec in Hcall as (Hh & _). rewrite <- Hh.
  unfold onFailure, hasVerbosity, hasEffort. cbv zeta.
  destruct (negb sv && _) eqn:E1.
  - apply andb_prop in E1 as [_ E1].
    destruct (withoutVerbosity params (heap σ1)) as [p2 h'] eqn:Ew.
    exists p2, h'. split; [reflexivity|].
    now apply withoutVerbosity_spec.
  - destruct (negb sr && _) eqn:E2; [|reflexivity].
    destruct (withoutReasoning params (heap σ1)) as [p2 h'] eqn:Ew.
    exists p2, h'. split; [reflexivity|].
    now apply withoutReasoning_spec.
Qed.

(** C3.  A run of [createResponseWithFallback] calls the upstream client
    at least once and at most three times, whatever the parameters, the
    flags and the answers of the client, and what it returns or throws is
    the outcome of the last call it made. *)
Theorem createResponseWithFallback_attempts params sv sr σ :
  exists log p o,
    calls (createResponseWithFallback params sv sr σ).2 = calls σ ++ log
    /\ (1 <= length log <= 3)%nat
    /\ last log = Some (p, o)
    /\ (createResponseWithFallback params sv sr σ).1 = settle o.
Proof.
  destruct (createResponseWithFallback_run params sv sr σ)
    as (log & p & o & _ & Hc & Hlen & Hlast & Hres & _).
  exists log, p, o. pose proof (budget_le sv sr). repeat split; auto; lia.
Qed.

(** Every call after the first is made on an object that was not in the
    store before. *)
Lemma createResponseWithFallback_copies params sv sr σ :
  exists o retries,
    calls (createResponseWithFallback params sv sr σ).2
    = calls σ ++ (params, o) :: retries
    /\ Forall (fun c => exists l, c.1 = Ref l /\ (length (heap σ) <= l)%nat) retries.
Proof.
  funelim (createResponseWithFallback params sv sr σ).
  - apply call_spec in Heq as (_ & Hc & _).
    exists (Resolved rsp), []. split; [exact Hc | constructor].
  - destruct H1 as (o & retries & Hc' & Hfresh).
    apply call_spec in Heq as (Hh & Hc & _).
    destruct (onFailure_extends _ _ _ _ _ _ _ _ _ e1) as (-> & ext1 & Hext).
    exists (Rejected e), ((Ref (length (heap σ1)), o) :: retries).
    cbn in Hc', Hfresh. split.
    + now rewrite Hc', Hc, <- app_assoc.
    + constructor.
      * exists (length (heap σ1)). cbn. split; [reflexivity | now rewrite Hh].
      * eapply Forall_impl; [exact Hfresh|]. cbn. intros c (l & ? & Hl).
        exists l. split; [assumption|]. rewrite Hext, length_app, Hh in Hl. lia.
  - apply call_spec in Heq as (_ & Hc & _).
    exists (Rejected e), []. split; [exact Hc | constructor].
Qed.



End FallbackClaims.

Lemma fallback_on_failure_witness :
  exists p2 h',
    @createResponseWithFallback Sample.asciiHost Sample.scripted (Ref 0) false false
      (SampleStore.ready [Sample.refused "Unknown parameter: text.verbosity"])
    = @createResponseWithFallback Sample.asciiHost Sample.scripted p2 true false
        (withHeap (@call Sample.scripted (Ref 0)
                     (SampleStore.ready [Sample.refused "Unknown parameter: text.verbosity"])).2 h')
    /\ optChain h' (optChain h' p2 (js "text")) (js "verbosity") = Data VUndefined.
Proof.
  destruct (@fallback_on_failure Sample.asciiHost Sample.scripted (Ref 0) false false
              (SampleStore.ready [Sample.refused "Unknown parameter: text.verbosity"])
              {| message := js "Unknown parameter: text.verbosity"; detail := VNull |}
              (@call Sample.scripted (Ref 0)
                 (SampleStore.ready [Sample.refused "Unknown parameter: text.verbosity"])).2
              eq_refl)
    as (_ & p2 & h' & Heq & Hgone & _).
  exists p2, h'. split; [exact Heq | exact Hgone].
Defined.


(** ** The items of [/api/suggest] *)

Lemma Qle_bool_inject a b : Qle_bool (inject_Z a) (inject_Z b) = (a <=? b)%Z.
Proof. unfold Qle_bool, inject_Z. cbn. now rewrite !Z.mul_1_r. Qed.

Lemma lengthBelow_int len n :
  lengthBelow len (int n) = (Z.of_nat len <? n)%Z.
Proof.
  unfold lengthBelow, int. rewrite Qle_bool_inject. apply eq_sym, Z.ltb_antisym.
Qed.

Lemma Qtruncate_int n : Qtruncate (inject_Z n) = n.
Proof.
  unfold Qtruncate. destruct (Qle_bool 0 (inject_Z n)).
  - apply Qfloor_Z.
  - apply Qceiling_Z.
Qed.

Lemma sliceTo_int {A} (l : list A) n :
  (0 <= n)%Z -> sliceTo l (int n) = take (Z.to_nat n) l.
Proof.
  intros Hn. unfold sliceTo, int. rewrite Qtruncate_int.
  destruct (n <? 0)%Z eqn:E; [lia | reflexivity].
Qed.

(** The rounds of the loop: as long as the list is short and there is a
    line that is no [CLOx:] line, the first such line is pushed again. *)
Lemma padItems_rounds raw n : forall fuel items,
  (Z.max 0 (n - Z.of_nat (length items)) < Z.of_nat fuel)%Z ->
  padItems fuel raw (int n) items
  = Some (match List.filter (fun s => negb (isCLO s)) (linesOfString raw) with
          | [] => items
          | first :: _ =>
              items ++ map (fun k => borrowed k first)
                         (seq (S (length items)) (Z.to_nat (n - Z.of_nat (length items))))
          end).
Proof.
  induction fuel as [|fuel IH]; intros items Hf.
  - cbn in Hf. lia.
  - cbn [padItems]. rewrite lengthBelow_int.
    destruct (Z.of_nat (length items) <? n)%Z eqn:E.
    + apply Z.ltb_lt in E.
      destruct (List.filter _ _) as [|first rest] eqn:Ex; [reflexivity|].
      rewrite IH by (rewrite length_app; cbn; lia).
      f_equal. rewrite <- app_assoc. f_equal.
      rewrite length_app. cbn [length].
      replace (Z.to_nat (n - Z.of_nat (length items)))
        with (S (Z.to_nat (n - Z.of_nat (length items + 1)))) by lia.
      cbn [seq map app]. now rewrite Nat.add_1_r.
    + apply Z.ltb_ge in E.
      replace (Z.to_nat (n - Z.of_nat (length items))) with O by lia.
      cbn. destruct (List.filter _ _); [reflexivity | now rewrite app_nil_r].
Qed.

(** C1 (the code departs from the claim).  For a count that is a natural
    number [n], the items of [/api/suggest] are the first [n] lines that
    match [CLOx:]; when fewer than [n] match and some cleaned line does not
    match, the list is filled up to [n] with copies of the FIRST such line
    under the prefixes [CLO(m+1):] to [CLOn:], because the loop builds its
    list of unclaimed lines anew in every round and so never gets past the
    first; when every cleaned line matches, the fewer items are returned
    as they are. *)
Theorem suggestItems_behaviour raw n fuel :
  (0 <= n)%Z -> (n < Z.of_nat fuel)%Z ->
  suggestItems fuel raw (int n)
  = Some
      (let matched := List.filter isCLO (linesOfString raw) in
       if (n <=? Z.of_nat (length matched))%Z then take (Z.to_nat n) matched
       else match List.filter (fun s => negb (isCLO s)) (linesOfString raw) with
            | [] => matched
            | first :: _ =>
                matched ++ map (fun k => borrowed k first)
                             (seq (S (length matched))
                                (Z.to_nat n - length matched))
            end).
Proof.
  intros Hn Hf. unfold suggestItems. cbv zeta.
  set (matched := List.filter isCLO (linesOfString raw)).
  rewrite (sliceTo_int matched) by assumption.
  rewrite padItems_rounds by (rewrite length_take; lia).
  rewrite length_take.
  set (extras := List.filter (fun s => negb (isCLO s)) (linesOfString raw)).
  clearbody matched extras.
  destruct (n <=? Z.of_nat (length matched))%Z eqn:E.
  - apply Z.leb_le in E.
    replace (Z.to_nat (n - Z.of_nat (Z.to_nat n `min` length matched))) with O by lia.
    cbn [seq map]. f_equal.
    assert (sliceTo (take (Z.to_nat n) matched) (int n) = take (Z.to_nat n) matched) as Hs.
    { rewrite sliceTo_int by assumption. rewrite take_take. f_equal. lia. }
    destruct extras; rewrite ?app_nil_r; exact Hs.
  - apply Z.leb_gt in E.
    rewrite (take_ge matched) by lia.
    replace (Z.to_nat n `min` length matched)%nat with (length matched) by lia.
    replace (Z.to_nat (n - Z.of_nat (length matched)))
      with (Z.to_nat n - length matched)%nat by lia.
    f_equal. rewrite sliceTo_int by assumption.
    destruct extras as [|first rest].
    + apply take_ge. lia.
    + apply take_ge. rewrite length_app, length_map, length_seq. lia.
Qed.

Lemma suggestItems_behaviour_witness :
  suggestItems 4 (js "CLO1: A
foo
bar") (int 3)
  = Some [js "CLO1: A"; js "CLO2: foo"; js "CLO3: foo"].
Proof.
  rewrite (suggestItems_behaviour _ 3 4) by lia. vm_compute. reflexivity.
Defined.

(** A count that is plus infinity never ends it, as soon as there is a
    line to borrow. *)
Lemma padItems_endless raw first rest : forall fuel items,
  List.filter (fun s => negb (isCLO s)) (linesOfString raw) = first :: rest ->
  padItems fuel raw (Inf false) items = None.
Proof.
  induction fuel as [|fuel IH]; intros items Hextras; [reflexivity|].
  cbn [padItems lengthBelow negb]. rewrite Hextras. now apply IH.
Qed.

Example suggestItems_two_match_one_does_not :
  suggestItems 4 (js "CLO1: A
CLO2: B
a note") (int 3)
  = Some [js "CLO1: A"; js "CLO2: B"; js "CLO3: a note"].
Proof. vm_compute. reflexivity. Qed.

Example suggestItems_one_line_three_times :
  suggestItems 4 (js "foo") (int 3)
  = Some [js "CLO1: foo"; js "CLO2: foo"; js "CLO3: foo"].
Proof. vm_compute. reflexivity. Qed.

Example suggestItems_fewer_than_asked :
  suggestItems 4 (js "CLO1: A") (int 3) = Some [js "CLO1: A"].
Proof. vm_compute. reflexivity. Qed.

(** ** The handlers *)


Lemma bind_Normal {A B} (m : completion A) (f : A -> completion B) b :
  m ≫= f = Normal b -> exists a, m = Normal a /\ f a = Normal b.
Proof. destruct m as [a|e]; [eauto | discriminate]. Qed.

Section HandlerClaims.
  Context `{Host} `{Env} `{Upstream}.

Lemma toString_toNumber v s : toString v = Normal s -> exists n, toNumber v = Normal n.
Proof.
  destruct v; cbn [toNumber]; eauto.
  - intros ->. cbn. eauto.
  - intros ->. cbn. eauto.
Qed.

(** With nothing in the text there is nothing to push: the loop ends in
    its first round. *)
Lemma suggestItems_empty fuel n : suggestItems (S fuel) [] n = Some [].
Proof.
  unfold suggestItems.
  change (linesOfString []) with (@nil jsstring). cbn [List.filter].
  assert (forall m, sliceTo (@nil jsstring) m = []) as Hs.
  { intros [| [] | q]; try reflexivity. cbn. now destruct (_ <? _)%Z; rewrite take_nil. }
  rewrite Hs. cbn [padItems]. change (linesOfString []) with (@nil jsstring).
  cbn [List.filter]. destruct (lengthBelow _ _); now rewrite Hs.
Qed.

Lemma noOutputText_raw rsp :
  noOutputText rsp ->
  exists v, getProp rsp (js "output_text") = Normal v /\ orElse v (VStr []) = VStr [].
Proof.
  unfold noOutputText. destruct (getProp rsp _) as [v|]; [|easy].
  intros [-> | [-> | ->]]; eauto.
Qed.

Lemma suggestRequest_count req_body count modelName prompt :
  suggestRequest req_body = Normal (count, modelName, prompt) ->
  count = effectiveCount req_body
  /\ modelName = pickModel (js "suggest") (field (orElse req_body (VObj [])) (js "model"))
  /\ exists n, toNumber count = Normal n.
Proof.
  unfold suggestRequest. cbv zeta.
  destruct (suggestPrompt _ _ _ _ _ _ _) as [p|] eqn:Ep; [|discriminate].
  intros [= <- <- <-]. repeat split.
  unfold suggestPrompt in Ep. cbv zeta in Ep.
  fold (effectiveCount req_body) in Ep.
  apply bind_Normal in Ep as (linkLevel & _ & Ep).
  apply bind_Normal in Ep as (all & _ & Ep).
  apply bind_Normal in Ep as ([[courseLabel courseFull] credits] & _ & Ep).
  apply bind_Normal in Ep as (c & Ec & _).
  now apply toString_toNumber in Ec.
Qed.

Lemma suggest_after_call fuel req_body count modelName prompt σ :
  suggestRequest req_body = Normal (count, modelName, prompt) ->
  suggest fuel req_body σ
  = match suggestCall modelName prompt σ with
    | (Throw e, σ1) => Some (failed (js "suggest_failed") e σ1)
    | (Normal rsp, σ1) =>
        match suggestReply fuel count modelName rsp with
        | None => None
        | Some (Normal r) => Some (r, σ1)
        | Some (Throw e) => Some (failed (js "suggest_failed") e σ1)
        end
    end.
Proof.
  intros Hreq. unfold suggest, suggestTry. rewrite Hreq.
  destruct (suggestCall modelName prompt σ) as [[rsp|e] σ1]; [|reflexivity].
  now destruct (suggestReply fuel count modelName rsp) as [[r|e]|].
Qed.

Lemma evaluate_after_call req_body modelName prompt σ :
  evaluateRequest req_body = Normal (modelName, prompt) ->
  evaluate req_body σ
  = match evaluateCall modelName prompt σ with
    | (Throw e, σ1) => failed (js "evaluate_failed") e σ1
    | (Normal rsp, σ1) =>
        match textReply modelName rsp with
        | Normal r => (r, σ1)
        | Throw e => failed (js "evaluate_failed") e σ1
        end
    end.
Proof.
  intros Hreq. unfold evaluate, evaluateTry. rewrite Hreq.
  now destruct (evaluateCall modelName prompt σ) as [[rsp|e] σ1].
Qed.

Lemma raw_after_call req_body σ :
  raw req_body σ
  = match rawCall req_body σ with
    | (Throw e, σ1) => failed (js "raw_failed") e σ1
    | (Normal rsp, σ1) =>
        match textReply (rawModel req_body) rsp with
        | Normal r => (r, σ1)
        | Throw e => failed (js "raw_failed") e σ1
        end
    end.
Proof.
  unfold raw, rawTry. now destruct (rawCall req_body σ) as [[rsp|e] σ1].
Qed.

(** C9.  In each of the three handlers, when the call to
    [createResponseWithFallback] ends by throwing, the response is status
    500 with the body [{ error: 'suggest_failed' }],
    [{ error: 'evaluate_failed' }] or [{ error: 'raw_failed' }]: a constant
    in which nothing of the error appears, the error going to the console
    only. *)
Theorem terminal_failure_is_opaque :
  (forall fuel req_body count modelName prompt σ e σ1,
      suggestRequest req_body = Normal (count, modelName, prompt) ->
      suggestCall modelName prompt σ = (Throw e, σ1) ->
      suggest fuel req_body σ
      = Some (failure "suggest_failed", (failed (js "suggest_failed") e σ1).2))
  /\ (forall req_body modelName prompt σ e σ1,
        evaluateRequest req_body = Normal (modelName, prompt) ->
        evaluateCall modelName prompt σ = (Throw e, σ1) ->
        evaluate req_body σ
        = (failure "evaluate_failed", (failed (js "evaluate_failed") e σ1).2))
  /\ (forall req_body σ e σ1,
        rawCall req_body σ = (Throw e, σ1) ->
        raw req_body σ = (failure "raw_failed", (failed (js "raw_failed") e σ1).2)).
Proof.
  repeat split.
  - intros * Hreq Hcall. now rewrite (suggest_after_call _ _ _ _ _ _ Hreq), Hcall.
  - intros * Hreq Hcall. now rewrite (evaluate_after_call _ _ _ _ Hreq), Hcall.
  - intros * Hcall. now rewrite raw_after_call, Hcall.
Qed.

(** C10.  When the call to [createResponseWithFallback] returns a response
    whose [output_text] is absent, [null] or empty, each handler answers
    with status 200: [/api/suggest] with no items and an empty [raw],
    [/api/evaluate] and [/api/raw] with an empty [text]. *)
Theorem empty_output_is_success :
  (forall fuel req_body count modelName prompt σ rsp σ1,
      suggestRequest req_body = Normal (count, modelName, prompt) ->
      suggestCall modelName prompt σ = (Normal rsp, σ1) ->
      noOutputText rsp ->
      suggest (S fuel) req_body σ
      = Some (json (VObj [(js "items", VArr []); (js "raw", VStr []);
                          (js "model", modelName)]), σ1))
  /\ (forall req_body modelName prompt σ rsp σ1,
        evaluateRequest req_body = Normal (modelName, prompt) ->
        evaluateCall modelName prompt σ = (Normal rsp, σ1) ->
        noOutputText rsp ->
        evaluate req_body σ
        = (json (VObj [(js "text", VStr []); (js "model", modelName)]), σ1))
  /\ (forall req_body σ rsp σ1,
        rawCall req_body σ = (Normal rsp, σ1) ->
        noOutputText rsp ->
        raw req_body σ
        = (json (VObj [(js "text", VStr []); (js "model", rawModel req_body)]), σ1)).
Proof.
  repeat split.
  - intros * Hreq Hcall (v & Hv & Hraw)%noOutputText_raw.
    rewrite (suggest_after_call _ _ _ _ _ _ Hreq), Hcall.
    apply suggestRequest_count in Hreq as (_ & _ & n & Hn).
    unfold suggestReply. rewrite Hv. cbv zeta. rewrite Hraw.
    change (toString (VStr [])) with (Normal (@nil N)). cbv iota beta.
    now rewrite Hn, suggestItems_empty.
  - intros * Hreq Hcall (v & Hv & Hraw)%noOutputText_raw.
    rewrite (evaluate_after_call _ _ _ _ Hreq), Hcall.
    unfold textReply. rewrite Hv. cbn. now rewrite Hraw.
  - intros * Hcall (v & Hv & Hraw)%noOutputText_raw.
    rewrite raw_after_call, Hcall.
    unfold textReply. rewrite Hv. cbn. now rewrite Hraw.
Qed.

End HandlerClaims.

Lemma terminal_failure_is_opaque_witness :
  fst <$> @suggest Sample.asciiHost Sample.env Sample.scripted 1 (VObj [])
            (Sample.start [Sample.refused "401 Incorrect API key provided: sk-test"])
  = Some (failure "suggest_failed").
Proof.
  destruct (@terminal_failure_is_opaque Sample.asciiHost Sample.env Sample.scripted)
    as (Hsuggest & _ & _).
  erewrite Hsuggest.
  - reflexivity.
  - vm_compute. reflexivity.
  - vm_compute. reflexivity.
Defined.

Lemma empty_output_is_success_witness :
  fst <$> @suggest Sample.asciiHost Sample.env Sample.scripted 1 (VObj [])
            (Sample.start [Resolved (VObj [(js "id", VStr (js "resp_1"))])])
  = Some (@json (VObj [(js "items", VArr []); (js "raw", VStr []);
                       (js "model", VStr (js "gpt-5-mini"))])).
Proof.
  destruct (@empty_output_is_success Sample.asciiHost Sample.env Sample.scripted)
    as (Hsuggest & _ & _).
  erewrite Hsuggest.
  - reflexivity.
  - vm_compute. reflexivity.
  - vm_compute. reflexivity.
  - vm_compute. auto.
Defined.



(** ** The prompts *)

Section PromptClaims.
  Context `{Host} `{Env} `{Upstream}.

Lemma hintedParams_input modelName prompt verbosity effort tokens temperature h :
  let '(params, h') :=
    hintedParams modelName prompt verbosity effort tokens temperature h in
  params = Ref (length h) /\ live h' params
  /\ getVal h' params (js "input") = Data (VStr prompt).
Proof.
  unfold hintedParams. repeat split.
  - cbn. rewrite length_app. cbn. lia.
  - cbn [getVal].
    match goal with
    | |- context [readObj (h ++ ?ext) (length h)] =>
        pose proof (readObj_ext h ext 0) as R
    end.
    rewrite Nat.add_0_r in R. rewrite R.
    match goal with
    | |- context [default ∅ ((?o :: ?rest) !! 0%nat)] =>
        change (default ∅ ((o :: rest) !! 0%nat)) with o
    end.
    rewrite lookup_insert_ne by names_differ. now rewrite lookup_insert_eq.
Qed.

(** The prompt worked out from the request is what the first call to the
    upstream client carries as its [input]. *)
Lemma suggestCall_input modelName prompt σ :
  exists params o retries,
    calls (suggestCall modelName prompt σ).2 = calls σ ++ (params, o) :: retries
    /\ getVal (heap (suggestCall modelName prompt σ).2) params (js "input")
       = Data (VStr prompt).
Proof.
  unfold suggestCall.
  pose proof (hintedParams_input modelName prompt (js "low") (js "minimal") 900
                (4 # 10) (heap σ)) as Hp.
  destruct (hintedParams _ _ _ _ _ _ _) as [params h'].
  destruct Hp as (_ & Hlive & Hinput).
  destruct (createResponseWithFallback_run params false false (withHeap σ h'))
    as (_ & _ & _ & ext & _ & _ & _ & _ & Hheap & _).
  destruct (createResponseWithFallback_copies params false false (withHeap σ h'))
    as (o & retries & Hcalls & _).
  exists params, o, retries. split; [exact Hcalls|].
  rewrite Hheap. cbn [heap withHeap]. rewrite getVal_app by exact Hlive.
  exact Hinput.
Qed.

Lemma evaluateCall_input modelName prompt σ :
  exists params o retries,
    calls (evaluateCall modelName prompt σ).2 = calls σ ++ (params, o) :: retries
    /\ getVal (heap (evaluateCall modelName prompt σ).2) params (js "input")
       = Data (VStr prompt).
Proof.
  unfold evaluateCall.
  pose proof (hintedParams_input modelName prompt (js "medium") (js "medium") 600
                (2 # 10) (heap σ)) as Hp.
  destruct (hintedParams _ _ _ _ _ _ _) as [params h'].
  destruct Hp as (_ & Hlive & Hinput).
  destruct (createResponseWithFallback_run params false false (withHeap σ h'))
    as (_ & _ & _ & ext & _ & _ & _ & _ & Hheap & _).
  destruct (createResponseWithFallback_copies params false false (withHeap σ h'))
    as (o & retries & Hcalls & _).
  exists params, o, retries. split; [exact Hcalls|].
  rewrite Hheap. cbn [heap withHeap]. rewrite getVal_app by exact Hlive.
  exact Hinput.
Qed.

Lemma suggestRequest_prompt req_body count modelName prompt :
  suggestRequest req_body = Normal (count, modelName, prompt) ->
  let b := orElse req_body (VObj []) in
  suggestPrompt (field b (js "plo")) (field b (js "ploText"))
    (field b (js "course")) (field b (js "level")) (field b (js "linkLevel"))
    (field b (js "bloomVerbs")) (field b (js "count")) = Normal prompt.
Proof.
  unfold suggestRequest. cbv zeta.
  intros (p & Hp & [= _ _ ->])%bind_Normal. exact Hp.
Qed.

Lemma evaluateRequest_prompt req_body modelName prompt :
  evaluateRequest req_body = Normal (modelName, prompt) ->
  let b := orElse req_body (VObj []) in
  evaluatePrompt (field b (js "plo")) (field b (js "ploText"))
    (field b (js "cloText")) (field b (js "level")) (field b (js "linkLevel"))
    (field b (js "course")) (field b (js "bloomVerbs")) = Normal prompt.
Proof.
  unfold evaluateRequest. cbv zeta.
  intros (p & Hp & [= _ ->])%bind_Normal. exact Hp.
Qed.

Lemma six_prints : toString (VNum (int 6)) = Normal (js "6").
Proof. vm_compute. reflexivity. Qed.

Lemma linkLevelOf_missing linkLevel level :
  missing linkLevel -> missing level ->
  linkLevelOf linkLevel level = Normal (toUpperCase (js "I")).
Proof. intros [-> | ->] [-> | ->]; reflexivity. Qed.

Lemma normalized_missing bloomVerbs :
  missing bloomVerbs -> normalized (defaultTo bloomVerbs (VArr [])) = Normal [].
Proof. intros [-> | ->]; reflexivity. Qed.

Lemma VERB_LIST_nil targets :
  VERB_LIST (verbPool 180 targets []) = join (js ", ") fallbackVerbs.
Proof. reflexivity. Qed.

(** The prompt of a body that has a [plo] and nothing else. *)
Lemma suggestPrompt_bare plo level linkLevel bloomVerbs :
  missing level -> missing linkLevel -> missing bloomVerbs ->
  suggestPrompt (VStr plo) VUndefined VUndefined level linkLevel bloomVerbs
    VUndefined
  = Normal (suggestTemplate (js "6") [] [] [] (toUpperCase (js "I")) plo []
              (join (js ", ") fallbackVerbs)).
Proof.
  intros Hl Hll Hv. unfold suggestPrompt. cbv zeta.
  rewrite (linkLevelOf_missing _ _ Hll Hl). cbn [mbind completion_bind].
  rewrite (normalized_missing _ Hv). cbn [mbind completion_bind defaultTo].
  change (courseStrings (VObj [])) with (Normal (([] : jsstring), ([] : jsstring), ([] : jsstring))).
  cbn [mbind completion_bind]. rewrite six_prints.
  cbn [mbind completion_bind toString]. now rewrite VERB_LIST_nil.
Qed.

Lemma evaluatePrompt_bare plo level linkLevel bloomVerbs :
  missing level -> missing linkLevel -> missing bloomVerbs ->
  evaluatePrompt (VStr plo) VUndefined VUndefined level linkLevel VUndefined
    bloomVerbs
  = Normal (evaluateTemplate [] [] [] plo [] (toUpperCase (js "I"))
              (join (js ", ") fallbackVerbs) []).
Proof.
  intros Hl Hll Hv. unfold evaluatePrompt. cbv zeta.
  rewrite (linkLevelOf_missing _ _ Hll Hl). cbn [mbind completion_bind].
  rewrite (normalized_missing _ Hv). cbn [mbind completion_bind defaultTo].
  change (courseStrings (VObj [])) with (Normal (([] : jsstring), ([] : jsstring), ([] : jsstring))).
  cbn [mbind completion_bind toString].
  now change (VERB_LIST (verbPool 150 (targetBloomLevels (toUpperCase (js "I"))) []))
    with (join (js ", ") fallbackVerbs).
Qed.
(** A verb that comes with no level prints a dash for it. *)
Lemma renderVerb_no_level it :
  level it = [] -> renderVerb it = verb it ++ js " (—)".
Proof. intros Hl. unfold renderVerb. rewrite Hl. reflexivity. Qed.

Lemma norm_no_level fields v :
  assoc (js "verb") fields = VStr v -> nonEmpty (trim v) = true ->
  missing (assoc (js "level") fields) ->
  norm (VObj fields) = Normal (Some {| verb := trim v; level := [] |}).
Proof.
  intros Hv Hne Hl. unfold norm. cbn [truthy negb field]. rewrite Hv.
  assert (orElse (VStr v) (VStr []) = VStr v) as -> by now destruct v.
  assert (orElse (assoc (js "level") fields) (VStr []) = VStr []) as ->
    by now destruct Hl as [-> | ->].
  cbn [toString mbind completion_bind]. now rewrite Hne.
Qed.

(** C4, as amended.  The prompt of [/api/suggest] and of [/api/evaluate] is a
    function of the fields of the request, and it is what the first call
    to the upstream client carries as its [input], whatever the state of
    the store and of the world.  A field that has a default never prints
    as [undefined] when it is absent.  [ploText], [cloText], [course], and
    within [course] the label, the id, the full name and the credits,
    render as the empty string; [count] renders as 6; [level] and
    [linkLevel], when both are absent or [null], render as [I] in upper
    case; [bloomVerbs], absent or [null], renders as the six default
    verbs, and a verb that comes with no level prints a dash for it; so
    the prompt of a body that has a [plo] and nothing else is the template
    filled with these.  [plo] alone has no default: when it is absent the
    prompt is the one built for the string [undefined]. *)
Theorem prompt_defaults
    (plo ploText cloText course level linkLevel bloomVerbs count : value)
    (fields : list (jsstring * value)) :
  suggestPrompt plo VUndefined course level linkLevel bloomVerbs count
  = suggestPrompt plo (VStr []) course level linkLevel bloomVerbs count
  /\ evaluatePrompt plo VUndefined cloText level linkLevel course bloomVerbs
     = evaluatePrompt plo (VStr []) cloText level linkLevel course bloomVerbs
  /\ evaluatePrompt plo ploText VUndefined level linkLevel course bloomVerbs
     = evaluatePrompt plo ploText (VStr []) level linkLevel course bloomVerbs
  /\ suggestPrompt plo ploText VUndefined level linkLevel bloomVerbs count
     = suggestPrompt plo ploText (VObj []) level linkLevel bloomVerbs count
  /\ evaluatePrompt plo ploText cloText level linkLevel VUndefined bloomVerbs
     = evaluatePrompt plo ploText cloText level linkLevel (VObj []) bloomVerbs
  /\ courseStrings (VObj []) = Normal ([], [], [])
  /\ (forall k, k ∈ [js "label"; js "id"; js "fullname"] ->
        assoc k fields = VUndefined ->
        courseStrings (VObj ((k, VStr []) :: fields)) = courseStrings (VObj fields))
  /\ (assoc (js "tong") fields = VUndefined ->
      assoc (js "credits") fields = VUndefined ->
      courseStrings (VObj ((js "tong", VStr []) :: fields))
      = courseStrings (VObj fields))
  /\ suggestPrompt VUndefined ploText course level linkLevel bloomVerbs count
     = suggestPrompt (VStr (js "undefined")) ploText course level linkLevel
         bloomVerbs count
  /\ evaluatePrompt VUndefined ploText cloText level linkLevel course bloomVerbs
     = evaluatePrompt (VStr (js "undefined")) ploText cloText level linkLevel
         course bloomVerbs
  /\ (forall req_body n modelName prompt σ,
        suggestRequest req_body = Normal (n, modelName, prompt) ->
        (let b := orElse req_body (VObj []) in
         suggestPrompt (field b (js "plo")) (field b (js "ploText"))
           (field b (js "course")) (field b (js "level"))
           (field b (js "linkLevel")) (field b (js "bloomVerbs"))
           (field b (js "count")) = Normal prompt)
        /\ exists params o retries,
             calls (suggestCall modelName prompt σ).2
             = calls σ ++ (params, o) :: retries
             /\ getVal (heap (suggestCall modelName prompt σ).2) params
                  (js "input")
                = Data (VStr prompt))
  /\ (forall req_body modelName prompt σ,
        evaluateRequest req_body = Normal (modelName, prompt) ->
        (let b := orElse req_body (VObj []) in
         evaluatePrompt (field b (js "plo")) (field b (js "ploText"))
           (field b (js "cloText")) (field b (js "level"))
           (field b (js "linkLevel")) (field b (js "course"))
           (field b (js "bloomVerbs")) = Normal prompt)
        /\ exists params o retries,
             calls (evaluateCall modelName prompt σ).2
             = calls σ ++ (params, o) :: retries
             /\ getVal (heap (evaluateCall modelName prompt σ).2) params
                  (js "input")
                = Data (VStr prompt))
  /\ suggestPrompt plo ploText course level linkLevel bloomVerbs VUndefined
     = suggestPrompt plo ploText course level linkLevel bloomVerbs
         (VNum (int 6))
  /\ (forall l ll, missing l -> missing ll ->
        suggestPrompt plo ploText course l ll bloomVerbs count
        = suggestPrompt plo ploText course VUndefined (VStr (js "I"))
            bloomVerbs count
        /\ evaluatePrompt plo ploText cloText l ll course bloomVerbs
           = evaluatePrompt plo ploText cloText VUndefined (VStr (js "I"))
               course bloomVerbs)
  /\ (forall verbs, missing verbs ->
        suggestPrompt plo ploText course level linkLevel verbs count
        = suggestPrompt plo ploText course level linkLevel (VArr []) count
        /\ evaluatePrompt plo ploText cloText level linkLevel course verbs
           = evaluatePrompt plo ploText cloText level linkLevel course
               (VArr []))
  /\ (forall p l ll verbs, missing l -> missing ll -> missing verbs ->
        suggestPrompt (VStr p) VUndefined VUndefined l ll verbs VUndefined
        = Normal (suggestTemplate (js "6") [] [] [] (toUpperCase (js "I")) p []
                    (join (js ", ") fallbackVerbs))
        /\ evaluatePrompt (VStr p) VUndefined VUndefined l ll VUndefined verbs
           = Normal (evaluateTemplate [] [] [] p [] (toUpperCase (js "I"))
                       (join (js ", ") fallbackVerbs) []))
  /\ (forall v, renderVerb (Build_verbEntry v []) = v ++ js " (—)")
  /\ (forall fs v,
        assoc (js "verb") fs = VStr v -> nonEmpty (trim v) = true ->
        missing (assoc (js "level") fs) ->
        norm (VObj fs) = Normal (Some (Build_verbEntry (trim v) []))).
Proof.
  do 6 (split; [reflexivity|]).
  split; [|split; [|split; [reflexivity|split; [reflexivity|split; [|split]]]]].
  3:{ intros * Hreq. split;
        [now apply suggestRequest_prompt in Hreq | apply suggestCall_input]. }
  3:{ intros * Hreq. split;
        [now apply evaluateRequest_prompt in Hreq | apply evaluateCall_input]. }
  3:{ split; [reflexivity|]. split; [|split; [|split; [|split]]].
      - intros l ll [-> | ->] [-> | ->]; split; reflexivity.
      - intros verbs [-> | ->]; split; reflexivity.
      - intros p l ll verbs Hl Hll Hv. split;
          [now apply suggestPrompt_bare | now apply evaluatePrompt_bare].
      - intros v. exact (renderVerb_no_level (Build_verbEntry v []) eq_refl).
      - exact norm_no_level. }
  - intros k Hk Habs.
    repeat (apply elem_of_cons in Hk as [-> | Hk]); [| | |now apply elem_of_nil in Hk].
    all: unfold courseStrings; cbn [getProp field assoc]; eval_keys;
      rewrite Habs; reflexivity.
  - intros Htong Hcredits.
    unfold courseStrings; cbn [getProp field assoc]; eval_keys.
    rewrite Htong, Hcredits. reflexivity.
Qed.
End PromptClaims.

Lemma prompt_defaults_witness :
  @courseStrings Sample.asciiHost (VObj [(js "id", VStr []); (js "tong", VNum (int 3))])
  = @courseStrings Sample.asciiHost (VObj [(js "tong", VNum (int 3))])
  /\ exists prompt,
       @suggestPrompt Sample.asciiHost (VStr (js "PLO1")) VUndefined VUndefined
         VUndefined VNull VUndefined VUndefined
       = Normal prompt
       /\ includes prompt (js "undefined") = false
       /\ includes prompt (js "null") = false.
Proof.
  destruct (@prompt_defaults Sample.asciiHost Sample.env Sample.scripted
              VNull VNull VNull VNull VNull VNull VNull VNull
              [(js "tong", VNum (int 3))])
    as (_ & _ & _ & _ & _ & _ & Hfield & _ & _ & _ & _ & _ & _ & _ & _ & Hbare
        & _).
  split.
  - apply Hfield.
    + apply (bool_decide_unpack _). vm_compute. reflexivity.
    + reflexivity.
  - eexists. split.
    + apply (Hbare (js "PLO1") VUndefined VNull VUndefined);
        [now left | now right | now left].
    + split; vm_compute; reflexivity.
Defined.

Lemma missing_plo_prints_undefined :
  match @suggestPrompt Sample.asciiHost VUndefined VUndefined VUndefined
          VUndefined VUndefined VUndefined VUndefined with
  | Normal prompt => includes prompt (js "PLO undefined: ")
  | Throw _ => false
  end = true
  /\ match @evaluatePrompt Sample.asciiHost VUndefined VUndefined VUndefined
             VUndefined VUndefined VUndefined VUndefined with
     | Normal prompt => includes prompt (js "PLO liên quan: undefined: ")
     | Throw _ => false
     end = true
  /\ @suggestPrompt Sample.asciiHost VUndefined VUndefined VUndefined
       VUndefined VUndefined VUndefined VUndefined
     <> @suggestPrompt Sample.asciiHost (VStr []) VUndefined VUndefined
          VUndefined VUndefined VUndefined VUndefined.
Proof.
  repeat split; try (vm_compute; reflexivity). vm_compute. congruence.
Qed.

(** ** The verb pool *)

Lemma join_nonEmpty sep p rest :
  nonEmpty p = true -> nonEmpty (join sep (p :: rest)) = true.
Proof. destruct p; [discriminate|]. now destruct rest. Qed.

Lemma renderVerb_nonEmpty it : nonEmpty (renderVerb it) = true.
Proof.
  unfold renderVerb. destruct (verb it); [|reflexivity].
  cbn [app]. change (js " (") with [32; 40]. reflexivity.
Qed.

Lemma byLevel_cases targets all :
  (Exists (fun x => onTarget targets x = true) all
   /\ byLevel targets all = List.filter (onTarget targets) all)
  \/ (Forall (fun x => onTarget targets x = false) all
      /\ byLevel targets all = all).
Proof.
  unfold byLevel.
  destruct (List.filter (onTarget targets) all) as [|x r] eqn:E.
  - right. split; [|reflexivity].
    apply Forall_forall. intros x Hx.
    destruct (onTarget targets x) eqn:Ex; [|reflexivity].
    assert (In x (List.filter (onTarget targets) all)) as Hin.
    { apply filter_In. split; [now apply list_elem_of_In | assumption]. }
    rewrite E in Hin. destruct Hin.
  - left. split; [|reflexivity].
    assert (In x (List.filter (onTarget targets) all)) as Hin by (rewrite E; now left).
    apply filter_In in Hin as [Hin Hx].
    apply Exists_exists. exists x. split; [now apply list_elem_of_In | assumption].
Qed.

Lemma byLevel_nil targets all : byLevel targets all = [] -> all = [].
Proof.
  unfold byLevel. now destruct (List.filter (onTarget targets) all).
Qed.

Section VerbPoolClaims.
  Context `{Host}.

Lemma uniqFrom_fresh seen pool :
  NoDup (key <$> uniqFrom seen pool)
  /\ forall it, it ∈ uniqFrom seen pool -> key it ∉ seen.
Proof.
  revert seen. induction pool as [|it r IH]; intros seen; cbn [uniqFrom].
  - split; [constructor | intros ? []%elem_of_nil].
  - fold (key it). destruct (decide (key it ∈ seen)) as [Hin|Hout]; [apply IH|].
    destruct (IH ({[key it]} ∪ seen)) as [Hnd Hfresh]. split.
    + cbn. constructor; [|assumption].
      intros (it' & Hk & Hit')%list_elem_of_fmap.
      apply Hfresh in Hit'. set_solver.
    + intros it' [-> | Hit']%elem_of_cons; [assumption|].
      apply Hfresh in Hit'. set_solver.
Qed.

Lemma uniqFrom_sublist seen pool : uniqFrom seen pool `sublist_of` pool.
Proof.
  revert seen. induction pool as [|it r IH]; intros seen; cbn [uniqFrom].
  - constructor.
  - destruct (decide _); [apply sublist_cons | apply sublist_skip]; apply IH.
Qed.

(** First occurrence wins: the entry kept for a key is the first entry of
    the pool that has the key. *)
Lemma uniqFrom_first seen pool k :
  k ∉ seen ->
  find (fun it => bool_decide (key it = k)) (uniqFrom seen pool)
  = find (fun it => bool_decide (key it = k)) pool.
Proof.
  revert seen. induction pool as [|it r IH]; intros seen Hk; [reflexivity|].
  cbn [uniqFrom find]. fold (key it).
  destruct (decide (key it ∈ seen)) as [Hin|Hout].
  - rewrite bool_decide_eq_false_2 by (intros <-; contradiction). now apply IH.
  - cbn [find]. case_bool_decide as Hit; [reflexivity|].
    apply IH. set_solver.
Qed.

Lemma uniqFrom_nil pool : uniqFrom ∅ pool = [] -> pool = [].
Proof.
  destruct pool as [|it r]; [reflexivity|]. cbn [uniqFrom].
  destruct (decide _) as [Hin|_]; [set_solver | discriminate].
Qed.

Lemma fallback_nonEmpty : nonEmpty (join (js ", ") fallbackVerbs) = true.
Proof. vm_compute. reflexivity. Qed.

(** What the pool is made of, whatever the normalised entries [all], the
    levels permitted and the bound. *)
Lemma verbPool_spec MAX_VERBS (targets : list jsstring) (all : list verbEntry) :
  let chosen := byLevel targets all in
  let pool := verbPool MAX_VERBS targets all in
  NoDup (key <$> pool)
  /\ pool `sublist_of` chosen
  /\ (forall k, find (fun it => bool_decide (key it = k)) (uniqFrom ∅ chosen)
                = find (fun it => bool_decide (key it = k)) chosen)
  /\ pool = take MAX_VERBS (uniqFrom ∅ chosen)
  /\ ((Exists (fun x => onTarget targets x = true) all
       /\ chosen = List.filter (onTarget targets) all)
      \/ (Forall (fun x => onTarget targets x = false) all /\ chosen = all))
  /\ nonEmpty (VERB_LIST pool) = true
  /\ (all = [] -> VERB_LIST pool = join (js ", ") fallbackVerbs)
  /\ (all <> [] -> (0 < MAX_VERBS)%nat ->
      pool <> [] /\ VERB_LIST pool = join (js ", ") (map renderVerb pool)).
Proof.
  cbv zeta. unfold verbPool.
  set (chosen := byLevel targets all).
  split; [|split; [|split; [|split; [|split; [|split; [|split]]]]]].
  - rewrite fmap_take.
    pose proof (proj1 (uniqFrom_fresh ∅ chosen)) as Hnd.
    eapply sublist_NoDup; eauto using sublist_take.
  - etransitivity; [apply sublist_take | apply uniqFrom_sublist].
  - intros k. apply uniqFrom_first. set_solver.
  - reflexivity.
  - apply byLevel_cases.
  - unfold VERB_LIST. cbv zeta.
    destruct (nonEmpty (join _ (map renderVerb _))) eqn:E;
      [exact E | exact fallback_nonEmpty].
  - intros ->. subst chosen. change (byLevel targets []) with (@nil verbEntry).
    cbn [uniqFrom]. now rewrite take_nil.
  - intros Hall HMAX.
    destruct (uniqFrom ∅ chosen) as [|it r] eqn:E.
    { apply uniqFrom_nil, byLevel_nil in E. contradiction. }
    destruct MAX_VERBS as [|n]; [lia|]. cbn [take]. split; [discriminate|].
    unfold VERB_LIST. cbv zeta. cbn [map].
    now rewrite join_nonEmpty by apply renderVerb_nonEmpty.
Qed.
End VerbPoolClaims.

Section VerbPoolOfRequest.
  Context `{Host} `{Env}.

Lemma normAll_nil items :
  normAll items = Normal [] <-> Forall (fun x => norm x = Normal None) items.
Proof.
  induction items as [|x r IH]; cbn [normAll].
  - split; [constructor | reflexivity].
  - split.
    + intros (o & Ho & (rest & Hrest & Hret)%bind_Normal)%bind_Normal.
      injection Hret as Hret. destruct o as [e|]; [discriminate|]. subst rest.
      constructor; [exact Ho | now apply IH].
    + intros [Hx Hr]%Forall_cons. rewrite Hx. apply IH in Hr. now rewrite Hr.
Qed.

Lemma normalized_nil bloomVerbs all :
  normalized bloomVerbs = Normal all ->
  all = [] <->
  exists items,
    orElse bloomVerbs (VArr []) = VArr items
    /\ Forall (fun x => norm x = Normal None) items.
Proof.
  unfold normalized.
  destruct (orElse bloomVerbs (VArr [])) as [| | | | |items|]; try discriminate.
  intros Hn. split.
  - intros ->. exists items. split; [reflexivity | now apply normAll_nil].
  - intros (items' & [= <-] & Hall). apply normAll_nil in Hall. congruence.
Qed.

(** What [norm] discards: a falsy element, and one that is no string and
    has no verb once trimmed. *)
Lemma norm_None x :
  norm x = Normal None
  <-> truthy x = false
      \/ ((forall s, x <> VStr s)
          /\ exists v l,
               toString (orElse (field x (js "verb")) (VStr [])) = Normal v
               /\ toString (orElse (field x (js "level")) (VStr [])) = Normal l
               /\ trim v = []).
Proof.
  unfold norm. destruct (truthy x) eqn:Et; cbn [negb]; [|now split; auto].
  assert ((v ← toString (orElse (field x (js "verb")) (VStr []));
           l ← toString (orElse (field x (js "level")) (VStr []));
           Normal (if nonEmpty (trim v)
                   then Some {| verb := trim v; level := trim l |}
                   else None)) = Normal None
          <-> exists v l,
                toString (orElse (field x (js "verb")) (VStr [])) = Normal v
                /\ toString (orElse (field x (js "level")) (VStr [])) = Normal l
                /\ trim v = []) as Hobj.
  { split.
    - intros (v & Hv & (l & Hl & Hret)%bind_Normal)%bind_Normal.
      exists v, l. repeat split; [assumption..|].
      destruct (trim v); [reflexivity | discriminate].
    - intros (v & l & -> & -> & Hv). cbn [mbind completion_bind].
      now rewrite Hv. }
  destruct x;
    try (rewrite Hobj; split;
         [intros Hex; right; split; [discriminate | exact Hex]
         | intros [[=] | [_ Hex]]; exact Hex]).
  split; [discriminate|]. intros [[=] | [Hs _]]. now destruct (Hs s).
Qed.

Lemma suggestPrompt_pieces
    plo ploText course level linkLevel bloomVerbs count prompt :
  suggestPrompt plo ploText course level linkLevel bloomVerbs count
  = Normal prompt ->
  exists ll all count' courseLabel courseFull credits plo' ploText',
    linkLevelOf linkLevel level = Normal ll
    /\ normalized (defaultTo bloomVerbs (VArr [])) = Normal all
    /\ prompt
       = suggestTemplate count' courseLabel courseFull credits ll plo' ploText'
           (VERB_LIST (verbPool 180 (targetBloomLevels ll) all)).
Proof.
  unfold suggestPrompt. cbv zeta.
  intros (ll & Hll & (all & Hall & ([[label full] credits] & _ &
           (count' & _ & (plo' & _ & (ploText' & _ & Hret)%bind_Normal)
              %bind_Normal)%bind_Normal)%bind_Normal)%bind_Normal)%bind_Normal.
  injection Hret as <-. exists ll, all, count', label, full, credits, plo', ploText'.
  auto.
Qed.

(** C6, as amended.  For every request [/api/suggest] builds a prompt
    for, with [all] what [norm] keeps of its [bloomVerbs] and the levels
    permitted for its link level: the list of verbs in the prompt is that
    of the pool made from [all]; no two entries of the pool have the same
    verb once in lower case; the pool is made of entries of the chosen
    list in their order, the entry kept for a verb being the first that
    has it, and is cut at 180; the chosen list is the entries on a
    permitted level when there is one, and every entry otherwise; the list
    in the prompt is never empty; and the six default verbs stand in it
    exactly when [norm] has kept no entry at all, which is so for
    [bloomVerbs] that is absent, falsy or empty and also for one whose
    elements are all discarded. *)
Theorem verb_pool req_body count modelName prompt :
  suggestRequest req_body = Normal (count, modelName, prompt) ->
  let b := orElse req_body (VObj []) in
  let bloomVerbs := defaultTo (field b (js "bloomVerbs")) (VArr []) in
  exists linkLevel all count' courseLabel courseFull credits plo' ploText',
    linkLevelOf (field b (js "linkLevel")) (field b (js "level"))
    = Normal linkLevel
    /\ normalized bloomVerbs = Normal all
    /\ (all = [] <->
        exists items,
          orElse bloomVerbs (VArr []) = VArr items
          /\ Forall (fun x => norm x = Normal None) items)
    /\ (forall x,
          norm x = Normal None
          <-> truthy x = false
              \/ ((forall s, x <> VStr s)
                  /\ exists v l,
                       toString (orElse (field x (js "verb")) (VStr []))
                       = Normal v
                       /\ toString (orElse (field x (js "level")) (VStr []))
                          = Normal l
                       /\ trim v = []))
    /\ let targets := targetBloomLevels linkLevel in
       let chosen := byLevel targets all in
       let pool := verbPool 180 targets all in
       prompt
       = suggestTemplate count' courseLabel courseFull credits linkLevel plo'
           ploText' (VERB_LIST pool)
       /\ NoDup (key <$> pool)
       /\ pool `sublist_of` chosen
       /\ (forall k, find (fun it => bool_decide (key it = k)) (uniqFrom ∅ chosen)
                     = find (fun it => bool_decide (key it = k)) chosen)
       /\ pool = take 180 (uniqFrom ∅ chosen)
       /\ ((Exists (fun x => onTarget targets x = true) all
            /\ chosen = List.filter (onTarget targets) all)
           \/ (Forall (fun x => onTarget targets x = false) all /\ chosen = all))
       /\ nonEmpty (VERB_LIST pool) = true
       /\ (all = [] -> VERB_LIST pool = join (js ", ") fallbackVerbs)
       /\ (all <> [] ->
           pool <> [] /\ VERB_LIST pool = join (js ", ") (map renderVerb pool)).
Proof.
  intros Hreq. apply suggestRequest_prompt in Hreq. cbv zeta in *.
  destruct (suggestPrompt_pieces _ _ _ _ _ _ _ _ Hreq)
    as (ll & all & count' & label & full & credits & plo' & ploText'
        & Hll & Hall & Hprompt).
  exists ll, all, count', label, full, credits, plo', ploText'.
  split; [exact Hll|]. split; [exact Hall|].
  split; [exact (normalized_nil _ _ Hall)|].
  split; [exact norm_None|].
  destruct (verbPool_spec 180 (targetBloomLevels ll) all)
    as (Hnd & Hsub & Hfirst & Hpool & Hcases & Hne & Hnil & Hsome).
  repeat (split; [assumption|]). intros Hall'. apply Hsome; [exact Hall' | lia].
Qed.
End VerbPoolOfRequest.

Lemma verb_pool_witness :
  exists prompt,
    @suggestRequest Sample.asciiHost Sample.env
      (VObj [(js "plo", VStr (js "PLO1")); (js "linkLevel", VStr (js "r"));
             (js "bloomVerbs",
              VArr [VObj [(js "verb", VStr (js "Describe"));
                          (js "level", VStr (js "Remember"))];
                    VObj [(js "verb", VStr (js " describe "));
                          (js "level", VStr (js "Understand"))]])])
    = Normal (VNum (int 6), VStr (js "gpt-5-mini"), prompt)
    /\ includes prompt (js "R): Describe (Remember)
") = true.
Proof.
  eassert (@suggestRequest Sample.asciiHost Sample.env
             (VObj [(js "plo", VStr (js "PLO1")); (js "linkLevel", VStr (js "r"));
                    (js "bloomVerbs",
                     VArr [VObj [(js "verb", VStr (js "Describe"));
                                 (js "level", VStr (js "Remember"))];
                           VObj [(js "verb", VStr (js " describe "));
                                 (js "level", VStr (js "Understand"))]])])
           = Normal (_, _, _)) as Hrun by (vm_compute; reflexivity).
  destruct (@verb_pool Sample.asciiHost Sample.env _ _ _ _ Hrun)
    as (ll & all & _).
  eexists. split; [exact Hrun|]. vm_compute. reflexivity.
Defined.

Lemma defaults_for_a_pool_that_is_not_empty :
  let bloomVerbs := VArr [VObj [(js "verb", VStr (js "   ")); (js "level", VStr (js "Apply"))];
                          VStr []; VNull; VObj [(js "level", VStr (js "Create"))]] in
  @normalized Sample.asciiHost bloomVerbs = Normal []
  /\ @VERB_LIST (@verbPool Sample.asciiHost 180 (targetBloomLevels (js "R")) [])
     = js "Mô tả, Giải thích, Vận dụng, Phân tích, Đánh giá, Xây dựng"
  /\ match @suggestPrompt Sample.asciiHost (VStr (js "PLO1")) VUndefined VUndefined
             VUndefined (VStr (js "R")) bloomVerbs VUndefined with
     | Normal prompt =>
         includes prompt (js "): Mô tả, Giải thích, Vận dụng, Phân tích, Đánh giá, Xây dựng")
     | Throw _ => false
     end = true.
Proof. repeat split; vm_compute; reflexivity. Qed.

(** * More of the code *)

(** ** More on the fallbacks *)

Section FallbackMore.
  Context `{Host} `{Upstream}.

(** What a retry is made on: a new object that has, for every property
    but [text] and [reasoning], what the parameters have; and the
    parameters it was copied from are an object of the store. *)
Lemma onFailure_retry e params sv sr h p2 h' sv' sr' :
  onFailure e params sv sr h = RetryWith p2 h' sv' sr' ->
  live h params
  /\ forall k, k <> js "text" -> k <> js "reasoning" ->
       getVal h' p2 k = getVal h params k.
Proof.
  unfold onFailure. cbv zeta.
  destruct (negb sv && _) eqn:E1.
  - apply andb_prop in E1 as [_ E1].
    destruct (withoutVerbosity params h) as [q hq] eqn:Ew.
    intros [= <- <- _ _].
    destruct (withoutVerbosity_spec params h q hq E1 Ew) as (_ & Hk & _).
    apply guard_live in E1 as (Hlive & _). split; [exact Hlive|]. auto.
  - destruct (negb sr && _) eqn:E2; [|discriminate].
    apply andb_prop in E2 as [_ E2].
    destruct (withoutReasoning params h) as [q hq] eqn:Ew.
    intros [= <- <- _ _].
    destruct (withoutReasoning_spec params h q hq Ew) as (_ & Hk).
    apply guard_live in E2 as (Hlive & _). split; [exact Hlive|]. auto.
Qed.

(** X1.  A run of [createResponseWithFallback] stops at the first call
    the upstream client accepts: every call before the last was rejected,
    the result is the outcome of the last, and a run of one call is made on
    the parameters as they were given, with nothing added to the store. *)
Theorem attempts_stop_at_first_success params sv sr σ :
  exists before p o,
    calls (createResponseWithFallback params sv sr σ).2
    = calls σ ++ before ++ [(p, o)]
    /\ Forall rejected before
    /\ (createResponseWithFallback params sv sr σ).1 = settle o
    /\ (before = [] ->
        p = params
        /\ heap (createResponseWithFallback params sv sr σ).2 = heap σ).
Proof.
  funelim (createResponseWithFallback params sv sr σ).
  - apply call_spec in Heq as (Hh & Hc & _).
    exists [], params, (Resolved rsp). cbn. auto.
  - destruct H1 as (before & p & o & Hc' & Hrej & Hres & _).
    apply call_spec in Heq as (Hh & Hc & _).
    exists ((params, Rejected e) :: before), p, o. cbn in Hc'.
    split; [now rewrite Hc', Hc, <- app_assoc|].
    split; [constructor; [exact I | exact Hrej]|].
    split; [exact Hres | discriminate].
  - apply call_spec in Heq as (Hh & Hc & _).
    exists [], params, (Rejected e). cbn. auto.
Qed.

Lemma createResponseWithFallback_fields params sv sr σ :
  exists log,
    calls (createResponseWithFallback params sv sr σ).2 = calls σ ++ log
    /\ forall k, k <> js "text" -> k <> js "reasoning" ->
         Forall (fun c =>
                   getVal (heap (createResponseWithFallback params sv sr σ).2) c.1 k
                   = getVal (heap σ) params k) log.
Proof.
  funelim (createResponseWithFallback params sv sr σ).
  - apply call_spec in Heq as (Hh & Hc & _).
    exists [(params, Resolved rsp)]. cbn. split; [exact Hc|].
    intros k _ _. constructor; [now rewrite Hh | constructor].
  - destruct H1 as (log & Hc' & Hall).
    destruct (createResponseWithFallback_run p2 sv' sr' (withHeap σ1 h'))
      as (_ & _ & _ & ext & _ & _ & _ & _ & Hheap & _).
    apply call_spec in Heq as (Hh & Hc & _).
    destruct (onFailure_extends _ _ _ _ _ _ _ _ _ e1) as (_ & ext1 & Hext).
    destruct (onFailure_retry _ _ _ _ _ _ _ _ _ e1) as (Hlive & Hsame).
    exists ((params, Rejected e) :: log). cbn in Hc', Hall, Hheap.
    split; [now rewrite Hc', Hc, <- app_assoc|].
    intros k Htext Hreasoning. constructor.
    + cbn [fst]. rewrite Hheap, Hext, <- app_assoc, getVal_app, Hh; auto.
    + eapply Forall_impl; [exact (Hall k Htext Hreasoning)|]. cbn. intros c ->.
      rewrite Hsame by assumption. now rewrite Hh.
  - apply call_spec in Heq as (Hh & Hc & _).
    exists [(params, Rejected e)]. cbn. split; [exact Hc|].
    intros k _ _. constructor; [now rewrite Hh | constructor].
Qed.

(** X2.  Every call of a run carries, for every property other than
    [text] and [reasoning], the value the parameters had when the run
    began: a retry changes nothing else. *)
Theorem attempts_carry_the_same_fields params sv sr σ :
  exists log,
    calls (createResponseWithFallback params sv sr σ).2 = calls σ ++ log
    /\ forall k, k <> js "text" -> k <> js "reasoning" ->
         Forall (fun c =>
                   getVal (heap (createResponseWithFallback params sv sr σ).2) c.1 k
                   = getVal (heap σ) params k) log.
Proof. apply createResponseWithFallback_fields. Qed.

Lemma guard_reads h v k1 k2 :
  truthyVal (optChain h (optChain h v k1) k2) = true ->
  optChain h v k1 = getVal h v k1.
Proof. destruct v as [[]|]; try reflexivity; discriminate. Qed.

(** With no fallback open, one call is made and that is all. *)
Lemma run_one params sv sr σ :
  negb sv && hasVerbosity (heap σ) params = false ->
  negb sr && hasEffort (heap σ) params = false ->
  exists o,
    calls (createResponseWithFallback params sv sr σ).2 = calls σ ++ [(params, o)]
    /\ (createResponseWithFallback params sv sr σ).1 = settle o
    /\ heap (createResponseWithFallback params sv sr σ).2 = heap σ.
Proof.
  intros Hv He. rewrite createResponseWithFallback_step.
  destruct (call params σ) as [o σ1] eqn:Hcall.
  apply call_spec in Hcall as (Hh & Hc & _).
  exists o. destruct o as [rsp|e]; [now cbn|].
  unfold onFailure. cbv zeta. rewrite Hh.
  fold (hasVerbosity (heap σ) params). fold (hasEffort (heap σ) params).
  rewrite Hv, He. now cbn.
Qed.

(** X3.  When no fallback is open (the verbosity one has been used or
    there is no verbosity to drop, and the same for the reasoning effort)
    one call is made on the parameters as they are, its outcome is the
    result, and the store is left as it was. *)
Theorem no_open_fallback_one_call params sv sr σ :
  (sv = true \/ hasVerbosity (heap σ) params = false) ->
  (sr = true \/ hasEffort (heap σ) params = false) ->
  exists o,
    calls (createResponseWithFallback params sv sr σ).2 = calls σ ++ [(params, o)]
    /\ (createResponseWithFallback params sv sr σ).1 = settle o
    /\ heap (createResponseWithFallback params sv sr σ).2 = heap σ.
Proof.
  intros Hv He. apply run_one.
  - destruct Hv as [-> | ->]; [reflexivity | apply andb_false_r].
  - destruct He as [-> | ->]; [reflexivity | apply andb_false_r].
Qed.

(** With the reasoning fallback alone open: a second call when the first
    is rejected, and no third. *)
Lemma run_two params sv σ :
  negb sv && hasVerbosity (heap σ) params = false ->
  hasEffort (heap σ) params = true ->
  exists log,
    calls (createResponseWithFallback params sv false σ).2 = calls σ ++ log
    /\ (length log <= 2)%nat
    /\ (forall e, (createResponseWithFallback params sv false σ).1 = Throw e ->
                  length log = 2%nat).
Proof.
  intros Hv He. rewrite createResponseWithFallback_step.
  destruct (call params σ) as [o σ1] eqn:Hcall.
  apply call_spec in Hcall as (Hh & Hc & _).
  destruct o as [rsp|e].
  { exists [(params, Resolved rsp)]. cbn. repeat split; auto. discriminate. }
  unfold onFailure. cbv zeta. rewrite Hh.
  fold (hasVerbosity (heap σ) params). fold (hasEffort (heap σ) params).
  rewrite Hv, He. cbn [negb andb].
  destruct (withoutReasoning params (heap σ)) as [p2 h'] eqn:Ew.
  destruct (run_one p2 true true (withHeap σ1 h') eq_refl eq_refl)
    as (o & Hc' & Hres & _).
  exists [(params, Rejected e); (p2, o)]. cbn in Hc'.
  rewrite Hc', Hc, <- app_assoc. repeat split; auto.
Qed.

(** With both open: a third call when the first two are rejected, and no
    fourth. *)
Lemma run_three params σ :
  hasVerbosity (heap σ) params = true ->
  hasEffort (heap σ) params = true ->
  exists log,
    calls (createResponseWithFallback params false false σ).2 = calls σ ++ log
    /\ (length log <= 3)%nat
    /\ (forall e, (createResponseWithFallback params false false σ).1 = Throw e ->
                  length log = 3%nat).
Proof.
  intros Hv He. rewrite createResponseWithFallback_step.
  destruct (call params σ) as [o σ1] eqn:Hcall.
  apply call_spec in Hcall as (Hh & Hc & _).
  destruct o as [rsp|e].
  { exists [(params, Resolved rsp)]. cbn. repeat split; auto. discriminate. }
  unfold onFailure. cbv zeta. rewrite Hh.
  fold (hasVerbosity (heap σ) params). rewrite Hv. cbn [negb andb].
  destruct (withoutVerbosity params (heap σ)) as [p2 h'] eqn:Ew.
  destruct (withoutVerbosity_spec _ _ _ _ Hv Ew) as (Hgone & Hk & _).
  assert (exists ext, p2 = Ref (length (heap σ)) /\ h' = heap σ ++ ext)
    as (ext & -> & ->).
  { rewrite withoutVerbosity_eq in Ew. injection Ew as <- <-. eauto. }
  assert (hasVerbosity (heap σ ++ ext) (Ref (length (heap σ))) = false) as Hv2.
  { unfold hasVerbosity. now rewrite Hgone. }
  assert (hasEffort (heap σ ++ ext) (Ref (length (heap σ))) = true) as He2.
  { unfold hasEffort in *.
    pose proof (guard_reads _ _ _ _ He) as Hread.
    pose proof (guard_live _ _ _ _ He) as (_ & Hlive & _).
    change (optChain ?a (Ref ?l) ?k) with (getVal a (Ref l) k).
    rewrite Hk by names_differ. rewrite Hread in He.
    destruct (getVal (heap σ) params (js "reasoning")) as [d|l]; [exact He|].
    change (optChain ?a (Ref ?l) ?k) with (getVal a (Ref l) k) in *.
    now rewrite getVal_app. }
  destruct (run_two (Ref (length (heap σ))) true (withHeap σ1 (heap σ ++ ext))
              eq_refl He2) as (log & Hc' & Hlen & Hthrow).
  exists ((params, Rejected e) :: log). cbn in Hc'.
  rewrite Hc', Hc, <- app_assoc. cbn [length]. repeat split; auto; [lia|].
  intros e' He'. now rewrite (Hthrow e' He').
Qed.
End FallbackMore.

Lemma no_open_fallback_one_call_witness :
  exists o,
    calls (@createResponseWithFallback Sample.asciiHost Sample.scripted
             (Ref 0) true true (SampleStore.ready [Sample.refused "a"])).2
    = [(Ref 0, o)]
    /\ (@createResponseWithFallback Sample.asciiHost Sample.scripted
          (Ref 0) true true (SampleStore.ready [Sample.refused "a"])).1
       = settle o.
Proof.
  destruct (@no_open_fallback_one_call Sample.asciiHost Sample.scripted
              (Ref 0) true true (SampleStore.ready [Sample.refused "a"])
              (or_introl eq_refl) (or_introl eq_refl))
    as (o & Hcalls & Hres & _).
  exists o. split; [exact Hcalls | exact Hres].
Defined.

Lemma readObj_at (h ext : list object) (i : nat) (o : object) :
  ext !! i = Some o -> readObj (h ++ ext) (length h + i) = o.
Proof. intros Hi. now rewrite readObj_ext, Hi. Qed.

Section HandlerCalls.
  Context `{Host} `{Env} `{Upstream}.

Lemma hintedParams_guards modelName prompt verbosity effort tokens temperature h :
  nonEmpty verbosity = true -> nonEmpty effort = true ->
  hasVerbosity
    (hintedParams modelName prompt verbosity effort tokens temperature h).2
    (hintedParams modelName prompt verbosity effort tokens temperature h).1 = true
  /\ hasEffort
       (hintedParams modelName prompt verbosity effort tokens temperature h).2
       (hintedParams modelName prompt verbosity effort tokens temperature h).1 = true.
Proof.
  intros Hv He. unfold hintedParams, hasVerbosity, hasEffort. cbn [fst snd].
  set (P := <[js "model":=_]> _). set (T := {[js "verbosity" := _]}).
  set (R := {[js "effort" := _]}).
  pose proof (readObj_at h [P; T; R] 0 P eq_refl) as R0.
  pose proof (readObj_at h [P; T; R] 1 T eq_refl) as R1.
  pose proof (readObj_at h [P; T; R] 2 R eq_refl) as R2.
  rewrite Nat.add_0_r in R0.
  cbn [optChain getVal]. rewrite R0.
  assert (P !! js "text" = Some (Ref (length h + 1))) as ->.
  { unfold P. do 2 (rewrite lookup_insert_ne by names_differ).
    apply lookup_insert_eq. }
  assert (P !! js "reasoning" = Some (Ref (length h + 2))) as ->.
  { unfold P. do 3 (rewrite lookup_insert_ne by names_differ).
    apply lookup_insert_eq. }
  cbn [default from_option id optChain getVal]. rewrite R1, R2. unfold T, R.
  rewrite !lookup_singleton_eq. cbn. auto.
Qed.

Lemma rawParams_guards modelName prompt max_tokens h :
  hasVerbosity (rawParams modelName prompt max_tokens h).2
    (rawParams modelName prompt max_tokens h).1 = true
  /\ hasEffort (rawParams modelName prompt max_tokens h).2
       (rawParams modelName prompt max_tokens h).1 = false
  /\ getVal (rawParams modelName prompt max_tokens h).2
       (rawParams modelName prompt max_tokens h).1 (js "reasoning")
     = Data VUndefined.
Proof.
  unfold rawParams, hasVerbosity, hasEffort. cbn [fst snd].
  set (P := <[js "model":=_]> _). set (T := {[js "verbosity" := _]}).
  pose proof (readObj_at h [P; T] 0 P eq_refl) as R0.
  pose proof (readObj_at h [P; T] 1 T eq_refl) as R1.
  rewrite Nat.add_0_r in R0.
  cbn [optChain getVal]. rewrite R0.
  assert (P !! js "text" = Some (Ref (length h + 1))) as ->.
  { unfold P. do 2 (rewrite lookup_insert_ne by names_differ).
    apply lookup_insert_eq. }
  assert (P !! js "reasoning" = None) as ->.
  { unfold P. do 4 (rewrite lookup_insert_ne by names_differ).
    apply lookup_empty. }
  cbn [default from_option id optChain getVal]. rewrite R1. unfold T. rewrite lookup_singleton_eq. cbn. auto.
Qed.

(** With the verbosity fallback alone open: a second call when the first
    is rejected, and no third. *)
Lemma run_two_verbosity params σ :
  hasVerbosity (heap σ) params = true ->
  getVal (heap σ) params (js "reasoning") = Data VUndefined ->
  exists log,
    calls (createResponseWithFallback params false false σ).2 = calls σ ++ log
    /\ (length log <= 2)%nat
    /\ (forall e, (createResponseWithFallback params false false σ).1 = Throw e ->
                  length log = 2%nat).
Proof.
  intros Hv Hr. rewrite createResponseWithFallback_step.
  destruct (call params σ) as [o σ1] eqn:Hcall.
  apply call_spec in Hcall as (Hh & Hc & _).
  destruct o as [rsp|e].
  { exists [(params, Resolved rsp)]. cbn. repeat split; auto. discriminate. }
  unfold onFailure. cbv zeta. rewrite Hh.
  fold (hasVerbosity (heap σ) params). rewrite Hv. cbn [negb andb].
  destruct (withoutVerbosity params (heap σ)) as [p2 h'] eqn:Ew.
  destruct (withoutVerbosity_spec _ _ _ _ Hv Ew) as (Hgone & Hk & _).
  assert (exists l, p2 = Ref l) as (l & ->).
  { rewrite withoutVerbosity_eq in Ew. injection Ew as <- _. eauto. }
  assert (hasEffort h' (Ref l) = false) as He2.
  { unfold hasEffort. cbn [optChain].
    rewrite Hk by names_differ. now rewrite Hr. }
  destruct (run_one (Ref l) true false (withHeap σ1 h') eq_refl He2)
    as (o & Hc' & Hres & _).
  exists [(params, Rejected e); (Ref l, o)]. cbn in Hc'.
  rewrite Hc', Hc, <- app_assoc. repeat split; auto.
Qed.

(** X4.  [/api/suggest] and [/api/evaluate] call the upstream client at
    most three times for a request and [/api/raw] at most twice; and a
    request that ends in failure has cost exactly three calls, or two,
    whatever the error was. *)
Theorem handlers_attempts :
  (forall modelName prompt σ,
      exists log,
        calls (suggestCall modelName prompt σ).2 = calls σ ++ log
        /\ (length log <= 3)%nat
        /\ (forall e, (suggestCall modelName prompt σ).1 = Throw e ->
                      length log = 3%nat))
  /\ (forall modelName prompt σ,
        exists log,
          calls (evaluateCall modelName prompt σ).2 = calls σ ++ log
          /\ (length log <= 3)%nat
          /\ (forall e, (evaluateCall modelName prompt σ).1 = Throw e ->
                        length log = 3%nat))
  /\ (forall req_body σ,
        exists log,
          calls (rawCall req_body σ).2 = calls σ ++ log
          /\ (length log <= 2)%nat
          /\ (forall e, (rawCall req_body σ).1 = Throw e -> length log = 2%nat)).
Proof.
  split; [|split].
  - intros modelName prompt σ. unfold suggestCall.
    pose proof (hintedParams_guards modelName prompt (js "low") (js "minimal")
                  900 (4 # 10) (heap σ) eq_refl eq_refl) as [Hv He].
    destruct (hintedParams _ _ _ _ _ _ _) as [params h'].
    exact (run_three params (withHeap σ h') Hv He).
  - intros modelName prompt σ. unfold evaluateCall.
    pose proof (hintedParams_guards modelName prompt (js "medium") (js "medium")
                  600 (2 # 10) (heap σ) eq_refl eq_refl) as [Hv He].
    destruct (hintedParams _ _ _ _ _ _ _) as [params h'].
    exact (run_three params (withHeap σ h') Hv He).
  - intros req_body σ. unfold rawCall. cbv zeta.
    match goal with
    | |- context [rawParams ?m ?p ?t ?h] =>
        pose proof (rawParams_guards m p t h) as (Hv & _ & Hr);
        destruct (rawParams m p t h) as [params h']
    end.
    exact (run_two_verbosity params (withHeap σ h') Hv Hr).
Qed.
End HandlerCalls.

Section HandlerFields.
  Context `{Host} `{Env} `{Upstream}.

Lemma hintedParams_fields modelName prompt verbosity effort tokens temperature h :
  live (hintedParams modelName prompt verbosity effort tokens temperature h).2
       (hintedParams modelName prompt verbosity effort tokens temperature h).1
  /\ forall k,
      getVal (hintedParams modelName prompt verbosity effort tokens temperature h).2
             (hintedParams modelName prompt verbosity effort tokens temperature h).1 k
      = default (Data VUndefined)
          ((<[js "model" := Data modelName]>
            (<[js "input" := Data (VStr prompt)]>
            (<[js "text" := Ref (length h + 1)]>
            (<[js "reasoning" := Ref (length h + 2)]>
            (<[js "max_output_tokens" := Data (VNum (int tokens))]>
            (<[js "temperature" := Data (VNum (Fin temperature))]> ∅))))) : object)
           !! k).
Proof.
  unfold hintedParams. cbn [fst snd]. split.
  - cbn. rewrite length_app. cbn. lia.
  - intros k. cbn [getVal].
    match goal with
    | |- context [readObj (h ++ ?ext) (length h)] =>
        pose proof (readObj_at h ext 0 _ eq_refl) as R
    end.
    rewrite Nat.add_0_r in R. now rewrite R.
Qed.

Lemma rawParams_fields modelName prompt max_tokens h :
  live (rawParams modelName prompt max_tokens h).2
       (rawParams modelName prompt max_tokens h).1
  /\ forall k,
      getVal (rawParams modelName prompt max_tokens h).2
             (rawParams modelName prompt max_tokens h).1 k
      = default (Data VUndefined)
          ((<[js "model" := Data modelName]>
            (<[js "input" := Data prompt]>
            (<[js "text" := Ref (length h + 1)]>
            (<[js "max_output_tokens" := Data max_tokens]> ∅))) : object) !! k).
Proof.
  unfold rawParams. cbn [fst snd]. split.
  - cbn. rewrite length_app. cbn. lia.
  - intros k. cbn [getVal].
    match goal with
    | |- context [readObj (h ++ ?ext) (length h)] =>
        pose proof (readObj_at h ext 0 _ eq_refl) as R
    end.
    rewrite Nat.add_0_r in R. now rewrite R.
Qed.

(** X5.  Every call made for a request, retries included, carries the
    model and the prompt of the request and the handler's own limits: 900
    tokens at temperature 0.4 for [/api/suggest], 600 at 0.2 for
    [/api/evaluate], and for [/api/raw] the [prompt] and [max_tokens] of
    the body as they are (the empty string and 600 when absent) and no
    temperature. *)
Theorem every_attempt_carries_the_request :
  (forall modelName prompt σ,
      exists log,
        calls (suggestCall modelName prompt σ).2 = calls σ ++ log
        /\ Forall (carries (heap (suggestCall modelName prompt σ).2)
                     modelName (VStr prompt) (VNum (int 900)) (VNum (Fin (4 # 10))))
             log)
  /\ (forall modelName prompt σ,
        exists log,
          calls (evaluateCall modelName prompt σ).2 = calls σ ++ log
          /\ Forall (carries (heap (evaluateCall modelName prompt σ).2)
                       modelName (VStr prompt) (VNum (int 600))
                       (VNum (Fin (2 # 10))))
               log)
  /\ (forall req_body σ,
        exists log,
          calls (rawCall req_body σ).2 = calls σ ++ log
          /\ Forall (carries (heap (rawCall req_body σ).2)
                       (rawModel req_body)
                       (defaultTo (field (orElse req_body (VObj [])) (js "prompt"))
                          (VStr []))
                       (defaultTo
                          (field (orElse req_body (VObj [])) (js "max_tokens"))
                          (VNum (int 600)))
                       VUndefined)
               log).
Proof.
  split; [|split].
  - intros modelName prompt σ. unfold suggestCall.
    pose proof (hintedParams_fields modelName prompt (js "low") (js "minimal")
                  900 (4 # 10) (heap σ)) as [Hlive Hf].
    destruct (hintedParams _ _ _ _ _ _ _) as [params h']. cbn [fst snd] in *.
    destruct (createResponseWithFallback_fields params false false (withHeap σ h'))
      as (log & Hc & Hall).
    exists log. split; [exact Hc|].
    pose proof (Hall (js "model") ltac:(names_differ) ltac:(names_differ)) as A1.
    pose proof (Hall (js "input") ltac:(names_differ) ltac:(names_differ)) as A2.
    pose proof (Hall (js "max_output_tokens") ltac:(names_differ)
                  ltac:(names_differ)) as A3.
    pose proof (Hall (js "temperature") ltac:(names_differ)
                  ltac:(names_differ)) as A4.
    rewrite Forall_forall in *. intros c Hin. unfold carries.
    rewrite (A1 c Hin), (A2 c Hin), (A3 c Hin), (A4 c Hin).
    cbn [heap withHeap]. rewrite !Hf. repeat split; read_field.
  - intros modelName prompt σ. unfold evaluateCall.
    pose proof (hintedParams_fields modelName prompt (js "medium") (js "medium")
                  600 (2 # 10) (heap σ)) as [Hlive Hf].
    destruct (hintedParams _ _ _ _ _ _ _) as [params h']. cbn [fst snd] in *.
    destruct (createResponseWithFallback_fields params false false (withHeap σ h'))
      as (log & Hc & Hall).
    exists log. split; [exact Hc|].
    pose proof (Hall (js "model") ltac:(names_differ) ltac:(names_differ)) as A1.
    pose proof (Hall (js "input") ltac:(names_differ) ltac:(names_differ)) as A2.
    pose proof (Hall (js "max_output_tokens") ltac:(names_differ)
                  ltac:(names_differ)) as A3.
    pose proof (Hall (js "temperature") ltac:(names_differ)
                  ltac:(names_differ)) as A4.
    rewrite Forall_forall in *. intros c Hin. unfold carries.
    rewrite (A1 c Hin), (A2 c Hin), (A3 c Hin), (A4 c Hin).
    cbn [heap withHeap]. rewrite !Hf. repeat split; read_field.
  - intros req_body σ. unfold rawCall. cbv zeta.
    match goal with
    | |- context [rawParams ?m ?p ?t ?h] =>
        pose proof (rawParams_fields m p t h) as [Hlive Hf];
        destruct (rawParams m p t h) as [params h']
    end.
    cbn [fst snd] in *.
    destruct (createResponseWithFallback_fields params false false (withHeap σ h'))
      as (log & Hc & Hall).
    exists log. split; [exact Hc|].
    pose proof (Hall (js "model") ltac:(names_differ) ltac:(names_differ)) as A1.
    pose proof (Hall (js "input") ltac:(names_differ) ltac:(names_differ)) as A2.
    pose proof (Hall (js "max_output_tokens") ltac:(names_differ)
                  ltac:(names_differ)) as A3.
    pose proof (Hall (js "temperature") ltac:(names_differ)
                  ltac:(names_differ)) as A4.
    rewrite Forall_forall in *. intros c Hin. unfold carries.
    rewrite (A1 c Hin), (A2 c Hin), (A3 c Hin), (A4 c Hin).
    cbn [heap withHeap]. rewrite !Hf. repeat split; read_field.
Qed.
End HandlerFields.

(** ** Trimmed strings *)

Lemma skip_tight s : tight (skip isWhiteSpace s).
Proof.
  induction s as [|c s IH]; cbn; [exact I|].
  destruct (isWhiteSpace c) eqn:E; [exact IH | exact E].
Qed.

Lemma tight_skip s : tight s -> skip isWhiteSpace s = s.
Proof. destruct s as [|c s]; cbn; [reflexivity | now intros ->]. Qed.

Lemma tight_prefix a b : tight (a ++ b) -> a <> [] -> tight a.
Proof. destruct a; [congruence | auto]. Qed.

Lemma skip_all p s : forallb p s = true -> skip p s = [].
Proof.
  induction s as [|c s IH]; cbn; [reflexivity|].
  intros [-> Hs]%andb_prop. auto.
Qed.

Lemma trim_tight s : tight (trim s) /\ tight (rev (trim s)).
Proof.
  unfold trim. rewrite rev_involutive. split; [|apply skip_tight].
  destruct (skip_prefix isWhiteSpace (rev (skip isWhiteSpace s)))
    as (pre & Hs & _).
  destruct (skip isWhiteSpace (rev (skip isWhiteSpace s))) as [|c r] eqn:E;
    [exact I|].
  apply (f_equal (@rev N)) in Hs. rewrite rev_involutive, rev_app_distr in Hs.
  apply (tight_prefix _ (rev pre)).
  - rewrite <- Hs. apply skip_tight.
  - cbn. now destruct (rev r).
Qed.

Lemma tight_trim s : tight s -> tight (rev s) -> trim s = s.
Proof.
  intros Hs Hr. unfold trim.
  now rewrite (tight_skip s Hs), (tight_skip _ Hr), rev_involutive.
Qed.

Lemma trim_idem s : trim (trim s) = trim s.
Proof. apply tight_trim; apply trim_tight. Qed.

Lemma trim_blank s : forallb isWhiteSpace s = true -> trim s = [].
Proof. intros Hs. unfold trim. now rewrite (skip_all _ _ Hs). Qed.

Lemma elem_of_rev (c : N) s : c ∈ rev s <-> c ∈ s.
Proof. rewrite !list_elem_of_In. symmetry. apply in_rev. Qed.

Lemma skip_suffix p s : skip p s `suffix_of` s.
Proof. destruct (skip_prefix p s) as (pre & Hs & _). now exists pre. Qed.

Lemma trim_sub s c : c ∈ trim s -> c ∈ s.
Proof.
  unfold trim. rewrite elem_of_rev. intros Hc.
  pose proof (elem_of_suffix _ _ _ Hc
                (skip_suffix isWhiteSpace (rev (skip isWhiteSpace s)))) as Hc'.
  rewrite elem_of_rev in Hc'.
  exact (elem_of_suffix _ _ _ Hc' (skip_suffix isWhiteSpace s)).
Qed.

Lemma suffix_tight_rev (item t : jsstring) :
  item `suffix_of` t -> tight (rev t) -> tight (rev item).
Proof.
  intros [k ->] Ht. rewrite rev_app_distr in Ht.
  destruct (rev item) as [|c r] eqn:E; [exact I | exact Ht].
Qed.

(** ** What the markers leave *)

Lemma numbered_suffix s :
  Re.remove numberedRe s `suffix_of` s
  /\ (tight s -> tight (Re.remove numberedRe s)).
Proof.
  destruct (decide (Re.remove numberedRe s = s)) as [->|Hne];
    [split; [reflexivity | auto]|].
  destruct (numbered_only s Hne) as (d & ds & c & rest & -> & Hds & Hc).
  rewrite (numbered_strip d ds c rest Hds Hc). split.
  - transitivity rest; [apply skip_suffix|].
    exists (d :: ds ++ [c]). cbn. now rewrite <- app_assoc.
  - intros _. apply skip_tight.
Qed.

Lemma bullet_suffix s :
  Re.remove bulletRe s `suffix_of` s
  /\ (tight s -> tight (Re.remove bulletRe s)).
Proof.
  destruct (decide (Re.remove bulletRe s = s)) as [->|Hne];
    [split; [reflexivity | auto]|].
  destruct (bullet_only s Hne) as (c & rest & -> & Hc).
  rewrite (bullet_strip c rest Hc). split.
  - transitivity rest; [apply skip_suffix | now exists [c]].
  - intros _. apply skip_tight.
Qed.

Lemma stripMarkers_suffix s :
  stripMarkers s `suffix_of` s /\ (tight s -> tight (stripMarkers s)).
Proof.
  unfold stripMarkers.
  destruct (numbered_suffix s) as [S1 T1].
  destruct (bullet_suffix (Re.remove numberedRe s)) as [S2 T2]. split.
  - now transitivity (Re.remove numberedRe s).
  - auto.
Qed.

(** ** The lines of a text *)

Lemma splitFrom_units n : forall s cur l c,
  (length s <= n)%nat -> l ∈ splitFrom cur s -> c ∈ l ->
  c ∈ cur \/ (c ∈ s /\ c <> LF).
Proof.
  induction n as [|n IH]; intros s cur l c Hn Hl Hc.
  - destruct s; [|cbn in Hn; lia]. cbn in Hl.
    apply list_elem_of_singleton in Hl as ->.
    left. now apply elem_of_rev.
  - destruct s as [|x s].
    { cbn in Hl. apply list_elem_of_singleton in Hl as ->.
      left. now apply elem_of_rev. }
    cbn in Hn. cbn [splitFrom] in Hl.
    assert (forall cur', (forall y, y ∈ cur' -> y ∈ cur \/ (y = x /\ x <> LF)) ->
                         l ∈ splitFrom cur' s ->
                         c ∈ cur \/ (c ∈ x :: s /\ c <> LF)) as Hgo.
    { intros cur' Hcur' Hl'.
      destruct (IH s cur' l c ltac:(lia) Hl' Hc) as [Hin | [Hin Hne]].
      - destruct (Hcur' c Hin) as [? | [-> ?]]; [now left|].
        right. split; [left | assumption].
      - right. split; [now right | assumption]. }
    assert (forall s', (length s' <= n)%nat -> (forall y, y ∈ s' -> y ∈ s) ->
                       l ∈ rev cur :: splitFrom [] s' ->
                       c ∈ cur \/ (c ∈ x :: s /\ c <> LF)) as Hcut.
    { intros s' Hn' Hsub [-> | Hl']%elem_of_cons.
      - left. now apply elem_of_rev.
      - destruct (IH s' [] l c Hn' Hl' Hc) as [[]%elem_of_nil | [Hin Hne]].
        right. split; [right; auto | assumption]. }
    destruct (x =? LF) eqn:ELF.
    { apply (Hcut s); [lia | auto | exact Hl]. }
    apply N.eqb_neq in ELF.
    assert (forall y, y ∈ x :: cur -> y ∈ cur \/ (y = x /\ x <> LF)) as Hpush.
    { intros y [-> | Hy]%elem_of_cons; [now right | now left]. }
    destruct (x =? CR); [|exact (Hgo _ Hpush Hl)].
    destruct s as [|x' s']; [exact (Hgo _ Hpush Hl)|].
    destruct (x' =? LF); [|exact (Hgo _ Hpush Hl)].
    apply (Hcut s'); [cbn in Hn; lia | intros y Hy; now right | exact Hl].
Qed.

Lemma splitLines_units s l c :
  l ∈ splitLines s -> c ∈ l -> c ∈ s /\ c <> LF.
Proof.
  intros Hl Hc.
  destruct (splitFrom_units (length s) s [] l c (le_n _) Hl Hc)
    as [[]%elem_of_nil | ?]; assumption.
Qed.

Lemma linesOfString_items s item :
  item ∈ linesOfString s ->
  exists l, l ∈ splitLines s /\ trim l <> []
            /\ item = stripMarkers (trim l).
Proof.
  rewrite linesOfString_flat_map. intros Hin.
  apply list_elem_of_In, in_flat_map in Hin as (l & Hl & Hitem).
  apply list_elem_of_In in Hl. unfold perLine in Hitem.
  destruct (keepLine (trim l)) eqn:E; [|destruct Hitem].
  destruct Hitem as [<- | []]. exists l. repeat split; [assumption|].
  intros Heq. now rewrite Heq in E.
Qed.

(** X6.  Every item is what is left of a line: it ends a trimmed line of the
    text, holds no line feed and has no white space at either end. *)
Theorem items_are_clean s :
  Forall (fun item =>
            trim item = item /\ (LF ∉ item)
            /\ exists l, l ∈ splitLines s /\ item `suffix_of` trim l)
    (linesOfString s).
Proof.
  apply Forall_forall. intros item Hin.
  destruct (linesOfString_items s item Hin) as (l & Hl & _ & ->).
  destruct (stripMarkers_suffix (trim l)) as [Hsuf Htight].
  destruct (trim_tight l) as [Th Tr]. split; [|split].
  - apply tight_trim; [auto | exact (suffix_tight_rev _ _ Hsuf Tr)].
  - intros Hc. apply (elem_of_suffix _ _ _ Hc) in Hsuf. apply trim_sub in Hsuf.
    now destruct (splitLines_units s l LF Hl Hsuf).
  - eauto.
Qed.

(** X7.  A text of white space alone has no items. *)
Theorem blank_text_has_no_items s :
  forallb isWhiteSpace s = true -> linesOfString s = [].
Proof.
  intros Hs. destruct (linesOfString s) as [|item r] eqn:E; [reflexivity|].
  destruct (linesOfString_items s item) as (l & Hl & Hne & _);
    [rewrite E; left|].
  exfalso. apply Hne, trim_blank, forallb_forall. intros c Hc.
  apply list_elem_of_In in Hc.
  destruct (splitLines_units s l c Hl Hc) as [Hin _].
  rewrite forallb_forall in Hs. apply Hs. now apply list_elem_of_In.
Qed.

Lemma blank_text_has_no_items_witness :
  linesOfString (js " 
	  
 ") = [].
Proof. apply blank_text_has_no_items. vm_compute. reflexivity. Defined.

(** ** The form of the items *)

Lemma digit_not_space c : isDigit c = true -> isWhiteSpace c = false.
Proof.
  unfold isDigit, isWhiteSpace. intros [H1 H2]%andb_prop.
  apply N.leb_le in H1, H2.
  repeat match goal with
         | |- context [c =? ?b] =>
             replace (c =? b) with false by (symmetry; apply N.eqb_neq; lia)
         end.
  replace (8192 <=? c) with false by (symmetry; apply N.leb_gt; lia).
  reflexivity.
Qed.

Lemma digitsFrom_digits fuel : forall n acc,
  exists ds, digitsFrom fuel n acc = ds ++ acc
             /\ forallb isDigit ds = true
             /\ (fuel <> O -> ds <> []).
Proof.
  induction fuel as [|fuel IH]; intros n acc.
  - exists []. now repeat split.
  - cbn [digitsFrom].
    assert (isDigit (48 + n mod 10) = true) as Hd.
    { unfold isDigit. assert (n mod 10 < 10) as Hr by (apply N.mod_lt; lia).
      revert Hr. generalize (n mod 10). intros r Hr.
      apply andb_true_intro. split; apply N.leb_le; lia. }
    destruct (n / 10 =? 0).
    + exists [48 + n mod 10]. cbn. rewrite Hd. now repeat split.
    + destruct (IH (n / 10) ((48 + n mod 10) :: acc)) as (ds & -> & Hds & _).
      exists (ds ++ [48 + n mod 10]). rewrite <- app_assoc. split; [reflexivity|].
      split; [|intros _; now destruct ds].
      rewrite forallb_app, Hds. cbn. now rewrite Hd.
Qed.

Lemma lit_app w r : Re.lit w (w ++ r) = Some r.
Proof.
  induction w as [|x w IH]; cbn; [reflexivity|]. now rewrite N.eqb_refl.
Qed.

Lemma borrowed_isCLO k line : isCLO (borrowed k line) = true.
Proof.
  unfold borrowed, decimal.
  destruct (digitsFrom_digits (S (N.to_nat (N.log2 (N.of_nat k)))) (N.of_nat k) [])
    as (ds & -> & Hds & Hne).
  rewrite app_nil_r. destruct ds as [|d ds]; [now destruct Hne|].
  cbn [forallb] in Hds. apply andb_prop in Hds as [Hd Hds].
  unfold isCLO, Re.test, cloRe, Re.seq, Re.star, Re.plus, Re.cls.
  rewrite lit_app. change (js ": ") with [58; 32].
  cbn [app skip]. rewrite (digit_not_space d Hd), Hd.
  rewrite (skip_run isDigit ds 58 (32 :: line) Hds eq_refl).
  cbn [skip]. change (isWhiteSpace 58) with false. cbv iota.
  now rewrite N.eqb_refl.
Qed.

Lemma padItems_isCLO raw count : forall fuel items items',
  Forall (fun it => isCLO it = true) items ->
  padItems fuel raw count items = Some items' ->
  Forall (fun it => isCLO it = true) items'.
Proof.
  induction fuel as [|fuel IH]; intros items items' Hall; cbn [padItems];
    [discriminate|].
  destruct (lengthBelow _ _); [|now intros [= <-]].
  destruct (List.filter _ _) as [|first r]; [now intros [= <-]|].
  apply IH. apply Forall_app. split; [exact Hall|].
  constructor; [apply borrowed_isCLO | constructor].
Qed.

Lemma sliceTo_take {A} (l : list A) n : exists k, sliceTo l n = take k l.
Proof.
  destruct n as [|[]|q]; cbn [sliceTo].
  - now exists O.
  - now exists O.
  - exists (length l). now rewrite firstn_all.
  - destruct (_ <? _)%Z; eauto.
Qed.

Lemma sliceTo_Forall {A} (P : A -> Prop) l n :
  Forall P l -> Forall P (sliceTo l n).
Proof.
  intros Hl. destruct (sliceTo_take l n) as [k ->]. now apply Forall_take.
Qed.

Lemma filter_isCLO l : Forall (fun it => isCLO it = true) (List.filter isCLO l).
Proof.
  apply List.Forall_forall. intros it Hin. now apply filter_In in Hin.
Qed.

(** X8.  Every item [/api/suggest] answers with begins as [CLOx:] does, the
    lines it adds by itself included. *)
Theorem every_item_is_numbered fuel raw count items :
  suggestItems fuel raw count = Some items ->
  Forall (fun it => isCLO it = true) items.
Proof.
  unfold suggestItems. cbv zeta.
  destruct (padItems _ _ _ _) as [padded|] eqn:E; [|discriminate].
  intros [= <-]. apply sliceTo_Forall.
  apply (padItems_isCLO raw count fuel _ _ (sliceTo_Forall _ _ _
           (filter_isCLO (linesOfString raw))) E).
Qed.

Lemma every_item_is_numbered_witness :
  Forall (fun it => isCLO it = true)
    [js "CLO1: Describe X"; js "CLO2: Explain Y"; js "CLO3: Explain Y"].
Proof.
  apply (every_item_is_numbered 4 (js "1. CLO1: Describe X
- Explain Y") (int 3)).
  vm_compute. reflexivity.
Defined.

(** X9.  A count below one.  NaN, zero and minus infinity give no item; a
    negative integer [n] cuts the matching lines twice from the end, the
    list being sliced by it before the loop and after. *)
Theorem count_below_one fuel raw :
  suggestItems (S fuel) raw NaN = Some []
  /\ suggestItems (S fuel) raw (Inf true) = Some []
  /\ suggestItems (S fuel) raw (int 0) = Some []
  /\ forall n, (n < 0)%Z ->
       suggestItems (S fuel) raw (int n)
       = Some (let matched := List.filter isCLO (linesOfString raw) in
               take (Z.to_nat (Z.of_nat (length matched) + 2 * n)) matched).
Proof.
  split; [reflexivity|]. split; [reflexivity|]. split.
  - unfold suggestItems. cbv zeta.
    rewrite (sliceTo_int (List.filter isCLO (linesOfString raw)) 0) by lia.
    cbn [Z.to_nat take padItems length]. rewrite lengthBelow_int.
    reflexivity.
  - intros n Hn. unfold suggestItems. cbv zeta.
    set (matched := List.filter isCLO (linesOfString raw)).
    assert (forall l : list jsstring,
               sliceTo l (int n)
               = take (Z.to_nat (Z.max (Z.of_nat (length l) + n) 0)) l) as Hcut.
    { intros l. unfold sliceTo, int. rewrite Qtruncate_int.
      now replace (n <? 0)%Z with true by (symmetry; apply Z.ltb_lt; lia). }
    rewrite Hcut. cbn [padItems]. rewrite lengthBelow_int.
    replace (_ <? n)%Z with false by (symmetry; apply Z.ltb_ge; lia).
    rewrite Hcut, take_take, length_take. f_equal. f_equal. lia.
Qed.

Section HandlerEnds.
  Context `{Host} `{Env} `{Upstream}.

Lemma suggestCall_console modelName prompt σ :
  console (suggestCall modelName prompt σ).2 = console σ.
Proof.
  unfold suggestCall. destruct (hintedParams _ _ _ _ _ _ _) as [params h'].
  now destruct (createResponseWithFallback_run params false false (withHeap σ h'))
    as (_ & _ & _ & _ & _ & _ & _ & _ & _ & ->).
Qed.

Lemma evaluateCall_console modelName prompt σ :
  console (evaluateCall modelName prompt σ).2 = console σ.
Proof.
  unfold evaluateCall. destruct (hintedParams _ _ _ _ _ _ _) as [params h'].
  now destruct (createResponseWithFallback_run params false false (withHeap σ h'))
    as (_ & _ & _ & _ & _ & _ & _ & _ & _ & ->).
Qed.

Lemma rawCall_console req_body σ :
  console (rawCall req_body σ).2 = console σ.
Proof.
  unfold rawCall. cbv zeta. destruct (rawParams _ _ _ _) as [params h'].
  now destruct (createResponseWithFallback_run params false false (withHeap σ h'))
    as (_ & _ & _ & _ & _ & _ & _ & _ & _ & ->).
Qed.

Lemma suggestReply_status fuel count modelName rsp r :
  suggestReply fuel count modelName rsp = Some (Normal r) -> status r = 200%Z.
Proof.
  unfold suggestReply. destruct (getProp rsp _) as [out|]; [|discriminate].
  cbv zeta. destruct (toString _) as [text|]; [|discriminate].
  destruct (toNumber count) as [n|]; [|discriminate].
  destruct (suggestItems fuel text n); [|discriminate]. now intros [= <-].
Qed.

Lemma textReply_status modelName rsp r :
  textReply modelName rsp = Normal r -> status r = 200%Z.
Proof.
  unfold textReply. destruct (getProp rsp _) as [out|]; [|discriminate].
  now intros [= <-].
Qed.

Lemma failed_answered tag e σ0 σ :
  console σ = console σ0 ->
  answered tag σ0 (failed (js tag) e σ).2 (failed (js tag) e σ).1.
Proof. intros Hk. right. split; [reflexivity|]. exists e. cbn. now rewrite Hk. Qed.

(** X10.  A handler answers 200 or its own fixed 500 and nothing else; a 200
    writes nothing to the console and a 500 writes one line. *)
Theorem handler_outcomes :
  (forall fuel req_body σ r σ',
      suggest fuel req_body σ = Some (r, σ') ->
      answered "suggest_failed" σ σ' r)
  /\ (forall req_body σ,
        answered "evaluate_failed" σ (evaluate req_body σ).2
          (evaluate req_body σ).1)
  /\ (forall req_body σ,
        answered "raw_failed" σ (raw req_body σ).2 (raw req_body σ).1).
Proof.
  split; [|split].
  - intros fuel req_body σ r σ'. unfold suggest, suggestTry.
    destruct (suggestRequest req_body) as [[[count modelName] prompt]|e].
    + pose proof (suggestCall_console modelName prompt σ) as Hk.
      destruct (suggestCall modelName prompt σ) as [[rsp|e] σ1]; cbn [snd] in Hk.
      * destruct (suggestReply fuel count modelName rsp) as [[r'|e]|] eqn:E;
          [| |discriminate].
        -- intros [= <- <-]. left. split; [|exact Hk].
           exact (suggestReply_status _ _ _ _ _ E).
        -- intros [= <- <-]. exact (failed_answered "suggest_failed" e σ σ1 Hk).
      * intros [= <- <-]. exact (failed_answered "suggest_failed" e σ σ1 Hk).
    + intros [= <- <-]. exact (failed_answered "suggest_failed" e σ σ eq_refl).
  - intros req_body σ. unfold evaluate, evaluateTry.
    destruct (evaluateRequest req_body) as [[modelName prompt]|e].
    + pose proof (evaluateCall_console modelName prompt σ) as Hk.
      destruct (evaluateCall modelName prompt σ) as [[rsp|e] σ1]; cbn [snd] in Hk.
      * destruct (textReply modelName rsp) as [r'|e] eqn:E.
        -- left. split; [|exact Hk]. exact (textReply_status _ _ _ E).
        -- exact (failed_answered "evaluate_failed" e σ σ1 Hk).
      * exact (failed_answered "evaluate_failed" e σ σ1 Hk).
    + exact (failed_answered "evaluate_failed" e σ σ eq_refl).
  - intros req_body σ. unfold raw, rawTry.
    pose proof (rawCall_console req_body σ) as Hk.
    destruct (rawCall req_body σ) as [[rsp|e] σ1]; cbn [snd] in Hk.
    + destruct (textReply (rawModel req_body) rsp) as [r'|e] eqn:E.
      * left. split; [|exact Hk]. exact (textReply_status _ _ _ E).
      * exact (failed_answered "raw_failed" e σ σ1 Hk).
    + exact (failed_answered "raw_failed" e σ σ1 Hk).
Qed.

(** X11.  A count of plus infinity and a reply with a line that is no
    [CLOx:] line: the loop of [/api/suggest] never ends, so the handler
    never answers. *)
Theorem infinite_count_never_answers
    fuel req_body modelName prompt σ rsp σ1 text first rest :
  suggestRequest req_body = Normal (VNum (Inf false), modelName, prompt) ->
  suggestCall modelName prompt σ = (Normal rsp, σ1) ->
  getProp rsp (js "output_text") = Normal (VStr text) ->
  List.filter (fun s => negb (isCLO s)) (linesOfString text) = first :: rest ->
  suggest fuel req_body σ = None.
Proof.
  intros Hreq Hcall Hout Hextras. unfold suggest, suggestTry.
  rewrite Hreq, Hcall. unfold suggestReply. rewrite Hout. cbv zeta.
  assert (orElse (VStr text) (VStr []) = VStr text) as -> by now destruct text.
  cbn [toString toNumber]. unfold suggestItems. cbv zeta.
  now rewrite (padItems_endless text first rest fuel _ Hextras).
Qed.
End HandlerEnds.

Lemma infinite_count_never_answers_witness :
  @suggest Sample.asciiHost Sample.env Sample.scripted 1000
    (VObj [(js "count", VNum (Inf false))])
    (Sample.start [Sample.answer "Here are the outcomes you asked for."])
  = None.
Proof.
  eapply (@infinite_count_never_answers Sample.asciiHost Sample.env
            Sample.scripted).
  - vm_compute. reflexivity.
  - vm_compute. reflexivity.
  - vm_compute. reflexivity.
  - vm_compute. reflexivity.
Defined.

Section Requests.
  Context `{Host} `{Env} `{Upstream}.

Lemma courseStrings_null : courseStrings VNull = Throw TypeError.
Proof. reflexivity. Qed.

Lemma courseStrings_label course label :
  getProp course (js "label") = Normal label ->
  truthy label = true -> (forall s, label <> VStr s) ->
  courseStrings course = Throw TypeError.
Proof.
  intros Hget Htrue Hstr. unfold courseStrings. rewrite Hget.
  cbn [mbind completion_bind].
  replace (orElse label (orElse (field course (js "id")) (VStr []))) with label
    by (unfold orElse at 1; now rewrite Htrue).
  destruct label; try reflexivity. now destruct (Hstr s).
Qed.

Lemma normalized_not_array bloomVerbs :
  truthy bloomVerbs = true -> (forall items, bloomVerbs <> VArr items) ->
  normalized bloomVerbs = Throw TypeError.
Proof.
  intros Htrue Harr. unfold normalized, orElse. rewrite Htrue.
  destruct bloomVerbs; try reflexivity. now destruct (Harr items).
Qed.

Lemma defaultTo_defined v d : v <> VUndefined -> defaultTo v d = v.
Proof. now destruct v. Qed.

Lemma malformed_throws b :
  malformed b ->
  (forall defaultCourse,
      defaultCourse = VObj [] ->
      courseStrings (defaultTo (field b (js "course")) defaultCourse)
      = Throw TypeError)
  \/ normalized (defaultTo (field b (js "bloomVerbs")) (VArr []))
     = Throw TypeError.
Proof.
  intros [Hnull | [(label & Hget & Htrue & Hstr) | [Htrue Harr]]].
  - left. intros ? _. now rewrite Hnull.
  - left. intros ? _. rewrite defaultTo_defined.
    + exact (courseStrings_label _ _ Hget Htrue Hstr).
    + intros Hu. now rewrite Hu in Hget.
  - right. rewrite defaultTo_defined.
    + exact (normalized_not_array _ Htrue Harr).
    + intros Hu. now rewrite Hu in Htrue.
Qed.

Lemma suggestRequest_malformed req_body :
  malformed (orElse req_body (VObj [])) ->
  exists e, suggestRequest req_body = Throw e.
Proof.
  intros Hbad. unfold suggestRequest, suggestPrompt. cbv zeta.
  destruct (linkLevelOf _ _) as [linkLevel|e]; [|eauto].
  cbn [mbind completion_bind].
  destruct (malformed_throws _ Hbad) as [Hc | ->]; [|eauto].
  destruct (normalized _) as [all|e]; [|eauto].
  cbn [mbind completion_bind]. rewrite (Hc _ eq_refl). eauto.
Qed.

Lemma evaluateRequest_malformed req_body :
  malformed (orElse req_body (VObj [])) ->
  exists e, evaluateRequest req_body = Throw e.
Proof.
  intros Hbad. unfold evaluateRequest, evaluatePrompt. cbv zeta.
  destruct (linkLevelOf _ _) as [linkLevel|e]; [|eauto].
  cbn [mbind completion_bind].
  destruct (malformed_throws _ Hbad) as [Hc | ->]; [|eauto].
  destruct (normalized _) as [all|e]; [|eauto].
  cbn [mbind completion_bind]. rewrite (Hc _ eq_refl). eauto.
Qed.

(** X12.  A body the handlers cannot read is answered with the 500 of the
    handler, and the upstream service is not called for it. *)
Theorem malformed_body_costs_no_call fuel req_body σ :
  malformed (orElse req_body (VObj [])) ->
  (exists σ',
      suggest fuel req_body σ = Some (failure "suggest_failed", σ')
      /\ calls σ' = calls σ /\ world σ' = world σ)
  /\ (exists σ',
        evaluate req_body σ = (failure "evaluate_failed", σ')
        /\ calls σ' = calls σ /\ world σ' = world σ).
Proof.
  intros Hbad. split.
  - destruct (suggestRequest_malformed req_body Hbad) as [e He].
    exists (failed (js "suggest_failed") e σ).2.
    unfold suggest, suggestTry. rewrite He. now repeat split.
  - destruct (evaluateRequest_malformed req_body Hbad) as [e He].
    exists (failed (js "evaluate_failed") e σ).2.
    unfold evaluate, evaluateTry. rewrite He. now repeat split.
Qed.

Lemma pickModel_suggest o :
  pickModel (js "suggest") o
  = if truthy o then o
    else VStr (if jsstring_eqb MODEL_MODE (js "full") then js "gpt-5"
               else js "gpt-5-mini").
Proof.
  unfold pickModel.
  change (jsstring_eqb (js "suggest") (js "suggest")) with true.
  destruct (truthy o); [reflexivity|].
  destruct (jsstring_eqb MODEL_MODE (js "full")); [reflexivity|].
  now destruct (jsstring_eqb MODEL_MODE (js "mini")).
Qed.

Lemma pickModel_evaluate o :
  pickModel (js "evaluate") o
  = if truthy o then o
    else VStr (if jsstring_eqb MODEL_MODE (js "mini") then js "gpt-5-mini"
               else js "gpt-5").
Proof.
  unfold pickModel.
  change (jsstring_eqb (js "evaluate") (js "suggest")) with false.
  change (jsstring_eqb (js "evaluate") (js "evaluate")) with true.
  destruct (truthy o); [reflexivity|].
  destruct (jsstring_eqb MODEL_MODE (js "full")) eqn:Efull;
    [|now destruct (jsstring_eqb MODEL_MODE (js "mini"))].
  apply jsstring_eqb_eq in Efull. rewrite Efull.
  now change (jsstring_eqb (js "full") (js "mini")) with false.
Qed.
End Requests.

Lemma malformed_body_costs_no_call_witness :
  exists σ',
    @suggest Sample.asciiHost Sample.env Sample.scripted 1
      (VObj [(js "course", VNull)]) (Sample.start [Sample.answer "CLO1: a"])
    = Some (failure "suggest_failed", σ')
    /\ calls σ' = [] /\ world σ' = [Sample.answer "CLO1: a"].
Proof.
  refine (proj1 (@malformed_body_costs_no_call Sample.asciiHost Sample.env
                   Sample.scripted 1 (VObj [(js "course", VNull)])
                   (Sample.start [Sample.answer "CLO1: a"]) _)).
  left. vm_compute. reflexivity.
Defined.

(** X13.  The [MODEL] variable has no part in [/api/suggest] and
    [/api/evaluate]: two processes that agree on [MODEL_MODE] answer a
    request alike, whatever their default model. *)
Theorem model_variable_is_ignored `{Host} `{Upstream} (E1 E2 : Env)
    fuel req_body σ :
  @MODEL_MODE E1 = @MODEL_MODE E2 ->
  @suggest _ E1 _ fuel req_body σ = @suggest _ E2 _ fuel req_body σ
  /\ @evaluate _ E1 _ req_body σ = @evaluate _ E2 _ req_body σ.
Proof.
  intros Hmode. split.
  - unfold suggest, suggestTry, suggestRequest.
    now rewrite !pickModel_suggest, Hmode.
  - unfold evaluate, evaluateTry, evaluateRequest.
    now rewrite !pickModel_evaluate, Hmode.
Qed.

Lemma model_variable_is_ignored_witness :
  @suggest Sample.asciiHost Sample.env Sample.scripted 7 (VObj [])
    (Sample.start [Sample.answer nineLines])
  = @suggest Sample.asciiHost
      {| MODEL_MODE := js "auto"; DEFAULT_MODEL := js "gpt-4o" |}
      Sample.scripted 7 (VObj []) (Sample.start [Sample.answer nineLines]).
Proof.
  exact (proj1 (@model_variable_is_ignored Sample.asciiHost Sample.scripted
                  Sample.env
                  {| MODEL_MODE := js "auto"; DEFAULT_MODEL := js "gpt-4o" |}
                  7 (VObj []) (Sample.start [Sample.answer nineLines])
                  eq_refl)).
Defined.

Section Normalised.
  Context `{Host}.

Lemma norm_trimmed x e :
  norm x = Normal (Some e) ->
  trim (verb e) = verb e /\ trim (level e) = level e
  /\ (verb e = [] -> exists s, x = VStr s).
Proof.
  unfold norm. destruct (negb (truthy x)); [discriminate|].
  assert ((v ← toString (orElse (field x (js "verb")) (VStr []));
              l ← toString (orElse (field x (js "level")) (VStr []));
              Normal (if nonEmpty (trim v)
                      then Some {| verb := trim v; level := trim l |}
                      else None)) = Normal (Some e) ->
             trim (verb e) = verb e /\ trim (level e) = level e
             /\ (verb e = [] -> exists s, x = VStr s)) as Hobj.
  { intros (v & _ & (l & _ & Hret)%bind_Normal)%bind_Normal.
    destruct (nonEmpty (trim v)) eqn:Ev; [|discriminate].
    injection Hret as <-. cbn [verb level]. rewrite !trim_idem. repeat split.
    intros Hv. now rewrite Hv in Ev. }
  destruct x; try exact Hobj.
  intros [= <-]. cbn [verb level]. rewrite trim_idem. repeat split. eauto.
Qed.

(** X14.  The entries kept from [bloomVerbs] have a verb and a level with no
    white space around them, and only an entry given as a bare string can
    have an empty verb. *)
Theorem normalized_entries_are_trimmed bloomVerbs all :
  normalized bloomVerbs = Normal all ->
  Forall (fun e => trim (verb e) = verb e /\ trim (level e) = level e) all
  /\ (Exists (fun e => verb e = []) all ->
      exists items s, bloomVerbs = VArr items /\ VStr s ∈ items
                      /\ trim s = []).
Proof.
  unfold normalized.
  assert (forall items all,
             normAll items = Normal all ->
             Forall (fun e => trim (verb e) = verb e /\ trim (level e) = level e)
               all
             /\ (Exists (fun e => verb e = []) all ->
                 exists s, VStr s ∈ items /\ trim s = [])) as Hall.
  { induction items as [|x r IH]; intros all'; cbn [normAll].
    - intros [= <-]. split; [constructor | now intros ?%Exists_nil].
    - intros (o & Ho & (rest & Hrest & Hret)%bind_Normal)%bind_Normal.
      destruct (IH rest Hrest) as [IH1 IH2].
      injection Hret as <-. destruct o as [e|].
      + destruct (norm_trimmed x e Ho) as (Hv & Hl & Hempty). split.
        * constructor; auto.
        * intros [He | Hex]%Exists_cons.
          -- destruct (Hempty He) as [s ->]. exists s. split; [left|].
             unfold norm in Ho. destruct (negb _); [discriminate|].
             injection Ho as <-. exact He.
          -- destruct (IH2 Hex) as (s & Hin & Hs). exists s.
             split; [now right | exact Hs].
      + split; [exact IH1|]. intros Hex.
        destruct (IH2 Hex) as (s & Hin & Hs). exists s.
        split; [now right | exact Hs]. }
  unfold orElse. destruct (truthy bloomVerbs) eqn:Et.
  - destruct bloomVerbs; try discriminate. intros Hn.
    destruct (Hall _ _ Hn) as [H1 H2]. split; [exact H1|].
    intros Hex. destruct (H2 Hex) as (s & Hin & Hs). eauto.
  - cbn [normAll]. intros [= <-]. split; [constructor | now intros ?%Exists_nil].
Qed.
End Normalised.

Lemma normalized_entries_are_trimmed_witness :
  Forall (fun e => trim (verb e) = verb e /\ trim (level e) = level e)
    [ {| verb := js "Apply"; level := [] |};
      {| verb := js "Compare"; level := js "Analyze" |} ].
Proof.
  refine (proj1 (@normalized_entries_are_trimmed Sample.asciiHost
                   (VArr [VStr (js "  Apply ");
                          VObj [(js "verb", VStr (js " Compare"));
                                (js "level", VStr (js "Analyze  "))]])
                   _ _)).
  vm_compute. reflexivity.
Defined.

(** ** Bodies of the expected shape *)

Section PlainBodies.
  Context `{Host} `{Env}.

Lemma toString_flat v : flat v = true -> exists s, toString v = Normal s.
Proof. destruct v as [| |[]| | | |]; cbn; eauto; discriminate. Qed.

Lemma flat_orElse v d : flat v = true -> flat d = true -> flat (orElse v d) = true.
Proof. intros Hv Hd. unfold orElse. now destruct (truthy v). Qed.

Lemma flat_coalesce v d :
  flat v = true -> flat d = true -> flat (coalesce v d) = true.
Proof. intros Hv Hd. now destruct v. Qed.

Lemma flat_defaultTo v d :
  flat v = true -> flat d = true -> flat (defaultTo v d) = true.
Proof. intros Hv Hd. now destruct v. Qed.

Lemma linkLevelOf_flat linkLevel level :
  flat linkLevel = true -> flat level = true ->
  exists s, linkLevelOf linkLevel level = Normal s.
Proof.
  intros H1 H2. unfold linkLevelOf.
  destruct (toString_flat (coalesce linkLevel (coalesce level (VStr (js "I")))))
    as [s ->]; [|cbn; eauto].
  apply flat_coalesce; [assumption|]. now apply flat_coalesce.
Qed.

Lemma norm_plain x : plainVerb x = true -> exists o, norm x = Normal o.
Proof.
  unfold norm. destruct (negb (truthy x)); [eauto|].
  destruct x; try discriminate; [eauto|].
  cbn [plainVerb field]. intros [Hv Hl]%andb_prop.
  destruct (toString_flat (orElse (assoc (js "verb") fields) (VStr [])))
    as [v ->]; [now apply flat_orElse|].
  destruct (toString_flat (orElse (assoc (js "level") fields) (VStr [])))
    as [l ->]; [now apply flat_orElse|].
  cbn [mbind completion_bind]. eauto.
Qed.

Lemma normAll_plain items :
  forallb plainVerb items = true -> exists all, normAll items = Normal all.
Proof.
  induction items as [|x r IH]; cbn [forallb normAll]; [eauto|].
  intros [Hx Hr]%andb_prop.
  destruct (norm_plain x Hx) as [o ->]. destruct (IH Hr) as [rest ->].
  cbn [mbind completion_bind]. eauto.
Qed.

Lemma normalized_plain bloomVerbs :
  plainVerbs bloomVerbs = true ->
  exists all, normalized (defaultTo bloomVerbs (VArr [])) = Normal all.
Proof.
  destruct bloomVerbs; try discriminate; cbn [plainVerbs defaultTo].
  - intros _. exists []. reflexivity.
  - intros Hitems. unfold normalized, orElse. cbn [truthy].
    now apply normAll_plain.
Qed.

Lemma callTrim_names label other :
  stringOrAbsent label = true -> stringOrAbsent other = true ->
  exists s, callTrim (orElse label (orElse other (VStr []))) = Normal s.
Proof.
  intros Hl Ho. unfold orElse.
  destruct label as [| | | |l| |]; try discriminate; cbn [truthy].
  - destruct other as [| | | |o| |]; try discriminate; cbn [truthy];
      [eauto|]. destruct (nonEmpty o); cbn; eauto.
  - destruct (nonEmpty l); [cbn; eauto|].
    destruct other as [| | | |o| |]; try discriminate; cbn [truthy];
      [eauto|]. destruct (nonEmpty o); cbn; eauto.
Qed.

Lemma courseStrings_plain course :
  plainCourse course = true ->
  exists t, courseStrings (defaultTo course (VObj [])) = Normal t.
Proof.
  assert (forall fields,
             stringOrAbsent (assoc (js "label") fields)
             && stringOrAbsent (assoc (js "id") fields)
             && stringOrAbsent (assoc (js "fullname") fields)
             && flat (assoc (js "tong") fields)
             && flat (assoc (js "credits") fields) = true ->
             exists t, courseStrings (VObj fields) = Normal t) as Hobj.
  { intros fields [[[[Hl Hi]%andb_prop Hf]%andb_prop Ht]%andb_prop Hc]%andb_prop.
    unfold courseStrings. cbn [getProp field mbind completion_bind].
    destruct (callTrim_names _ _ Hl Hi) as [s1 ->].
    destruct (callTrim_names (assoc (js "fullname") fields) VUndefined Hf eq_refl)
      as [s2 Hs2].
    change (orElse VUndefined (VStr [])) with (VStr []) in Hs2.
    rewrite Hs2. cbn [mbind completion_bind].
    destruct (toString_flat (coalesce (assoc (js "tong") fields)
                               (coalesce (assoc (js "credits") fields) (VStr []))))
      as [s3 ->]; [|cbn; eauto].
    apply flat_coalesce; [assumption|]. now apply flat_coalesce. }
  destruct course; try discriminate; cbn [plainCourse defaultTo].
  - intros _. apply (Hobj []). reflexivity.
  - apply Hobj.
Qed.

(** X15.  A body of the expected shape is never refused before the call:
    both handlers work out their model and their prompt from it. *)
Theorem plain_body_reaches_upstream req_body :
  plainBody (orElse req_body (VObj [])) = true ->
  (exists count modelName prompt,
      suggestRequest req_body = Normal (count, modelName, prompt))
  /\ (exists modelName prompt,
        evaluateRequest req_body = Normal (modelName, prompt)).
Proof.
  unfold plainBody.
  intros [[[[[[[Hplo Hplot]%andb_prop Hclo]%andb_prop Hlevel]%andb_prop
               Hlink]%andb_prop Hcount]%andb_prop Hcourse]%andb_prop
            Hverbs]%andb_prop.
  destruct (linkLevelOf_flat _ _ Hlink Hlevel) as [linkLevel Hll].
  destruct (normalized_plain _ Hverbs) as [all Hall].
  destruct (courseStrings_plain _ Hcourse) as [[[label full] credits] Hcs].
  destruct (toString_flat _ Hplo) as [plo' Hplo'].
  destruct (toString_flat _ (flat_defaultTo _ (VStr []) Hplot eq_refl))
    as [plot' Hplot'].
  destruct (toString_flat _ (flat_defaultTo _ (VStr []) Hclo eq_refl))
    as [clo' Hclo'].
  destruct (toString_flat _ (flat_defaultTo _ (VNum (int 6)) Hcount eq_refl))
    as [count' Hcount'].
  split.
  - unfold suggestRequest, suggestPrompt. cbv zeta.
    rewrite Hll. cbn [mbind completion_bind].
    rewrite Hall. cbn [mbind completion_bind].
    rewrite Hcs. cbn [mbind completion_bind].
    rewrite Hcount'. cbn [mbind completion_bind].
    rewrite Hplo'. cbn [mbind completion_bind].
    rewrite Hplot'. cbn [mbind completion_bind].
    eexists _, _, _. reflexivity.
  - unfold evaluateRequest, evaluatePrompt. cbv zeta.
    rewrite Hll. cbn [mbind completion_bind].
    rewrite Hall. cbn [mbind completion_bind].
    rewrite Hcs. cbn [mbind completion_bind].
    rewrite Hplo'. cbn [mbind completion_bind].
    rewrite Hplot'. cbn [mbind completion_bind].
    rewrite Hclo'. cbn [mbind completion_bind].
    eexists _, _. reflexivity.
Qed.
End PlainBodies.

Lemma plain_body_reaches_upstream_witness :
  exists count modelName prompt,
    @suggestRequest Sample.asciiHost Sample.env
      (VObj [(js "plo", VStr (js "PLO1"));
             (js "course", VObj [(js "label", VStr (js "Anatomy"))]);
             (js "bloomVerbs", VArr [VStr (js "Apply")]);
             (js "count", VNum (int 3))])
    = Normal (count, modelName, prompt).
Proof.
  refine (proj1 (@plain_body_reaches_upstream Sample.asciiHost Sample.env _ _)).
  vm_compute. reflexivity.
Defined.

(** ** The allowed origins *)

Lemma setOf_spec l : forall seen,
  NoDup (setOf seen l)
  /\ forall x, x ∈ setOf seen l <-> x ∈ l /\ x ∉ seen.
Proof.
  induction l as [|y r IH]; intros seen; cbn [setOf].
  - split; [constructor | intros x; rewrite !elem_of_nil; tauto].
  - destruct (decide (y ∈ seen)) as [Hin|Hout].
    + destruct (IH seen) as [Hnd Hmem]. split; [exact Hnd|].
      intros x. rewrite Hmem, elem_of_cons. split; [tauto|].
      intros [[-> | ?] ?]; [contradiction | tauto].
    + destruct (IH ({[y]} ∪ seen)) as [Hnd Hmem]. split.
      * constructor; [|exact Hnd]. rewrite Hmem. intros [_ Hn].
        apply Hn, elem_of_union_l, elem_of_singleton. reflexivity.
      * intros x.
        rewrite !elem_of_cons, Hmem, not_elem_of_union, not_elem_of_singleton.
        destruct (decide (x = y)) as [->|Hne]; [|tauto].
        split; [intros _; split; [now left | exact Hout] | now left].
Qed.

Lemma nonEmpty_true s : nonEmpty s = true <-> s <> [].
Proof. destruct s; cbn; split; congruence. Qed.

Lemma listed_spec ORIGINS ORIGIN o :
  o ∈ setOf ∅ (List.filter nonEmpty (map trim (originPieces ORIGINS ORIGIN)))
  <-> o <> [] /\ exists p, p ∈ originPieces ORIGINS ORIGIN /\ o = trim p.
Proof.
  rewrite (proj2 (setOf_spec _ ∅)), !list_elem_of_In, filter_In, in_map_iff,
    nonEmpty_true.
  split.
  - intros [[(p & <- & Hp) Hne] _]. split; [exact Hne|]. exists p.
    now rewrite list_elem_of_In.
  - intros [Hne (p & Hp & ->)]. split; [|apply not_elem_of_empty].
    split; [|exact Hne].
    exists p. now rewrite <- list_elem_of_In.
Qed.

Lemma ALLOWED_nonempty ORIGINS ORIGIN : ALLOWED ORIGINS ORIGIN <> [].
Proof. unfold ALLOWED. now destruct (setOf ∅ _). Qed.

(** X16.  The set of allowed origins is never empty; its entries are
    distinct, not empty and without white space around them; every piece
    of the variable that is not blank is in it; and the built-in origin is
    in it exactly when every piece is blank. *)
Theorem allowed_origins ORIGINS ORIGIN :
  ALLOWED ORIGINS ORIGIN <> []
  /\ NoDup (ALLOWED ORIGINS ORIGIN)
  /\ Forall (fun o => o <> [] /\ trim o = o) (ALLOWED ORIGINS ORIGIN)
  /\ (forall p, p ∈ originPieces ORIGINS ORIGIN -> trim p <> [] ->
                trim p ∈ ALLOWED ORIGINS ORIGIN)
  /\ (Forall (fun p => trim p = []) (originPieces ORIGINS ORIGIN) ->
      ALLOWED ORIGINS ORIGIN = [js "https://vophong90.github.io"]).
Proof.
  unfold ALLOWED.
  pose proof (listed_spec ORIGINS ORIGIN) as Hmem.
  pose proof (proj1 (setOf_spec
                       (List.filter nonEmpty
                          (map trim (originPieces ORIGINS ORIGIN))) ∅)) as Hnd.
  destruct (setOf ∅ _) as [|o listed] eqn:E.
  - split; [discriminate|]. split; [apply NoDup_singleton|].
    split; [constructor; [|constructor]; split; [discriminate|];
            vm_compute; reflexivity|].
    split; [|reflexivity].
    intros p Hp Hne. exfalso. apply (not_elem_of_nil (trim p)).
    apply Hmem. eauto.
  - split; [discriminate|]. split; [exact Hnd|]. split; [|split].
    + apply Forall_forall. intros x Hx. apply Hmem in Hx as [Hne (p & _ & ->)].
      split; [exact Hne | apply trim_idem].
    + intros p Hp Hne. apply Hmem. eauto.
    + intros Hblank. exfalso.
      assert (o ∈ o :: listed) as Ho by left.
      apply Hmem in Ho as [Hne (p & Hp & ->)].
      rewrite Forall_forall in Hblank. exact (Hne (Hblank p Hp)).
Qed.

(** X17.  An origin is accepted exactly when the request names none, or an
    empty one, or one of the set, or one that ends in [.github.io]; the
    last holds whatever the set, because the set is never empty. *)
Theorem origin_decision ORIGINS ORIGIN origin :
  originAllowed (ALLOWED ORIGINS ORIGIN) origin = true
  <-> match origin with
      | None => True
      | Some o =>
          o = [] \/ o ∈ ALLOWED ORIGINS ORIGIN
          \/ endsWith o (js ".github.io") = true
      end.
Proof.
  destruct origin as [o|]; [|easy]. cbn [originAllowed].
  rewrite orb_true_iff, negb_true_iff, existsb_exists. split.
  - intros [Hempty | (a & Ha & [Heq | Hends]%orb_prop)].
    + left. now destruct o.
    + right. left. apply jsstring_eqb_eq in Heq as ->.
      now apply list_elem_of_In.
    + right. now right.
  - intros [-> | [Hin | Hends]]; [now left | |]; right.
    + exists o. rewrite jsstring_eqb_refl. split; [now apply list_elem_of_In|].
      reflexivity.
    + destruct (ALLOWED ORIGINS ORIGIN) as [|a r] eqn:E.
      { now destruct (ALLOWED_nonempty ORIGINS ORIGIN). }
      exists a. rewrite Hends, orb_true_r. split; [left|]; reflexivity.
Qed.

(** ** The bearer token *)

Lemma startsWith_app w s : startsWith w s = true <-> exists r, s = w ++ r.
Proof.
  revert s. induction w as [|x w IH]; intros s; cbn.
  - split; eauto.
  - destruct s as [|y s].
    + split; [discriminate | now intros [r Hr]].
    + rewrite andb_true_iff, N.eqb_eq, IH. split.
      * intros [-> [r ->]]. eauto.
      * intros [r [= -> ->]]. eauto.
Qed.

(** X18.  With no token configured every request passes; with one, a
    request passes exactly when its [Authorization] header is [Bearer],
    one space and the token, and any other is answered 401 with
    [{ error: 'Unauthorized' }]. *)
Theorem bearer_gate APP_TOKEN authorization :
  (bearerGate APP_TOKEN authorization = Next
   <-> APP_TOKEN = [] \/ authorization = Some (js "Bearer " ++ APP_TOKEN))
  /\ (bearerGate APP_TOKEN authorization <> Next ->
      bearerGate APP_TOKEN authorization = Answer unauthorized).
Proof.
  unfold bearerGate. destruct APP_TOKEN as [|c token]; cbn [nonEmpty negb].
  { split; [split; auto | congruence]. }
  cbv zeta. split.
  - destruct (jsstring_eqb _ _) eqn:E.
    + split; [intros _; right | reflexivity].
      apply jsstring_eqb_eq in E.
      destruct (startsWith (js "Bearer ") (envOr authorization [])) eqn:Es;
        [|discriminate].
      apply startsWith_app in Es as [r Hr]. rewrite Hr in E.
      change (drop 7 (js "Bearer " ++ r)) with r in E. subst r.
      destruct authorization as [a|]; cbn [envOr] in Hr; [|discriminate].
      destruct (nonEmpty a); [now subst | discriminate].
    + split; [discriminate|]. intros [[=] | ->]. exfalso.
      change (envOr (Some (js "Bearer " ++ c :: token)) [])
        with (js "Bearer " ++ c :: token) in E.
      rewrite (proj2 (startsWith_app _ _) (ex_intro _ (c :: token) eq_refl)) in E.
      change (drop 7 (js "Bearer " ++ c :: token)) with (c :: token) in E.
      now rewrite jsstring_eqb_refl in E.
  - now destruct (jsstring_eqb _ _).
Qed.

Section Models.
  Context `{Host}.

Lemma envOr_nonEmpty v d : nonEmpty d = true -> nonEmpty (envOr v d) = true.
Proof.
  intros Hd. destruct v as [s|]; cbn; [|exact Hd].
  now destruct (nonEmpty s) eqn:E.
Qed.

(** X19.  Whatever the variables [MODEL] and [MODEL_MODE] hold, and whatever
    the request asks for, the model named to the upstream service is a
    value that holds: no handler sends a request without a model. *)
Theorem model_is_never_missing MODE MODEL :
  (forall kind overrideModel,
      truthy (@pickModel (processEnv MODE MODEL) kind overrideModel) = true)
  /\ (forall req_body, truthy (@rawModel (processEnv MODE MODEL) req_body) = true).
Proof.
  pose proof (envOr_nonEmpty MODEL (js "gpt-5") eq_refl) as Hd. split.
  - intros kind o. unfold pickModel.
    destruct (truthy o) eqn:E; [exact E|].
    repeat (destruct (jsstring_eqb _ _); [reflexivity|]). exact Hd.
  - intros b. unfold rawModel, orElse.
    destruct (truthy (field _ _)) eqn:E; [exact E | exact Hd].
Qed.
End Models.

(** ** The order of the fallbacks *)

Lemma optChain_app h ext v k :
  live h v -> optChain (h ++ ext) v k = optChain h v k.
Proof.
  intros Hv. destruct v as [[]|]; cbn [optChain]; try reflexivity.
  now apply getVal_app.
Qed.

Lemma optChain_live h v k :
  live h v -> live h (getVal h v k) -> live h (optChain h v k).
Proof. intros Hv Hk. destruct v as [[]|]; cbn [optChain]; try exact I; exact Hk. Qed.

Lemma hints_app h ext c :
  live h c.1 -> live h (getVal h c.1 (js "text")) ->
  live h (getVal h c.1 (js "reasoning")) ->
  hints (h ++ ext) c = hints h c.
Proof.
  intros Hp Ht Hr. unfold hints, hasVerbosity, hasEffort.
  rewrite !(optChain_app h ext c.1) by exact Hp.
  rewrite !optChain_app; [reflexivity | |]; now apply optChain_live.
Qed.

Section FallbackOrder.
  Context `{Host} `{Upstream}.

Lemma run_order params σ :
  hasVerbosity (heap σ) params = true ->
  live (heap σ) (getVal (heap σ) params (js "reasoning")) ->
  exists log,
    calls (createResponseWithFallback params false false σ).2 = calls σ ++ log
    /\ hints (heap (createResponseWithFallback params false false σ).2) <$> log
       = take (length log)
           [(true, hasEffort (heap σ) params);
            (false, hasEffort (heap σ) params);
            (false, false)].
Proof.
  intros Hv Hr. set (b := hasEffort (heap σ) params).
  pose proof (guard_live _ _ _ _ Hv) as (Hlive & Htext & _).
  assert (forall k, optChain (heap σ) params k = getVal (heap σ) params k) as Hread.
  { intros k. destruct params as [[]|]; try reflexivity; discriminate. }
  assert (forall ext o, hints (heap σ ++ ext) (params, o) = (true, b)) as H1.
  { intros ext o. rewrite hints_app by (cbn [fst]; assumption). unfold hints. cbn [fst].
    now rewrite Hv. }
  rewrite createResponseWithFallback_step.
  destruct (call params σ) as [o σ1] eqn:Hcall.
  apply call_spec in Hcall as (Hh & Hc & _).
  destruct o as [rsp|e].
  { exists [(params, Resolved rsp)]. cbn [snd]. split; [exact Hc|].
    cbn [fmap list_fmap length take]. rewrite Hh.
    pose proof (H1 [] (Resolved rsp)) as H1'. rewrite app_nil_r in H1'.
    now rewrite H1'. }
  unfold onFailure. cbv zeta. rewrite Hh.
  fold (hasVerbosity (heap σ) params). rewrite Hv. cbn [negb andb].
  destruct (withoutVerbosity params (heap σ)) as [p2 h1] eqn:Ew.
  destruct (withoutVerbosity_spec _ _ _ _ Hv Ew) as (Hgone & Hk & _).
  rewrite withoutVerbosity_eq in Ew. injection Ew as <- <-.
  set (l := length (heap σ)) in *.
  match goal with
  | _ : context [heap σ ++ [?P; ?T]] |- _ => set (P2 := P) in *; set (T2 := T) in *
  end.
  set (h1 := heap σ ++ [P2; T2]) in *.
  assert (length h1 = S (S l)) as Hlen1.
  { unfold h1. rewrite length_app. cbn. lia. }
  assert (getVal h1 (Ref l) (js "text") = Ref (S l)) as Htext2.
  { cbn [getVal]. unfold h1, l.
    pose proof (readObj_at (heap σ) [P2; T2] 0 P2 eq_refl) as R.
    rewrite Nat.add_0_r in R. rewrite R.
    unfold P2. now rewrite lookup_insert_eq. }
  assert (truthyVal (getVal h1 (Ref (S l)) (js "verbosity")) = false) as Hq.
  { cbn [optChain] in Hgone. rewrite Htext2 in Hgone.
    cbn [optChain] in Hgone. now rewrite Hgone. }
  assert (hints h1 (Ref l, Rejected e) = (false, b)) as H2.
  { unfold hints, hasVerbosity, hasEffort. cbn [fst optChain].
    rewrite Htext2. cbn [optChain]. rewrite Hq.
    rewrite Hk by names_differ. f_equal.
    unfold b, hasEffort. rewrite Hread.
    unfold h1. now rewrite optChain_app. }
  assert (forall ext o, hints (h1 ++ ext) (Ref l, o) = (false, b)) as H2'.
  { intros ext o. rewrite hints_app.
    - exact H2.
    - cbn. lia.
    - cbn [fst]. rewrite Htext2. cbn. lia.
    - cbn [fst]. rewrite Hk by names_differ. now apply live_app. }
  rewrite createResponseWithFallback_step.
  destruct (call (Ref l) (withHeap σ1 h1)) as [o2 σ2] eqn:Hcall2.
  apply call_spec in Hcall2 as (Hh2 & Hc2 & _). cbn in Hh2, Hc2.
  destruct o2 as [rsp|e2].
  { exists [(params, Rejected e); (Ref l, Resolved rsp)]. cbn [snd].
    split; [now rewrite Hc2, Hc, <- app_assoc|].
    cbn [fmap list_fmap length take]. rewrite Hh2. unfold h1 at 1.
    rewrite H1. pose proof (H2' [] (Resolved rsp)) as H2''.
    rewrite app_nil_r in H2''. now rewrite H2''. }
  unfold onFailure. cbv zeta. rewrite Hh2. cbn [negb andb].
  assert (hasEffort h1 (Ref l) = b) as He2 by (now injection H2).
  fold (hasEffort h1 (Ref l)). rewrite He2. destruct b eqn:Eb.
  - destruct (withoutReasoning (Ref l) h1) as [p3 h2] eqn:Ew3.
    destruct (withoutReasoning_spec _ _ _ _ Ew3) as (Hnone & Hk3).
    rewrite withoutReasoning_eq in Ew3. injection Ew3 as <- <-.
    set (h2 := h1 ++ _) in *.
    destruct (run_one (Ref (length h1)) true true (withHeap σ2 h2) eq_refl eq_refl)
      as (o3 & Hc3 & _ & Hh3).
    cbn in Hc3, Hh3.
    exists [(params, Rejected e); (Ref l, Rejected e2); (Ref (length h1), o3)].
    split; [now rewrite Hc3, Hc2, Hc, <- !app_assoc|].
    cbn [fmap list_fmap length take]. rewrite Hh3.
    f_equal; [|f_equal; [|f_equal]].
    + unfold h2, h1. rewrite <- app_assoc. apply H1.
    + apply H2'.
    + unfold hints, hasVerbosity, hasEffort. cbn [fst optChain].
      rewrite Hnone. cbn [optChain truthyVal truthy]. f_equal.
      rewrite Hk3 by names_differ. rewrite Htext2. cbn [optChain].
      unfold h2. rewrite getVal_app by (cbn; lia). exact Hq.
  - exists [(params, Rejected e); (Ref l, Rejected e2)]. cbn [snd].
    split; [now rewrite Hc2, Hc, <- app_assoc|].
    cbn [fmap list_fmap length take]. rewrite Hh2. unfold h1 at 1.
    rewrite H1. pose proof (H2' [] (Rejected e2)) as H2''.
    rewrite app_nil_r in H2''. now rewrite H2''.
Qed.
End FallbackOrder.

Section HandlerOrder.
  Context `{Host} `{Env} `{Upstream}.

(** X20.  The calls made for a request come in a fixed order: the first
    carries the hints the handler wrote, a second one is made without
    [text.verbosity] and with the reasoning effort as it was, and a third,
    which [/api/raw] never makes, with neither. *)
Theorem fallback_order :
  (forall modelName prompt σ,
      exists log,
        calls (suggestCall modelName prompt σ).2 = calls σ ++ log
        /\ hints (heap (suggestCall modelName prompt σ).2) <$> log
           = take (length log) [(true, true); (false, true); (false, false)])
  /\ (forall modelName prompt σ,
        exists log,
          calls (evaluateCall modelName prompt σ).2 = calls σ ++ log
          /\ hints (heap (evaluateCall modelName prompt σ).2) <$> log
             = take (length log) [(true, true); (false, true); (false, false)])
  /\ (forall req_body σ,
        exists log,
          calls (rawCall req_body σ).2 = calls σ ++ log
          /\ hints (heap (rawCall req_body σ).2) <$> log
             = take (length log) [(true, false); (false, false)]).
Proof.
  split; [|split].
  - intros modelName prompt σ. unfold suggestCall.
    pose proof (hintedParams_guards modelName prompt (js "low") (js "minimal")
                  900 (4 # 10) (heap σ) eq_refl eq_refl) as [Hv He].
    destruct (hintedParams _ _ _ _ _ _ _) as [params h']. cbn [fst snd] in *.
    pose proof (guard_live _ _ _ _ He) as (_ & Hr & _).
    destruct (run_order params (withHeap σ h') Hv Hr) as (log & Hc & Hhints).
    cbn [heap withHeap] in Hhints. rewrite He in Hhints. eauto.
  - intros modelName prompt σ. unfold evaluateCall.
    pose proof (hintedParams_guards modelName prompt (js "medium") (js "medium")
                  600 (2 # 10) (heap σ) eq_refl eq_refl) as [Hv He].
    destruct (hintedParams _ _ _ _ _ _ _) as [params h']. cbn [fst snd] in *.
    pose proof (guard_live _ _ _ _ He) as (_ & Hr & _).
    destruct (run_order params (withHeap σ h') Hv Hr) as (log & Hc & Hhints).
    cbn [heap withHeap] in Hhints. rewrite He in Hhints. eauto.
  - intros req_body σ. unfold rawCall. cbv zeta.
    match goal with
    | |- context [rawParams ?m ?p ?t ?h] =>
        pose proof (rawParams_guards m p t h) as (Hv & He & Hr);
        destruct (rawParams m p t h) as [params h']
    end.
    cbn [fst snd] in *.
    destruct (run_order params (withHeap σ h') Hv) as (log & Hc & Hhints).
    { cbn [heap withHeap]. now rewrite Hr. }
    destruct (run_two_verbosity params (withHeap σ h') Hv Hr)
      as (log' & Hc' & Hlen & _).
    rewrite Hc in Hc'. apply app_inv_head in Hc' as <-.
    cbn [heap withHeap] in Hhints. rewrite He in Hhints.
    exists log. split; [exact Hc|]. rewrite Hhints.
    destruct log as [|c1 [|c2 [|c3 log]]]; try reflexivity. cbn in Hlen. lia.
Qed.
End HandlerOrder.
